(** * bloucobot: a meeting logger for an IRC bot

    A shallow embedding of [bloucobot.py].  The module keeps two process-wide
    tables, [meetings_dict] (a [collections.defaultdict(dict)] from channel to
    the meeting record) and [meeting_vraus] (a plain dict from channel to the
    recorded action items), appends to two log files per meeting and talks to
    the channel through [bot.say].

    Strings are byte strings (UTF-8 for the Portuguese texts).  Channel and
    nick identifiers are taken in the canonical form in which the host
    compares them. *)

From stdpp Require Import gmap strings list fin_maps pretty.
From Stdlib Require Import Ascii ZArith Lia.

Local Open Scope Z_scope.

(** ** Python string operations used by the module *)

Module Str.

(** [s.replace(c, by)] for a one-character [c]. *)
Fixpoint replace (c : ascii) (by_ : string) (s : string) : string :=
  match s with
  | EmptyString => EmptyString
  | String a s' =>
      if Ascii.eqb a c then by_ +:+ replace c by_ s'
      else String a (replace c by_ s')
  end.

Fixpoint lstrip (c : ascii) (s : string) : string :=
  match s with
  | EmptyString => EmptyString
  | String a s' => if Ascii.eqb a c then lstrip c s' else s
  end.

Fixpoint rstrip (c : ascii) (s : string) : string :=
  match s with
  | EmptyString => EmptyString
  | String a s' =>
      match rstrip c s' with
      | EmptyString => if Ascii.eqb a c then EmptyString else String a EmptyString
      | r => String a r
      end
  end.

(** [s.strip(c)] for a one-character [c]. *)
Definition strip (c : ascii) (s : string) : string := rstrip c (lstrip c s).

Definition lower_ascii (a : ascii) : ascii :=
  let n := nat_of_ascii a in
  if ((65 <=? n)%nat && (n <=? 90)%nat)%bool then ascii_of_nat (n + 32) else a.

(** [s.lower()] on ASCII text: only the letters A-Z change.  Python also
    lower-cases the letters beyond ASCII, which are left as they are here, so
    what is stated of a lower-cased argument is stated of ASCII arguments. *)
Fixpoint lower (s : string) : string :=
  match s with
  | EmptyString => EmptyString
  | String a s' => String (lower_ascii a) (lower s')
  end.

(** [s.split(c)] for a one-character separator: consecutive separators
    give empty tokens, and the result is never the empty list. *)
Fixpoint split (c : ascii) (s : string) : list string :=
  match s with
  | EmptyString => [EmptyString]
  | String a s' =>
      if Ascii.eqb a c then EmptyString :: split c s'
      else match split c s' with
           | [] => [String a EmptyString]
           | tok :: rest => String a tok :: rest
           end
  end.

Definition startswith (s p : string) : bool := String.prefix p s.

Fixpoint endswith (s p : string) : bool :=
  String.eqb s p ||
  match s with
  | EmptyString => false
  | String _ s' => endswith s' p
  end.

(** [x in s] for two strings. *)
Fixpoint contains (s x : string) : bool :=
  String.prefix x s ||
  match s with
  | EmptyString => false
  | String _ s' => contains s' x
  end.

Definition is_empty (s : string) : bool :=
  match s with EmptyString => true | _ => false end.

End Str.

(** [string.punctuation] and [string.whitespace]. *)
Definition punctuation : string :=
  "!" +:+ String (ascii_of_nat 34) "#$%&'()*+,-./:;<=>?@[\]^_`{|}~".

Definition whitespace : string :=
  String (ascii_of_nat 32) (String (ascii_of_nat 9) (String (ascii_of_nat 10)
  (String (ascii_of_nat 13) (String (ascii_of_nat 11)
  (String (ascii_of_nat 12) EmptyString))))).

(** ** [time.gmtime] and [time.strftime] *)

Module Time.

Record struct_time := mk_tm {
  tm_year : Z; tm_mon : Z; tm_mday : Z;
  tm_hour : Z; tm_min : Z; tm_sec : Z
}.

(** Gregorian date of the day [z] days after 1970-01-01. *)
Definition civil_from_days (z : Z) : Z * Z * Z :=
  let z := z + 719468 in
  let era := z / 146097 in
  let doe := z - era * 146097 in
  let yoe := (doe - doe / 1460 + doe / 36524 - doe / 146096) / 365 in
  let doy := doe - (365 * yoe + yoe / 4 - yoe / 100) in
  let mp := (5 * doy + 2) / 153 in
  let d := doy - (153 * mp + 2) / 5 + 1 in
  let m := if mp <? 10 then mp + 3 else mp - 9 in
  let y := yoe + era * 400 in
  (if m <=? 2 then y + 1 else y, m, d).

(** The number of days from 1970-01-01 to a Gregorian date, the way
    [calendar.timegm] counts them; it is used to cross-check
    [civil_from_days]. *)
Definition days_from_civil (y m d : Z) : Z :=
  let y := if m <=? 2 then y - 1 else y in
  let era := y / 400 in
  let yoe := y - era * 400 in
  let mp := if 2 <? m then m - 3 else m + 9 in
  let doy := (153 * mp + 2) / 5 + d - 1 in
  let doe := yoe * 365 + yoe / 4 - yoe / 100 + doy in
  era * 146097 + doe - 719468.

Definition gmtime (t : Z) : struct_time :=
  let '(y, m, d) := civil_from_days (t / 86400) in
  let s := t mod 86400 in
  mk_tm y m d (s / 3600) ((s mod 3600) / 60) (s mod 60).

(** [%02d] *)
Definition d2 (n : Z) : string :=
  if n <? 10 then "0" +:+ pretty n else pretty n.

(** ["%Y-%m-%d-%H:%M"] *)
Definition fmt_file (tm : struct_time) : string :=
  pretty (tm_year tm) +:+ "-" +:+ d2 (tm_mon tm) +:+ "-" +:+ d2 (tm_mday tm)
  +:+ "-" +:+ d2 (tm_hour tm) +:+ ":" +:+ d2 (tm_min tm).

(** ["%Y-%m-%d %H:%M"] *)
Definition fmt_title (tm : struct_time) : string :=
  pretty (tm_year tm) +:+ "-" +:+ d2 (tm_mon tm) +:+ "-" +:+ d2 (tm_mday tm)
  +:+ " " +:+ d2 (tm_hour tm) +:+ ":" +:+ d2 (tm_min tm).

(** ["%H:%M:%S"] *)
Definition fmt_clock (tm : struct_time) : string :=
  d2 (tm_hour tm) +:+ ":" +:+ d2 (tm_min tm) +:+ ":" +:+ d2 (tm_sec tm).

End Time.

(** ** Values, meeting records and the process state *)

(** What the module stores under the keys of a meeting record: [time.time()]
    (whole seconds), strings, [True], lists (of nicks for ["puxam"], of
    [(nick, text)] tuples for ["ows"]) and the empty dict that the factory of
    a [defaultdict(dict)] inserts when a missing key is read. *)
Inductive elem :=
| EStr (s : string)
| EPair (a b : string).

Inductive value :=
| VNum (n : Z)
| VStr (s : string)
| VBool (b : bool)
| VList (l : list elem)
| VDict.

#[global] Instance elem_eq_dec : EqDecision elem.
Proof. solve_decision. Defined.
#[global] Instance value_eq_dec : EqDecision value.
Proof. solve_decision. Defined.

(** Python truth value. *)
Definition truthy (v : value) : bool :=
  match v with
  | VNum n => negb (n =? 0)
  | VStr s => negb (Str.is_empty s)
  | VBool b => b
  | VList l => match l with [] => false | _ => true end
  | VDict => false
  end.

(** [s == v] for a string [s]. *)
Definition eq_str (s : string) (v : value) : bool :=
  match v with VStr s' => String.eqb s s' | _ => false end.

(** [str(v)], as the [%s] conversions use it.  Only strings are ever
    formatted by the module; the other cases follow [repr] without its
    escapes. *)
Definition str_of_elem (e : elem) : string :=
  match e with
  | EStr s => "'" +:+ s +:+ "'"
  | EPair a b => "('" +:+ a +:+ "', '" +:+ b +:+ "')"
  end.

Fixpoint join (sep : string) (l : list string) : string :=
  match l with
  | [] => ""
  | [x] => x
  | x :: l' => x +:+ sep +:+ join sep l'
  end.

Definition str_of (v : value) : string :=
  match v with
  | VNum n => pretty n
  | VStr s => s
  | VBool b => if b then "True" else "False"
  | VList l => "[" +:+ join ", " (map str_of_elem l) +:+ "]"
  | VDict => "{}"
  end.

(** A meeting record: a plain [dict] (made by the factory of
    [meetings_dict]) or a [collections.defaultdict(dict)] (what the reset at
    the end of a meeting installs), with its items. *)
Record Meeting := mkMeeting {
  defaulting : bool;
  items : gmap string value
}.

Definition plain_dict : Meeting := mkMeeting false ∅.
Definition default_dict : Meeting := mkMeeting true ∅.

Record World := mkWorld {
  meetings_dict : gmap string Meeting;
  meeting_vraus : gmap string (list string);
  meeting_log_path : string;
  meeting_log_baseurl : string;
  dirs : gset string;                        (* directories that exist *)
  appended : list (string * string);         (* [logfile.write], oldest first *)
  said : list (string * option value);       (* [bot.say(text[, recipient])] *)
  opens : nat;                               (* files opened so far *)
  ticks : nat                                (* clock readings so far *)
}.

Definition set_meetings (f : gmap string Meeting → gmap string Meeting) (w : World) : World :=
  mkWorld (f (meetings_dict w)) (meeting_vraus w) (meeting_log_path w)
    (meeting_log_baseurl w) (dirs w) (appended w) (said w) (opens w) (ticks w).

Definition set_vraus (f : gmap string (list string) → gmap string (list string)) (w : World) : World :=
  mkWorld (meetings_dict w) (f (meeting_vraus w)) (meeting_log_path w)
    (meeting_log_baseurl w) (dirs w) (appended w) (said w) (opens w) (ticks w).

Definition set_log_path (p : string) (w : World) : World :=
  mkWorld (meetings_dict w) (meeting_vraus w) p
    (meeting_log_baseurl w) (dirs w) (appended w) (said w) (opens w) (ticks w).

Definition set_log_baseurl (u : string) (w : World) : World :=
  mkWorld (meetings_dict w) (meeting_vraus w) (meeting_log_path w)
    u (dirs w) (appended w) (said w) (opens w) (ticks w).

Definition set_dirs (f : gset string → gset string) (w : World) : World :=
  mkWorld (meetings_dict w) (meeting_vraus w) (meeting_log_path w)
    (meeting_log_baseurl w) (f (dirs w)) (appended w) (said w) (opens w) (ticks w).

Definition add_appended (path text : string) (w : World) : World :=
  mkWorld (meetings_dict w) (meeting_vraus w) (meeting_log_path w)
    (meeting_log_baseurl w) (dirs w) (appended w ++ [(path, text)]) (said w)
    (opens w) (ticks w).

Definition add_said (text : string) (to : option value) (w : World) : World :=
  mkWorld (meetings_dict w) (meeting_vraus w) (meeting_log_path w)
    (meeting_log_baseurl w) (dirs w) (appended w) (said w ++ [(text, to)])
    (opens w) (ticks w).

Definition bump_opens (w : World) : World :=
  mkWorld (meetings_dict w) (meeting_vraus w) (meeting_log_path w)
    (meeting_log_baseurl w) (dirs w) (appended w) (said w) (S (opens w)) (ticks w).

Definition bump_ticks (w : World) : World :=
  mkWorld (meetings_dict w) (meeting_vraus w) (meeting_log_path w)
    (meeting_log_baseurl w) (dirs w) (appended w) (said w) (opens w) (S (ticks w)).

(** ** Exceptions and the handler monad *)

Inductive exn := KeyError | TypeError | AttributeError | OSError | RequestError.

Inductive res (A : Type) :=
| Ok (a : A)
| Raise (e : exn).
Arguments Ok {A} a.
Arguments Raise {A} e.

(** A computation runs on the process state; when it raises, the changes
    made before the exception stay. *)
Definition M (A : Type) : Type := World → res A * World.

Definition ret {A} (a : A) : M A := λ w, (Ok a, w).
Definition raise {A} (e : exn) : M A := λ w, (Raise e, w).
Definition bind {A B} (m : M A) (k : A → M B) : M B :=
  λ w, match m w with
       | (Ok a, w') => k a w'
       | (Raise e, w') => (Raise e, w')
       end.

(** The sequencing notations [x ← m; k] and [m;; k] are stdpp's. *)
#[global] Instance M_ret : MRet M := @ret.
#[global] Instance M_bind : MBind M := λ A B k m, bind m k.

(** [try: m except KeyError: h] *)
Definition except_KeyError {A} (m : M A) (h : M A) : M A :=
  λ w, match m w with
       | (Raise KeyError, w') => h w'
       | r => r
       end.

(** [try: m except Exception: h]; the handler may raise the exception
    again. *)
Definition except_Exception {A} (m : M A) (h : exn → M A) : M A :=
  λ w, match m w with
       | (Raise e, w') => h e w'
       | r => r
       end.

(** [for x in l: body] *)
Fixpoint for_each {A} (l : list A) (body : A → M unit) : M unit :=
  match l with
  | [] => ret tt
  | x :: l' => body x;; for_each l' body
  end.

Definition modify (f : World → World) : M unit := λ w, (Ok tt, f w).
Definition gets {A} (f : World → A) : M A := λ w, (Ok (f w), w).

(** [meetings_dict[channel][key]]: the outer [defaultdict] makes a plain
    dict for a channel it does not know; a missing key raises [KeyError] in
    a plain dict and is bound to an empty dict in a [defaultdict(dict)]. *)
Definition getitem (channel key : string) : M value :=
  λ w, match meetings_dict w !! channel with
       | None => (Raise KeyError, set_meetings (<[channel := plain_dict]>) w)
       | Some r =>
           match items r !! key with
           | Some v => (Ok v, w)
           | None =>
               if defaulting r
               then (Ok VDict,
                     set_meetings (<[channel := mkMeeting true (<[key := VDict]> (items r))]>) w)
               else (Raise KeyError, w)
           end
       end.

(** [meetings_dict[channel][key] = v] *)
Definition setitem (channel key : string) (v : value) : M unit :=
  modify (set_meetings (λ md,
    match md !! channel with
    | None => <[channel := mkMeeting false {[ key := v ]}]> md
    | Some r => <[channel := mkMeeting (defaulting r) (<[key := v]> (items r))]> md
    end)).

(** [meetings_dict[channel] = collections.defaultdict(dict)] *)
Definition reset (channel : string) : M unit :=
  modify (set_meetings (<[channel := default_dict]>)).

(** ** The host runtime *)

(** What the module takes from the bot framework and the operating system. *)
Record Host := mkHost {
  help_prefix : string;                  (* [bot.config.core.help_prefix] *)
  bot_nick : string;                     (* [bot.nick] *)
  config_log_path : string;              (* [bot.config.bloucobot.meeting_log_path] *)
  config_log_baseurl : string;           (* [bot.config.bloucobot.meeting_log_baseurl] *)
  nick_lower : string → string;          (* [trigger.nick.lower()] *)
  bold : string → string;                (* [formatting.bold] *)
  quote : string → string;               (* [tools.web.quote] *)
  clock : nat → Z;                       (* the n-th reading of the clock, in whole
                                            seconds: [time.time()] without its
                                            fraction, which is what [gmtime] sees *)
  open_ok : nat → bool;                  (* does the n-th [codecs.open] succeed *)
  makedirs_ok : string → bool;           (* does [os.makedirs] succeed *)
  find_title : string → option (option string);
                                         (* [None]: it raises; [Some None]: no title *)
  http_get : string → option string;     (* [requests.get(url).text]; [None]: it raises *)
  md5_hex : string → string              (* [hashlib.md5(s.encode('utf-8')).hexdigest()] *)
}.

(** The message that fired a command: where it was sent, by whom, the whole
    text after the command ([group(2)]) and its first token ([group(3)]).
    An absent group is the empty string; both are false in Python. *)
Record Trigger := mkTrigger {
  sender : string;
  nick : string;
  group2 : string;
  group3 : string;
  is_privmsg : bool
}.

Definition UNTITLED_MEETING : string := "Anônimo".

Definition dq : string := String (ascii_of_nat 34) EmptyString.
Definition CRLF : string := String (ascii_of_nat 13) (String (ascii_of_nat 10) EmptyString).
Definition LF : string := String (ascii_of_nat 10) EmptyString.

(** [os.path.join(a, b)] *)
Definition path_join (a b : string) : string :=
  if Str.startswith b "/" then b
  else if Str.is_empty a || Str.endswith a "/" then a +:+ b
  else a +:+ "/" +:+ b.

(** The loop [for character in punctuation + whitespace:
    name = name.replace(character, "-")]. *)
Definition sluggify (name : string) : string :=
  fold_left (λ name character, Str.replace character "-" name)
    (String.list_ascii_of_string (punctuation +:+ whitespace)) name.

(** The argument of [time.gmtime]: a number ([True] counts as 1). *)
Definition as_seconds (v : value) : M Z :=
  match v with
  | VNum n => ret n
  | VBool b => ret (Z.b2z b)
  | _ => raise TypeError
  end.

(** [try: title = find_title(link) except Exception: title = ""], then
    formatted with [%s] ([find_title] may return [None]). *)
Definition title_text (page : option (option string)) : string :=
  match page with
  | Some (Some t) => t
  | Some None => "None"
  | None => ""
  end.

Section Bloucobot.

Variable h : Host.

Definition say (text : string) : M unit := modify (add_said text None).
Definition say_to (text : string) (recipient : value) : M unit :=
  modify (add_said text (Some recipient)).

(** [time.time()], [time.gmtime()] *)
Definition now : M Z := λ w, (Ok (clock h (ticks w)), bump_ticks w).

(** [codecs.open(path, "a", encoding="utf-8")] *)
Definition open_append (path : string) : M unit :=
  λ w, (if open_ok h (opens w) then Ok tt else Raise OSError, bump_opens w).

Definition write (path text : string) : M unit := modify (add_appended path text).

Definition figure_logfile_name (channel : string) : M string :=
  t ← getitem channel "title";
  name ← (if eq_str UNTITLED_MEETING t then ret (VStr "untitled")
           else getitem channel "title");
  name ← (match name with
           | VStr s => ret (sluggify s)
           | _ => raise AttributeError
           end);
  let name := Str.strip "-" name in
  start ← getitem channel "start";
  secs ← as_seconds start;
  let timestring := Time.fmt_file (Time.gmtime secs) in
  ret (timestring +:+ "_" +:+ name).

Definition log_html_start (channel : string) : M unit :=
  dir ← gets meeting_log_path;
  base ← figure_logfile_name channel;
  let logfile := path_join (dir +:+ channel) (base +:+ ".html") in
  open_append logfile;;
  start ← getitem channel "start";
  secs ← as_seconds start;
  let timestring := Time.fmt_title (Time.gmtime secs) in
  t ← getitem channel "title";
  let title := str_of t +:+ " at " +:+ channel +:+ ", " +:+ timestring in
  write logfile
    ("<!doctype html><html><head><meta charset='utf-8'>" +:+ LF +:+
     "<title>" +:+ title +:+ "</title>" +:+ LF +:+ "</head><body>" +:+ LF +:+
     "<h1>" +:+ title +:+ "</h1>" +:+ LF);;
  hd ← getitem channel "head";
  write logfile ("<h4>Meeting started by " +:+ str_of hd +:+ "</h4><ul>" +:+ LF).

Definition log_html_listitem (item channel : string) : M unit :=
  dir ← gets meeting_log_path;
  base ← figure_logfile_name channel;
  let logfile := path_join (dir +:+ channel) (base +:+ ".html") in
  open_append logfile;;
  write logfile ("<li>" +:+ item +:+ "</li>" +:+ LF).

Definition log_html_end (channel : string) : M unit :=
  dir ← gets meeting_log_path;
  base ← figure_logfile_name channel;
  let logfile := path_join (dir +:+ channel) (base +:+ ".html") in
  open_append logfile;;
  t ← now;
  let current_time := Time.fmt_clock (Time.gmtime t) in
  write logfile ("</ul>" +:+ LF +:+ "<h4>Meeting ended at " +:+ current_time
                 +:+ " UTC</h4>" +:+ LF);;
  url ← gets meeting_log_baseurl;
  base ← figure_logfile_name channel;
  let plainlog_url := url +:+ quote h (channel +:+ "/" +:+ base +:+ ".txt") in
  write logfile ("<a href=" +:+ dq +:+ plainlog_url +:+ dq +:+ ">Full log</a>");;
  write logfile (LF +:+ "</body>" +:+ LF +:+ "</html>" +:+ LF).

Definition log_plain (item channel : string) : M unit :=
  dir ← gets meeting_log_path;
  base ← figure_logfile_name channel;
  let logfile := path_join (dir +:+ channel) (base +:+ ".txt") in
  open_append logfile;;
  t ← now;
  let current_time := Time.fmt_clock (Time.gmtime t) in
  write logfile ("[" +:+ current_time +:+ "] " +:+ item +:+ CRLF).

Definition is_meeting_running (channel : string) : M value :=
  except_KeyError (getitem channel "running") (ret (VBool false)).

(** [x in v] *)
Definition py_in (x : string) (v : value) : M bool :=
  match v with
  | VList l => ret (bool_decide (EStr x ∈ l))
  | VStr s => ret (Str.contains s x)
  | VDict => ret false
  | VNum _ | VBool _ => raise TypeError
  end.

Definition is_chair (nick channel : string) : M bool :=
  except_KeyError
    (hd ← getitem channel "head";
     if eq_str (nick_lower h nick) hd then ret true
     else (p ← getitem channel "puxam"; py_in (nick_lower h nick) p))
    (ret false).

(** [os.makedirs(path)] *)
Definition makedirs (path : string) : M unit :=
  λ w, if makedirs_ok h path then (Ok tt, set_dirs (λ d, {[path]} ∪ d) w)
       else (Raise OSError, w).

(** Started with [.vemblouco]; the decorator [require_chanmsg] answers a
    private message itself. *)
Definition vemblouco (trigger : Trigger) : M unit :=
  if is_privmsg trigger then say "Meetings can only be started in channels"
  else
  running ← is_meeting_running (sender trigger);
  if truthy running then say "Já tem um Blouco ativo!"
  else
  t ← now;
  setitem (sender trigger) "start" (VNum t);;
  (if Str.is_empty (group2 trigger)
   then setitem (sender trigger) "title" (VStr UNTITLED_MEETING)
   else setitem (sender trigger) "title" (VStr (group2 trigger)));;
  setitem (sender trigger) "head" (VStr (nick_lower h (nick trigger)));;
  setitem (sender trigger) "running" (VBool true);;
  setitem (sender trigger) "ows" (VList []);;
  modify (set_log_path (config_log_path h));;
  p ← gets meeting_log_path;
  (if Str.endswith p "/" then ret tt else modify (set_log_path (p +:+ "/")));;
  modify (set_log_baseurl (config_log_baseurl h));;
  u ← gets meeting_log_baseurl;
  (if Str.endswith u "/" then ret tt else modify (set_log_baseurl (u +:+ "/")));;
  p ← gets meeting_log_path;
  let channel_log_path := p +:+ sender trigger in
  isdir ← gets (λ w, bool_decide (channel_log_path ∈ dirs w));
  (if (isdir : bool) then ret tt
   else except_Exception (makedirs channel_log_path)
          (λ e,
             say "Blouco não veio: Não consegui criar o diretório de log para este canal";;
             reset (sender trigger);;
             raise e));;
  log_plain ("Blouco trazido pela Porta-estandarte " +:+ nick_lower h (nick trigger))
    (sender trigger);;
  log_html_start (sender trigger);;
  modify (set_vraus (<[sender trigger := []]>));;
  let p := help_prefix h in
  say (bold h "O Blouco é aqui!" +:+ " mande " +:+ p +:+ "vrau, " +:+ p +:+ "blz, "
       +:+ p +:+ "seliga, " +:+ p +:+ "link, " +:+ p +:+ "puxam, " +:+ p
       +:+ "missão, and " +:+ p +:+ "ows para "
       +:+ "controlar o Blouco. Para partir, mande " +:+ p +:+ "vaiblouco");;
  say ("Quem não está puxando pode participar me enviando uma DM com `"
       +:+ p +:+ "ow " +:+ sender trigger +:+ "` seguido de seu comentário.").

Definition meetingmissao (trigger : Trigger) : M unit :=
  running ← is_meeting_running (sender trigger);
  if negb (truthy running) then say "Não tem Blouco aqui"
  else if Str.is_empty (group2 trigger) then say "Qual a missão?"
  else
  chair ← is_chair (nick trigger) (sender trigger);
  if negb chair then say "Somente Porta-estandarte e Puxadoras podem fazer isso"
  else
  setitem (sender trigger) "current_missão" (VStr (group2 trigger));;
  dir ← gets meeting_log_path;
  base ← figure_logfile_name (sender trigger);
  let logfile := path_join (dir +:+ sender trigger) (base +:+ ".html") in
  open_append logfile;;
  write logfile ("</ul><h3>" +:+ group2 trigger +:+ "</h3><ul>");;
  log_plain ("Missão atual: " +:+ group2 trigger +:+ " (trazida por "
             +:+ nick trigger +:+ ")") (sender trigger);;
  say (bold h "Missão atual:" +:+ " " +:+ group2 trigger).

(** [requests.get(url).text] *)
Definition requests_get (url : string) : M string :=
  match http_get h url with
  | Some text => ret text
  | None => raise RequestError
  end.

(** [del meeting_vraus[channel]] *)
Definition del_vraus (channel : string) : M unit :=
  λ w, match meeting_vraus w !! channel with
       | Some _ => (Ok tt, set_vraus (delete channel) w)
       | None => (Raise KeyError, w)
       end.

Definition vaiblouco (trigger : Trigger) : M unit :=
  running ← is_meeting_running (sender trigger);
  if negb (truthy running) then say "Não tem Blouco aqui"
  else
  chair ← is_chair (nick trigger) (sender trigger);
  if negb chair then say "Somente Porta-estandarte e Puxadoras podem fazer isso"
  else
  t ← now;
  start ← getitem (sender trigger) "start";
  s ← as_seconds start;
  let meeting_length := t - s in
  say (bold h "Blouco indo embora!" +:+ " Ele ficou "
       +:+ pretty (meeting_length / 60) +:+ " minutos aqui");;
  log_html_end (sender trigger);;
  u ← gets meeting_log_baseurl;
  base ← figure_logfile_name (sender trigger);
  let htmllog_url := u +:+ quote h (sender trigger +:+ "/" +:+ base +:+ ".html") in
  u ← gets meeting_log_baseurl;
  base ← figure_logfile_name (sender trigger);
  let fulllog_url := u +:+ quote h (sender trigger +:+ "/" +:+ base +:+ ".txt") in
  log_plain ("O Blouco saiu às " +:+ nick trigger +:+ ". Tempo aqui: "
             +:+ pretty (meeting_length / 60) +:+ " minutos") (sender trigger);;
  say ("Registro principal: " +:+ htmllog_url);;
  say ("Registro completo: " +:+ fulllog_url);;
  reset (sender trigger);;
  page_source ← requests_get fulllog_url;
  let md5 := md5_hex h page_source in
  say ("Segue o Blouco! " +:+ md5);;
  del_vraus (sender trigger).

Definition puxam (trigger : Trigger) : M unit :=
  running ← is_meeting_running (sender trigger);
  if negb (truthy running) then say "Não tem Blouco aqui"
  else if Str.is_empty (group2 trigger)
  then say ("Quem vai puxar? Tente `" +:+ help_prefix h
            +:+ "puxam Fulana Beltrana_18 C1cl4n4`")
  else
  hd ← getitem (sender trigger) "head";
  if eq_str (nick_lower h (nick trigger)) hd then
    setitem (sender trigger) "puxam"
      (VList (map EStr (Str.split " " (Str.lower (group2 trigger)))));;
    let puxam_readable := Str.replace " " ", " (Str.lower (group2 trigger)) in
    log_plain ("Puxadoras: " +:+ puxam_readable) (sender trigger);;
    log_html_listitem
      ("<span style='font-weight: bold'>Puxadoras:</span> " +:+ puxam_readable)
      (sender trigger);;
    say (bold h "Puxadoras:" +:+ " " +:+ puxam_readable)
  else say "Somente a Porta-estandarte pode consagrar Puxadoras".

(** [meeting_vraus[channel]] *)
Definition get_vraus (channel : string) : M (list string) :=
  λ w, match meeting_vraus w !! channel with
       | Some l => (Ok l, w)
       | None => (Raise KeyError, w)
       end.

Definition meetingvrau (trigger : Trigger) : M unit :=
  running ← is_meeting_running (sender trigger);
  if negb (truthy running) then say "Não tem Blouco aqui"
  else if Str.is_empty (group2 trigger)
  then say ("Tente `" +:+ help_prefix h +:+ "vrau Fulanin vai fazer tal coisa`")
  else
  chair ← is_chair (nick trigger) (sender trigger);
  if negb chair then say "Somente a Porta-estandarte e as Puxadoras podem fazer isso"
  else
  log_plain ("vrau: " +:+ group2 trigger) (sender trigger);;
  log_html_listitem ("<span style='font-weight: bold'>vrau: </span>" +:+ group2 trigger)
    (sender trigger);;
  l ← get_vraus (sender trigger);
  modify (set_vraus (<[sender trigger := l ++ [group2 trigger]]>));;
  say (bold h "vrau:" +:+ " " +:+ group2 trigger).

Definition listvraus (trigger : Trigger) : M unit :=
  running ← is_meeting_running (sender trigger);
  if negb (truthy running) then say "Não tem Blouco aqui"
  else
  l ← get_vraus (sender trigger);
  for_each l (λ vrau, say (bold h "vrau:" +:+ " " +:+ vrau)).

Definition meetingblz (trigger : Trigger) : M unit :=
  running ← is_meeting_running (sender trigger);
  if negb (truthy running) then say "Não tem Blouco aqui"
  else if Str.is_empty (group2 trigger)
  then say ("Tente `" +:+ help_prefix h +:+ "blz vai ser demais isso aí manda ver`")
  else
  chair ← is_chair (nick trigger) (sender trigger);
  if negb chair then say "Somente a Porta-estandarte e as Puxadoras podem fazer isso"
  else
  log_plain ("blz: " +:+ group2 trigger) (sender trigger);;
  log_html_listitem ("<span style='font-weight: bold'>blz: </span>" +:+ group2 trigger)
    (sender trigger);;
  say (bold h "blz:" +:+ " " +:+ group2 trigger).

Definition meetinglink (trigger : Trigger) : M unit :=
  running ← is_meeting_running (sender trigger);
  if negb (truthy running) then say "Não tem Blouco aqui"
  else if Str.is_empty (group2 trigger)
  then say ("Tente `" +:+ help_prefix h +:+ "link https://algum-website.exemplo/`")
  else
  chair ← is_chair (nick trigger) (sender trigger);
  if negb chair then say "Somente a Porta-estandarte e as Puxadoras podem fazer isso"
  else
  let link := group2 trigger in
  let link := if negb (Str.startswith link "http") then "http://" +:+ link else link in
  let title := title_text (find_title h link) in
  log_plain ("LINK: " +:+ link +:+ " [" +:+ title +:+ "]") (sender trigger);;
  log_html_listitem ("<a href=" +:+ dq +:+ link +:+ dq +:+ ">" +:+ title +:+ "</a>")
    (sender trigger);;
  say (bold h "LINK:" +:+ " " +:+ link).

Definition meetingseliga (trigger : Trigger) : M unit :=
  running ← is_meeting_running (sender trigger);
  if negb (truthy running) then say "Não tem Blouco aqui"
  else if Str.is_empty (group2 trigger)
  then say ("Tente `" +:+ help_prefix h +:+ "seliga alguma informação relevante`")
  else
  chair ← is_chair (nick trigger) (sender trigger);
  if negb chair then say "Somente a Porta-estandarte e as Puxadoras podem fazer isso"
  else
  log_plain ("seliga: " +:+ group2 trigger) (sender trigger);;
  log_html_listitem (group2 trigger) (sender trigger);;
  say (bold h "seliga:" +:+ " " +:+ group2 trigger).

(** [v.append(x)] *)
Definition append_to (v : value) (x : elem) : M value :=
  match v with
  | VList l => ret (VList (l ++ [x]))
  | _ => raise AttributeError
  end.

Definition take_ow (trigger : Trigger) : M unit :=
  if Str.is_empty (group3 trigger)
  then say ("Uso: " +:+ help_prefix h +:+ "ow <comentário>")
  else
  let message := group2 trigger in
  running ← is_meeting_running (sender trigger);
  if negb (truthy running) then say "Não tem Blouco aqui."
  else
    ows ← getitem (sender trigger) "ows";
    ows ← append_to ows (EPair (nick trigger) message);
    setitem (sender trigger) "ows" ows;;
    say "Seu Ow foi gravado. Vai aparecer quando as Puxadoras me pedirem para mostrar os Ows.";;
    hd ← getitem (sender trigger) "head";
    say_to "Ow gravado" hd.

(** The loop of [show_ows] over the stored value: a list is walked, and
    an entry that is not a pair cannot fill ["<%s> %s"]. *)
Definition each_ow (ows : value) (body : string → M unit) : M unit :=
  match ows with
  | VList l =>
      for_each l (λ ow,
        match ow with
        | EPair a b => body ("<" +:+ a +:+ "> " +:+ b)
        | EStr _ => raise TypeError
        end)
  | VStr _ | VNum _ | VBool _ => raise TypeError
  | VDict => ret tt
  end.

Definition show_ows (trigger : Trigger) : M unit :=
  running ← is_meeting_running (sender trigger);
  if negb (truthy running) then ret tt
  else
  chair ← is_chair (nick trigger) (sender trigger);
  if negb chair then say "Somente Porta-estandarte e Puxadoras podem fazer isso"
  else
  ows ← getitem (sender trigger) "ows";
  if truthy ows then
    let msg := "Lista de Ows:" in
    say msg;;
    log_plain ("<" +:+ bot_nick h +:+ "> " +:+ msg) (sender trigger);;
    each_ow ows (λ msg,
      say msg;;
      log_plain ("<" +:+ bot_nick h +:+ "> " +:+ msg) (sender trigger));;
    setitem (sender trigger) "ows" (VList [])
  else say "Não tem Ows".

End Bloucobot.

(** ** Vocabulary of the statements *)

(** The file name base that [figure_logfile_name] computes for a meeting
    with this title and start. *)
Definition logfile_name (title : string) (start : Z) : string :=
  Time.fmt_file (Time.gmtime start) +:+ "_" +:+
  Str.strip "-"
    (sluggify (if String.eqb UNTITLED_MEETING title then "untitled" else title)).

Definition logfile_path (dir channel title : string) (start : Z)
    (ext : string) : string :=
  path_join (dir +:+ channel) (logfile_name title start +:+ ext).

(** What [log_plain] writes at the [n]-th clock reading, and what
    [log_html_listitem] writes. *)
Definition plain_line (h : Host) (n : nat) (item : string) : string :=
  "[" +:+ Time.fmt_clock (Time.gmtime (clock h n)) +:+ "] " +:+ item +:+ CRLF.

Definition html_item (item : string) : string := "<li>" +:+ item +:+ "</li>" +:+ LF.

(** The channel holds the record [r] of a meeting that was started by
    [owner] with this title at this time and is running. *)
Definition started (md : gmap string Meeting) (channel : string) (r : Meeting)
    (owner title : string) (start : Z) : Prop :=
  md !! channel = Some r ∧
  items r !! "running" = Some (VBool true) ∧
  items r !! "head" = Some (VStr owner) ∧
  items r !! "title" = Some (VStr title) ∧
  items r !! "start" = Some (VNum start).

(** The three pieces [log_html_end] writes at the [n]-th clock reading. *)
Definition html_end_1 (h : Host) (n : nat) : string :=
  "</ul>" +:+ LF +:+ "<h4>Meeting ended at "
  +:+ Time.fmt_clock (Time.gmtime (clock h n)) +:+ " UTC</h4>" +:+ LF.

Definition html_end_2 (h : Host) (url c title : string) (start : Z) : string :=
  "<a href=" +:+ dq +:+
  (url +:+ quote h (c +:+ "/" +:+ logfile_name title start +:+ ".txt"))
  +:+ dq +:+ ">Full log</a>".

Definition html_end_3 : string := LF +:+ "</body>" +:+ LF +:+ "</html>" +:+ LF.

(** The address under which [vaiblouco] announces a log file. *)
Definition log_url (h : Host) (url c title : string) (start : Z)
    (ext : string) : string :=
  url +:+ quote h (c +:+ "/" +:+ logfile_name title start +:+ ext).

(** [nick] is the owner or one of the chairs of the record. *)
Definition chairing (h : Host) (r : Meeting) (owner nick : string) : Prop :=
  nick_lower h nick = owner ∨
  ∃ l, items r !! "puxam" = Some (VList l) ∧ EStr (nick_lower h nick) ∈ l.

(** A record that is absent, has no chairs, or is a plain dict without
    owner: the cases in which [is_chair] cannot look at a list of chairs. *)
Definition incomplete (md : gmap string Meeting) (channel : string) : Prop :=
  match md !! channel with
  | None => True
  | Some r =>
      items r !! "puxam" = None ∨ (items r !! "head" = None ∧ defaulting r = false)
  end.

(** [name] is what the record of the channel holds as its owner. *)
Definition owner_is (md : gmap string Meeting) (channel name : string) : bool :=
  match md !! channel with
  | Some r => match items r !! "head" with
              | Some v => eq_str name v
              | None => false
              end
  | None => false
  end.

(** [w'] is [w] up to the table of meetings. *)
Definition same_but_meetings (w w' : World) : Prop :=
  w' = set_meetings (λ _, meetings_dict w') w.

(** The table [md'] is [md] after reads of the channel: the other channels
    are as they were; an unknown channel has got an empty plain dict; a known
    record has kept its kind and every item, and whatever it has got in
    addition is an empty dict in a [defaultdict(dict)]. *)
Definition grown (channel : string) (md md' : gmap string Meeting) : Prop :=
  (∀ c, c ≠ channel → md' !! c = md !! c) ∧
  match md !! channel with
  | None => md' !! channel = Some plain_dict
  | Some r =>
      ∃ r', md' !! channel = Some r' ∧ defaulting r' = defaulting r ∧
        (∀ k v, items r !! k = Some v → items r' !! k = Some v) ∧
        (∀ k v, items r' !! k = Some v →
                items r !! k = Some v ∨ (defaulting r = true ∧ v = VDict))
  end.

(** The slug as the specification words it: the characters of the two
    classes, given by their codes, each become a hyphen. *)
Definition is_punctuation_or_whitespace (a : ascii) : bool :=
  let n := nat_of_ascii a in
  ((9 <=? n) && (n <=? 13) || (32 <=? n) && (n <=? 47) || (58 <=? n) && (n <=? 64)
   || (91 <=? n) && (n <=? 96) || (123 <=? n) && (n <=? 126))%nat.

Fixpoint hyphenate (s : string) : string :=
  match s with
  | EmptyString => EmptyString
  | String a s' =>
      String (if is_punctuation_or_whitespace a then "-"%char else a) (hyphenate s')
  end.

Fixpoint map_string (f : ascii → ascii) (s : string) : string :=
  match s with
  | EmptyString => EmptyString
  | String a s' => String (f a) (map_string f s')
  end.

Definition hyphen_if (cs : list ascii) (a : ascii) : ascii :=
  if existsb (Ascii.eqb a) cs then "-"%char else a.

(** ** A concrete deployment, for the examples *)

Module Demo.

(** [formatting.bold] wraps the text in the control character 0x02. *)
Definition bold (s : string) : string :=
  String (ascii_of_nat 2) (s +:+ String (ascii_of_nat 2) EmptyString).

Definition host : Host :=
  mkHost "." "blouco" "/srv/meetings" "http://example.org/meetings"
    Str.lower bold (λ s, s)
    (λ n, 1704164640 + 60 * Z.of_nat n)
    (λ _, true) (λ _, true)
    (λ _, None) (λ _, Some "") (λ _, "d41d8cd98f00b204e9800998ecf8427e").

(** The same deployment on a disk that refuses every [codecs.open]. *)
Definition broken_disk : Host :=
  mkHost "." "blouco" "/srv/meetings" "http://example.org/meetings"
    Str.lower bold (λ s, s)
    (λ n, 1704164640 + 60 * Z.of_nat n)
    (λ _, false) (λ _, true)
    (λ _, None) (λ _, Some "") (λ _, "d41d8cd98f00b204e9800998ecf8427e").

(** The process right after the module is loaded. *)
Definition boot : World := mkWorld ∅ ∅ "" "" ∅ [] [] 0 0.

(** A command sent in a channel, and one sent to the bot in private (the
    sender of a private message is the nick itself). *)
Definition in_channel (channel nick text : string) : Trigger :=
  mkTrigger channel nick text (hd "" (Str.split " " text)) false.

Definition in_private (nick text : string) : Trigger :=
  mkTrigger nick nick text (hd "" (Str.split " " text)) true.

Definition run (m : M unit) (w : World) : World := snd (m w).

Definition record_of (w : World) (channel : string) : Meeting :=
  default plain_dict (meetings_dict w !! channel).

(** Alice opens "Roll Call!" in #blouco on 2024-01-02 at 03:04 UTC. *)
Definition opened : World :=
  run (vemblouco host (in_channel "#blouco" "Alice" "Roll Call!")) boot.

(** ...and records two action items. *)
Definition with_vraus : World :=
  run (meetingvrau host (in_channel "#blouco" "alice" "Bob brings the drums"))
    (run (meetingvrau host (in_channel "#blouco" "alice" "Carol prints the map")) opened).

(** ...or Zed hands in one side note from inside the channel. *)
Definition with_ow : World :=
  run (take_ow host (in_channel "#blouco" "zed" "louder please")) opened.

(** ...or Alice closes the meeting, and later opens another one. *)
Definition closed : World :=
  run (vaiblouco host (in_channel "#blouco" "alice" "")) opened.

Definition reopened : World :=
  run (vemblouco host (in_channel "#blouco" "Alice" ""))
    (run (vaiblouco host (in_channel "#blouco" "alice" "")) with_vraus).

Definition roll_call : Meeting := record_of opened "#blouco".

End Demo.

(** ** Vocabulary of the further properties *)

(** The part of the file name that [figure_logfile_name] derives from the
    title. *)
Definition slug (title : string) : string :=
  Str.strip "-"
    (sluggify (if String.eqb UNTITLED_MEETING title then "untitled" else title)).

(** The characters that the loop of [figure_logfile_name] walks over. *)
Definition replaced : list ascii :=
  String.list_ascii_of_string (punctuation +:+ whitespace).

Definition chars (s : string) : list ascii := String.list_ascii_of_string s.

(** A configured path or URL with the separator [vemblouco] adds when it is
    missing. *)
Definition with_sep (s : string) : string :=
  if Str.endswith s "/" then s else s +:+ "/".

(** The title [vemblouco] stores for an argument. *)
Definition title_for (arg : string) : string :=
  if Str.is_empty arg then UNTITLED_MEETING else arg.

(** The two pieces [log_html_start] writes. *)
Definition html_start_1 (c title : string) (start : Z) : string :=
  "<!doctype html><html><head><meta charset='utf-8'>" +:+ LF +:+
  "<title>" +:+ (title +:+ " at " +:+ c +:+ ", " +:+ Time.fmt_title (Time.gmtime start))
  +:+ "</title>" +:+ LF +:+ "</head><body>" +:+ LF +:+
  "<h1>" +:+ (title +:+ " at " +:+ c +:+ ", " +:+ Time.fmt_title (Time.gmtime start))
  +:+ "</h1>" +:+ LF.

Definition html_start_2 (owner : string) : string :=
  "<h4>Meeting started by " +:+ owner +:+ "</h4><ul>" +:+ LF.

(** The two announcements of [vemblouco]. *)
Definition banner (h : Host) : string :=
  bold h "O Blouco é aqui!" +:+ " mande " +:+ help_prefix h +:+ "vrau, "
  +:+ help_prefix h +:+ "blz, " +:+ help_prefix h +:+ "seliga, "
  +:+ help_prefix h +:+ "link, " +:+ help_prefix h +:+ "puxam, "
  +:+ help_prefix h +:+ "missão, and " +:+ help_prefix h +:+ "ows para "
  +:+ "controlar o Blouco. Para partir, mande " +:+ help_prefix h +:+ "vaiblouco".

Definition ow_hint (h : Host) (c : string) : string :=
  "Quem não está puxando pode participar me enviando uma DM com `"
  +:+ help_prefix h +:+ "ow " +:+ c +:+ "` seguido de seu comentário.".

(** The record [vemblouco] makes of the record [r0] it finds. *)
Definition opened_record (h : Host) (t : Trigger) (start : Z) (r0 : Meeting) : Meeting :=
  mkMeeting (defaulting r0)
    (<["ows" := VList []]>
       (<["running" := VBool true]>
          (<["head" := VStr (nick_lower h (nick t))]>
             (<["title" := VStr (title_for (group2 t))]>
                (<["start" := VNum start]> (items r0)))))).

(** The minutes [vaiblouco] announces at the [n]-th clock reading, counted
    from the whole seconds of the two readings. *)
Definition minutes (h : Host) (n : nat) (start : Z) : Z := (clock h n - start) / 60.

Definition closing_banner (h : Host) (n : nat) (start : Z) : string :=
  bold h "Blouco indo embora!" +:+ " Ele ficou "
  +:+ pretty (minutes h n start) +:+ " minutos aqui".

Definition closing_line (h : Host) (n : nat) (start : Z) (nick : string) : string :=
  "O Blouco saiu às " +:+ nick +:+ ". Tempo aqui: "
  +:+ pretty (minutes h n start) +:+ " minutos".

(** A stored side note, and the line [show_ows] makes of it. *)
Definition ow_elem (p : string * string) : elem := EPair p.1 p.2.
Definition ow_line (p : string * string) : string := "<" +:+ p.1 +:+ "> " +:+ p.2.

(** What the bot says and writes for the notes [l], starting at the
    [n]-th clock reading. *)
Definition ows_said (l : list (string * string)) : list (string * option value) :=
  map (λ p, (ow_line p, None)) l.

Definition ows_logged (h : Host) (path : string) (n : nat)
    (l : list (string * string)) : list (string * string) :=
  imap (λ i p, (path, plain_line h (n + i) ("<" +:+ bot_nick h +:+ "> " +:+ ow_line p))) l.

(** A computation keeps the relation [R] between the state it starts in and
    the state it leaves, whether it returns or raises. *)
Definition keeps (R : World → World → Prop) {A} (m : M A) : Prop :=
  ∀ w, R w (snd (m w)).

(** The records and the action items of the channels other than [c] are
    the same in [w'] as in [w]. *)
Definition others_kept (c : string) (w w' : World) : Prop :=
  ∀ c', c' ≠ c →
    meetings_dict w' !! c' = meetings_dict w !! c' ∧
    meeting_vraus w' !! c' = meeting_vraus w !! c'.

(** The log directory, the base URL and the directories are the same. *)
Definition config_kept (w w' : World) : Prop :=
  meeting_log_path w' = meeting_log_path w ∧
  meeting_log_baseurl w' = meeting_log_baseurl w ∧
  dirs w' = dirs w.

(** A number from 0 to 99 as two decimal digits. *)
Definition two_digits (n : Z) : string :=
  String (ascii_of_nat (48 + Z.to_nat (n / 10)))
    (String (ascii_of_nat (48 + Z.to_nat (n mod 10))) EmptyString).

(** ** The calendar and the slug, as the specification has them *)

(** The Gregorian calendar as a table: leap years, the lengths of the
    months, and the days from 1970-01-01 to a date. *)
Definition is_leap (y : Z) : bool :=
  (y mod 4 =? 0) && (negb (y mod 100 =? 0) || (y mod 400 =? 0)).

Definition days_in_month (y m : Z) : Z :=
  if m =? 2 then (if is_leap y then 29 else 28)
  else if (m =? 4) || (m =? 6) || (m =? 9) || (m =? 11) then 30 else 31.

(** The days from 1970-01-01 to the first of January of the year [y], and
    from there to the first of the month [m]. *)
Definition days_before_year (y : Z) : Z :=
  365 * (y - 1970) + ((y - 1) / 4 - (y - 1) / 100 + (y - 1) / 400) - 477.

Definition days_before_month (y m : Z) : Z :=
  foldr Z.add 0 (map (days_in_month y) (seqZ 1 (m - 1))).

(** The day [y]-[m]-[d] is the day of the calendar on which the instant
    [t], in seconds since 1970-01-01T00:00:00Z, falls; [hh]:[mi] is the hour
    and the minute of that day. *)
Definition utc_date (t y m d : Z) : Prop :=
  1 ≤ m ≤ 12 ∧ 1 ≤ d ≤ days_in_month y m ∧
  days_before_year y + days_before_month y m + (d - 1) = t / 86400.

Definition utc_clock (t hh mi : Z) : Prop :=
  0 ≤ hh ≤ 23 ∧ 0 ≤ mi ≤ 59 ∧ 0 ≤ t mod 86400 - (3600 * hh + 60 * mi) ≤ 59.

(** YYYY-MM-DD-HH:MM *)
Definition date_words (y m d hh mi : Z) : string :=
  pretty y +:+ "-" +:+ two_digits m +:+ "-" +:+ two_digits d +:+ "-"
  +:+ two_digits hh +:+ ":" +:+ two_digits mi.

Fixpoint hyphens (n : nat) : string :=
  match n with O => "" | S n => String "-" (hyphens n) end.

(** [r] is [s] without the hyphens at its two ends. *)
Definition trimmed (s r : string) : Prop :=
  (∃ n k, s = hyphens n +:+ r +:+ hyphens k) ∧
  (∀ r', r ≠ String "-" r') ∧ (∀ r', r ≠ r' +:+ "-").

(** The slug of a title, in the words of the specification. *)
Definition slug_of (title r : string) : Prop :=
  if decide (title = UNTITLED_MEETING) then r = "untitled"
  else trimmed (hyphenate title) r.

(** ** The store after a read, ASCII arguments, the minutes of a close *)

(** The items of a [defaultdict(dict)] after a read of the key [k]: a
    missing key is bound to an empty dict. *)
Definition read_default (k : string) (it : gmap string value) : gmap string value :=
  match it !! k with
  | Some _ => it
  | None => <[k := VDict]> it
  end.

(** [s.isascii()] *)
Definition isascii (s : string) : bool :=
  forallb (λ a, (nat_of_ascii a <? 128)%nat) (String.list_ascii_of_string s).


(** ** More of the sample deployment *)

Module Stage.

(** The deployment of [Demo] where no directory can be made, and the one
    where the published logs cannot be fetched. *)
Definition no_mkdir : Host :=
  mkHost "." "blouco" "/srv/meetings" "http://example.org/meetings"
    Str.lower Demo.bold (λ s, s)
    (λ n, 1704164640 + 60 * Z.of_nat n)
    (λ _, true) (λ _, false)
    (λ _, None) (λ _, Some "") (λ _, "d41d8cd98f00b204e9800998ecf8427e").

Definition offline : Host :=
  mkHost "." "blouco" "/srv/meetings" "http://example.org/meetings"
    Str.lower Demo.bold (λ s, s)
    (λ n, 1704164640 + 60 * Z.of_nat n)
    (λ _, true) (λ _, true)
    (λ _, None) (λ _, None) (λ _, "d41d8cd98f00b204e9800998ecf8427e").

(** A disk that fills up after the first [codecs.open]. *)
Definition full_disk : Host :=
  mkHost "." "blouco" "/srv/meetings" "http://example.org/meetings"
    Str.lower Demo.bold (λ s, s)
    (λ n, 1704164640 + 60 * Z.of_nat n)
    (λ n, Nat.eqb n 2) (λ _, true)
    (λ _, None) (λ _, Some "") (λ _, "d41d8cd98f00b204e9800998ecf8427e").

(** Alice names Bob and Carol as chairs of "Roll Call!". *)
Definition with_chairs : World :=
  Demo.run (puxam Demo.host (Demo.in_channel "#blouco" "Alice" "Bob Carol")) Demo.opened.

(** Zed and Yan hand in a side note each. *)
Definition with_ows : World :=
  Demo.run (take_ow Demo.host (Demo.in_channel "#blouco" "yan" "slower please"))
    Demo.with_ow.

(** Alice opens a meeting without title in #samba. *)
Definition untitled : Trigger := Demo.in_channel "#samba" "Alice" "".

End Stage.

(** ** Running the monad *)

Lemma bind_eq {A B} (m : M A) (k : A → M B) w a w' :
  m w = (Ok a, w') → (m ≫= k) w = k a w'.
Proof. intros E. unfold mbind, M_bind, bind. by rewrite E. Qed.

Lemma bind_raise {A B} (m : M A) (k : A → M B) w e w' :
  m w = (Raise e, w') → (m ≫= k) w = (Raise e, w').
Proof. intros E. unfold mbind, M_bind, bind. by rewrite E. Qed.

Lemma bind_assoc {A B C} (m : M A) (f : A → M B) (g : B → M C) w :
  ((m ≫= f) ≫= g) w = (m ≫= λ x, f x ≫= g) w.
Proof. unfold mbind, M_bind, bind. by destruct (m w) as [[a|e] w']. Qed.

Lemma is_empty_false s : s ≠ "" → Str.is_empty s = false.
Proof. by destruct s. Qed.

Lemma getitem_bound c k w r v :
  meetings_dict w !! c = Some r → items r !! k = Some v →
  getitem c k w = (Ok v, w).
Proof. intros Hc Hk. unfold getitem. by rewrite Hc, Hk. Qed.

Lemma setitem_bound c k v w r :
  meetings_dict w !! c = Some r →
  setitem c k v w
  = (Ok tt, set_meetings (<[c := mkMeeting (defaulting r) (<[k := v]> (items r))]>) w).
Proof. intros Hc. unfold setitem, modify, set_meetings. by rewrite Hc. Qed.

Lemma is_meeting_running_bound c w r v :
  meetings_dict w !! c = Some r → items r !! "running" = Some v →
  is_meeting_running c w = (Ok v, w).
Proof.
  intros Hc Hk. unfold is_meeting_running, except_KeyError.
  by rewrite (getitem_bound _ _ _ _ _ Hc Hk).
Qed.

(** One step of a handler: a primitive that computes, or a call whose
    result a lemma gives. *)
Ltac proj :=
  cbn [meetings_dict meeting_vraus meeting_log_path meeting_log_baseurl dirs
       appended said opens ticks set_meetings set_vraus set_log_path
       set_log_baseurl set_dirs add_appended add_said bump_opens bump_ticks
       items defaulting].
Ltac prim := erewrite bind_eq by reflexivity; proj.
Ltac lookups :=
  repeat first [ progress simpl | rewrite lookup_insert_eq
               | rewrite lookup_insert_ne by done ];
  eauto.
Ltac step L := erewrite bind_eq by (eapply L; lookups; lookups); proj.

(** ** The calendar *)

(** The date that [civil_from_days] gives has a month from 1 to 12 and a
    day from 1 to 31, and counting its days gives the day back. *)
Lemma civil_from_days_sound z :
  let '(y, m, d) := Time.civil_from_days z in
  1 ≤ m ≤ 12 ∧ 1 ≤ d ≤ 31 ∧ Time.days_from_civil y m d = z.
Proof.
  unfold Time.civil_from_days.
  set (z' := z + 719468).
  set (era := z' / 146097).
  set (doe := z' - era * 146097).
  assert (Hz : z = era * 146097 + doe - 719468) by (subst doe z'; lia).
  assert (Hdoe : 0 ≤ doe ≤ 146096) by (subst doe era; Z.div_mod_to_equations; lia).
  clearbody doe era. clear z'. subst z.
  set (yoe := (doe - doe / 1460 + doe / 36524 - doe / 146096) / 365).
  assert (Hyoe : 0 ≤ yoe ≤ 399) by (subst yoe; Z.div_mod_to_equations; lia).
  set (doy := doe - (365 * yoe + yoe / 4 - yoe / 100)).
  assert (Hdoy : 0 ≤ doy ≤ 365) by (subst doy yoe; Z.div_mod_to_equations; lia).
  assert (Edoe : doe = yoe * 365 + yoe / 4 - yoe / 100 + doy) by (subst doy; lia).
  clearbody doy yoe.
  set (mp := (5 * doy + 2) / 153).
  assert (Hmp : 0 ≤ mp ≤ 11) by (subst mp; Z.div_mod_to_equations; lia).
  assert (Hd : 1 ≤ doy - (153 * mp + 2) / 5 + 1 ≤ 31)
    by (subst mp; Z.div_mod_to_equations; lia).
  clearbody mp. unfold Time.days_from_civil.
  destruct (mp <? 10) eqn:E; [apply Z.ltb_lt in E | apply Z.ltb_ge in E].
  - split; [lia|]. split; [lia|].
    destruct (mp + 3 <=? 2) eqn:E1; [apply Z.leb_le in E1 | apply Z.leb_gt in E1].
    + destruct (2 <? mp + 3) eqn:E2; [apply Z.ltb_lt in E2; lia|].
      apply Z.ltb_ge in E2.
      replace ((yoe + era * 400 + 1 - 1) / 400) with era
        by (Z.div_mod_to_equations; lia).
      lia.
    + destruct (2 <? mp + 3) eqn:E2; [|apply Z.ltb_ge in E2; lia].
      replace ((yoe + era * 400) / 400) with era by (Z.div_mod_to_equations; lia).
      replace (mp + 3 - 3) with mp by lia.
      replace (yoe + era * 400 - era * 400) with yoe by lia. lia.
  - split; [lia|]. split; [lia|].
    destruct (mp - 9 <=? 2) eqn:E1; [|apply Z.leb_gt in E1; lia].
    destruct (2 <? mp - 9) eqn:E2; [apply Z.ltb_lt in E2; lia|].
    replace ((yoe + era * 400 + 1 - 1) / 400) with era
      by (Z.div_mod_to_equations; lia).
    replace (mp - 9 + 9) with mp by lia.
    replace (yoe + era * 400 + 1 - 1 - era * 400) with yoe by lia. lia.
Qed.

(** The clock fields of [gmtime] are an hour, a minute and a second, and
    together with the day they make up the time. *)
Lemma gmtime_clock_sound t :
  0 ≤ Time.tm_hour (Time.gmtime t) ≤ 23 ∧
  0 ≤ Time.tm_min (Time.gmtime t) ≤ 59 ∧
  0 ≤ Time.tm_sec (Time.gmtime t) ≤ 59 ∧
  t = 86400 * (t / 86400) + 3600 * Time.tm_hour (Time.gmtime t)
      + 60 * Time.tm_min (Time.gmtime t) + Time.tm_sec (Time.gmtime t).
Proof.
  unfold Time.gmtime. destruct (Time.civil_from_days (t / 86400)) as [[y m] d].
  simpl. Z.div_mod_to_equations. lia.
Qed.

Example gmtime_epoch :
  Time.gmtime 0 = Time.mk_tm 1970 1 1 0 0 0.
Proof. reflexivity. Qed.

Example gmtime_leap_day :
  Time.gmtime 1709251199 = Time.mk_tm 2024 2 29 23 59 59.
Proof. reflexivity. Qed.

Example gmtime_century_leap_day :
  Time.gmtime 951782400 = Time.mk_tm 2000 2 29 0 0 0.
Proof. reflexivity. Qed.

Example gmtime_roll_call :
  Time.fmt_file (Time.gmtime 1704164640) = "2024-01-02-03:04".
Proof. vm_compute. reflexivity. Qed.

(** ** The logger *)

Lemma replace_hyphen_map c s :
  Str.replace c "-" s = map_string (λ a, if Ascii.eqb a c then "-"%char else a) s.
Proof.
  induction s as [|a s IH]; simpl; [done|]. rewrite IH. by destruct (Ascii.eqb a c).
Qed.

Lemma map_string_compose f g s : map_string g (map_string f s) = map_string (g ∘ f) s.
Proof. induction s as [|a s IH]; simpl; [done|]. by rewrite IH. Qed.

Lemma map_string_ext f g s : (∀ a, f a = g a) → map_string f s = map_string g s.
Proof. intros E. induction s as [|a s IH]; simpl; [done|]. by rewrite IH, E. Qed.

Lemma map_string_id s : map_string (λ a, a) s = s.
Proof. induction s as [|a s IH]; simpl; [done|]. by rewrite IH. Qed.

(** The loop replaces exactly the characters it walks over. *)
Lemma fold_replace cs s :
  fold_left (λ name character, Str.replace character "-" name) cs s
  = map_string (hyphen_if cs) s.
Proof.
  revert s. induction cs as [|c cs IH]; intros s; simpl.
  - symmetry. apply map_string_id.
  - rewrite IH, replace_hyphen_map, map_string_compose.
    apply map_string_ext. intros a. unfold hyphen_if, compose. simpl.
    destruct (Ascii.eqb a c); simpl; [|done].
    by destruct (existsb _ cs).
Qed.

Lemma class_listed a :
  existsb (Ascii.eqb a) (String.list_ascii_of_string (punctuation +:+ whitespace))
  = is_punctuation_or_whitespace a.
Proof. destruct a as [[] [] [] [] [] [] [] []]; vm_compute; reflexivity. Qed.

Lemma hyphenate_map s :
  hyphenate s
  = map_string (λ a, if is_punctuation_or_whitespace a then "-"%char else a) s.
Proof. induction s as [|a s IH]; simpl; [done|]. by rewrite IH. Qed.

Lemma sluggify_hyphenate s : sluggify s = hyphenate s.
Proof.
  unfold sluggify. rewrite fold_replace, hyphenate_map.
  apply map_string_ext. intros a. unfold hyphen_if. by rewrite class_listed.
Qed.

Lemma figure_logfile_name_ok c w r title start :
  meetings_dict w !! c = Some r →
  items r !! "title" = Some (VStr title) →
  items r !! "start" = Some (VNum start) →
  figure_logfile_name c w = (Ok (logfile_name title start), w).
Proof.
  intros Hc Ht Hs. unfold figure_logfile_name, logfile_name.
  step getitem_bound. unfold eq_str.
  destruct (String.eqb UNTITLED_MEETING title).
  - prim. prim. step getitem_bound. prim. done.
  - step getitem_bound. prim. step getitem_bound. prim. done.
Qed.


Section Logger.

Variable h : Host.

Lemma log_plain_ok item c w r title start :
  meetings_dict w !! c = Some r →
  items r !! "title" = Some (VStr title) →
  items r !! "start" = Some (VNum start) →
  open_ok h (opens w) = true →
  log_plain h item c w
  = (Ok tt, add_appended (logfile_path (meeting_log_path w) c title start ".txt")
              (plain_line h (ticks w) item) (bump_ticks (bump_opens w))).
Proof.
  intros Hc Ht Hs Ho. unfold log_plain.
  prim. step figure_logfile_name_ok.
  unfold mbind, M_bind, bind, open_append. rewrite Ho; reflexivity.
Qed.

Lemma log_plain_fail item c w r title start :
  meetings_dict w !! c = Some r →
  items r !! "title" = Some (VStr title) →
  items r !! "start" = Some (VNum start) →
  open_ok h (opens w) = false →
  log_plain h item c w = (Raise OSError, bump_opens w).
Proof.
  intros Hc Ht Hs Ho. unfold log_plain.
  prim. step figure_logfile_name_ok.
  unfold mbind, M_bind, bind, open_append. rewrite Ho; reflexivity.
Qed.

Lemma log_html_listitem_ok item c w r title start :
  meetings_dict w !! c = Some r →
  items r !! "title" = Some (VStr title) →
  items r !! "start" = Some (VNum start) →
  open_ok h (opens w) = true →
  log_html_listitem h item c w
  = (Ok tt, add_appended (logfile_path (meeting_log_path w) c title start ".html")
              (html_item item) (bump_opens w)).
Proof.
  intros Hc Ht Hs Ho. unfold log_html_listitem.
  prim. step figure_logfile_name_ok.
  unfold mbind, M_bind, bind, open_append. rewrite Ho; reflexivity.
Qed.

Lemma log_html_end_ok c w r title start :
  meetings_dict w !! c = Some r →
  items r !! "title" = Some (VStr title) →
  items r !! "start" = Some (VNum start) →
  open_ok h (opens w) = true →
  log_html_end h c w
  = (Ok tt,
     add_appended (logfile_path (meeting_log_path w) c title start ".html") html_end_3
       (add_appended (logfile_path (meeting_log_path w) c title start ".html")
          (html_end_2 h (meeting_log_baseurl w) c title start)
          (add_appended (logfile_path (meeting_log_path w) c title start ".html")
             (html_end_1 h (ticks w)) (bump_ticks (bump_opens w))))).
Proof.
  intros Hc Ht Hs Ho. unfold log_html_end.
  prim. step figure_logfile_name_ok.
  erewrite bind_eq by (unfold open_append; rewrite Ho; reflexivity).
  prim. prim. prim. step figure_logfile_name_ok. prim. reflexivity.
Qed.

Lemma log_html_end_fail c w r title start :
  meetings_dict w !! c = Some r →
  items r !! "title" = Some (VStr title) →
  items r !! "start" = Some (VNum start) →
  open_ok h (opens w) = false →
  log_html_end h c w = (Raise OSError, bump_opens w).
Proof.
  intros Hc Ht Hs Ho. unfold log_html_end.
  prim. step figure_logfile_name_ok.
  unfold mbind, M_bind, bind, open_append. rewrite Ho; reflexivity.
Qed.

Lemma is_chair_ok c w r owner nick :
  meetings_dict w !! c = Some r →
  items r !! "head" = Some (VStr owner) →
  chairing h r owner nick →
  is_chair h nick c w = (Ok true, w).
Proof.
  intros Hc Hh Hch. unfold is_chair, except_KeyError.
  step getitem_bound. unfold eq_str.
  destruct (String.eqb_spec (nick_lower h nick) owner) as [E|NE]; [done|].
  destruct Hch as [E|(l & Hl & Hin)]; [done|].
  step getitem_bound. unfold py_in, ret. by rewrite bool_decide_eq_true_2.
Qed.

End Logger.

Lemma startswith_iff s p : Str.startswith s p = true ↔ ∃ rest, s = p +:+ rest.
Proof.
  unfold Str.startswith. revert s. induction p as [|a p IH]; intros s; simpl.
  - split; [intros _; by exists s | by destruct s].
  - destruct s as [|b s]; simpl.
    + split; [done | intros (rest & E); discriminate].
    + destruct (Ascii.ascii_dec a b) as [->|NE].
      * rewrite IH. split; intros (rest & E); exists rest; [by rewrite E | by injection E].
      * split; [done | intros (rest & E); by injection E].
  Qed.

(** ** The handlers *)

Section Handlers.

Variable h : Host.

(** C6: in a channel whose meeting is running, the open-meeting command
    answers that a meeting is already there and changes nothing else: the
    whole store, so the title, owner and start of the meeting, stays as it
    was. *)
Theorem vemblouco_already_running (t : Trigger) w r v :
  is_privmsg t = false →
  meetings_dict w !! sender t = Some r →
  items r !! "running" = Some v → truthy v = true →
  vemblouco h t w = (Ok tt, add_said "Já tem um Blouco ativo!" None w) ∧
  meetings_dict (add_said "Já tem um Blouco ativo!" None w) = meetings_dict w.
Proof.
  intros Hp Hc Hk Hv. split; [|reflexivity]. unfold vemblouco. rewrite Hp.
  step is_meeting_running_bound. by rewrite Hv.
Qed.

(** C7: in a running meeting, the set-chairs command with a non-empty
    argument from somebody who is not the owner only answers that the owner
    alone may do this; from the owner with "Alice Bob" it binds the chairs
    to ["alice"; "bob"], writes one plain line and one HTML list item, both
    with "alice, bob", and answers with the list. *)
Theorem puxam_owner_only (t t' : Trigger) w r owner title start :
  started (meetings_dict w) (sender t) r owner title start →
  group2 t ≠ "" → nick_lower h (nick t) ≠ owner →
  sender t' = sender t → group2 t' = "Alice Bob" →
  nick_lower h (nick t') = owner →
  open_ok h (opens w) = true → open_ok h (S (opens w)) = true →
  puxam h t w
  = (Ok tt, add_said "Somente a Porta-estandarte pode consagrar Puxadoras" None w)
  ∧
  ∃ w', puxam h t' w = (Ok tt, w') ∧
    meetings_dict w'
    = <[sender t := mkMeeting (defaulting r)
                      (<["puxam" := VList [EStr "alice"; EStr "bob"]]> (items r))]>
        (meetings_dict w) ∧
    appended w'
    = appended w ++
      [(logfile_path (meeting_log_path w) (sender t) title start ".txt",
        plain_line h (ticks w) "Puxadoras: alice, bob");
       (logfile_path (meeting_log_path w) (sender t) title start ".html",
        html_item "<span style='font-weight: bold'>Puxadoras:</span> alice, bob")] ∧
    said w' = said w ++ [(bold h "Puxadoras:" +:+ " alice, bob", None)].
Proof.
  intros (Hc & Hr & Hh & Ht & Hs) Hne Hno Hsnd Harg Hown O1 O2. split.
  - unfold puxam.
    step is_meeting_running_bound. simpl. rewrite (is_empty_false _ Hne).
    step getitem_bound. unfold eq_str.
    by destruct (String.eqb_spec (nick_lower h (nick t)) owner).
  - unfold puxam. rewrite Hsnd, Harg.
    step is_meeting_running_bound. simpl.
    step getitem_bound. unfold eq_str. rewrite Hown, String.eqb_refl.
    change (Str.lower "Alice Bob") with "alice bob".
    change (Str.split " " "alice bob") with ["alice"; "bob"].
    change (Str.replace " " ", " "alice bob") with "alice, bob".
    step setitem_bound. step log_plain_ok. step log_html_listitem_ok.
    eexists. split; [reflexivity|]. simpl. by rewrite <- app_assoc.
Qed.

(** C10: the record-link command logs its non-empty argument unchanged
    when it begins with the four characters "http", and with "http://" in
    front of it in every other case. *)
Theorem meetinglink_prefixes_http (t : Trigger) w r owner title start :
  started (meetings_dict w) (sender t) r owner title start →
  chairing h r owner (nick t) →
  group2 t ≠ "" →
  open_ok h (opens w) = true → open_ok h (S (opens w)) = true →
  ∃ url w',
    ((∃ rest, group2 t = "http" +:+ rest) → url = group2 t) ∧
    ((¬ ∃ rest, group2 t = "http" +:+ rest) → url = "http://" +:+ group2 t) ∧
    meetinglink h t w = (Ok tt, w') ∧
    appended w'
    = appended w ++
      [(logfile_path (meeting_log_path w) (sender t) title start ".txt",
        plain_line h (ticks w)
          ("LINK: " +:+ url +:+ " [" +:+ title_text (find_title h url) +:+ "]"));
       (logfile_path (meeting_log_path w) (sender t) title start ".html",
        html_item ("<a href=" +:+ dq +:+ url +:+ dq +:+ ">"
                   +:+ title_text (find_title h url) +:+ "</a>"))] ∧
    said w' = said w ++ [(bold h "LINK:" +:+ " " +:+ url, None)].
Proof.
  intros (Hc & Hr & Hh & Ht & Hs) Hch Hne O1 O2.
  exists (if negb (Str.startswith (group2 t) "http") then "http://" +:+ group2 t
          else group2 t).
  eexists. split; [|split].
  - intros Hp. apply startswith_iff in Hp. by rewrite Hp.
  - intros Hp. destruct (Str.startswith (group2 t) "http") eqn:E; [|done].
    by apply startswith_iff in E.
  - unfold meetinglink.
    step is_meeting_running_bound. simpl. rewrite (is_empty_false _ Hne).
    step is_chair_ok. simpl.
    step log_plain_ok. step log_html_listitem_ok.
    split; [reflexivity|]. simpl. by rewrite <- app_assoc.
Qed.

Lemma for_each_say l w :
  for_each l (λ vrau, say (bold h "vrau:" +:+ " " +:+ vrau)) w
  = (Ok tt,
     mkWorld (meetings_dict w) (meeting_vraus w) (meeting_log_path w)
       (meeting_log_baseurl w) (dirs w) (appended w)
       (said w ++ map (λ vrau, (bold h "vrau:" +:+ " " +:+ vrau, None)) l)
       (opens w) (ticks w)).
Proof.
  revert w. induction l as [|x l IH]; intros w; simpl.
  - rewrite app_nil_r. by destruct w.
  - prim. rewrite IH. simpl. by rewrite <- app_assoc.
Qed.

Lemma get_vraus_bound c w l :
  meeting_vraus w !! c = Some l → get_vraus c w = (Ok l, w).
Proof. intros E. unfold get_vraus. by rewrite E. Qed.

Lemma meetingvrau_ok (t : Trigger) w r owner title start l :
  started (meetings_dict w) (sender t) r owner title start →
  chairing h r owner (nick t) →
  group2 t ≠ "" →
  meeting_vraus w !! sender t = Some l →
  open_ok h (opens w) = true → open_ok h (S (opens w)) = true →
  ∃ w', meetingvrau h t w = (Ok tt, w') ∧
    meeting_vraus w' = <[sender t := l ++ [group2 t]]> (meeting_vraus w) ∧
    meetings_dict w' = meetings_dict w.
Proof.
  intros (Hc & Hr & Hh & Ht & Hs) Hch Hne Hl O1 O2. unfold meetingvrau.
  step is_meeting_running_bound. simpl. rewrite (is_empty_false _ Hne).
  step is_chair_ok. simpl.
  step log_plain_ok. step log_html_listitem_ok.
  erewrite bind_eq by (apply get_vraus_bound; exact Hl).
  eexists. split; [reflexivity|]. done.
Qed.

Lemma listvraus_ok (t : Trigger) w r v l :
  meetings_dict w !! sender t = Some r →
  items r !! "running" = Some v → truthy v = true →
  meeting_vraus w !! sender t = Some l →
  ∃ w', listvraus h t w = (Ok tt, w') ∧
    said w' = said w ++ map (λ vrau, (bold h "vrau:" +:+ " " +:+ vrau, None)) l ∧
    meeting_vraus w' = meeting_vraus w ∧
    meetings_dict w' = meetings_dict w.
Proof.
  intros Hc Hr Hv Hl. unfold listvraus.
  step is_meeting_running_bound. rewrite Hv. simpl.
  erewrite bind_eq by (apply get_vraus_bound; exact Hl).
  rewrite for_each_say. eexists. split; [reflexivity|]. done.
Qed.

(** The close up to the reset of the record: what is left to run is the
    fetch of the published log. *)
Lemma vaiblouco_logged (t : Trigger) w r owner title start :
  started (meetings_dict w) (sender t) r owner title start →
  chairing h r owner (nick t) →
  open_ok h (opens w) = true → open_ok h (S (opens w)) = true →
  ∃ w1,
    meetings_dict w1 = <[sender t := default_dict]> (meetings_dict w) ∧
    meeting_vraus w1 = meeting_vraus w ∧
    vaiblouco h t w
    = (page_source ← requests_get h (log_url h (meeting_log_baseurl w) (sender t) title start ".txt");
       say ("Segue o Blouco! " +:+ md5_hex h page_source);;
       del_vraus (sender t)) w1.
Proof.
  intros (Hc & Hr & Hh & Ht & Hs) Hch O1 O2. unfold vaiblouco.
  step is_meeting_running_bound. simpl.
  step is_chair_ok. simpl.
  prim. step getitem_bound. prim. prim.
  step log_html_end_ok.
  prim. step figure_logfile_name_ok. prim. step figure_logfile_name_ok.
  step log_plain_ok. prim. prim. prim.
  eexists. split; [|split; [|reflexivity]]; reflexivity.
Qed.

Lemma vaiblouco_ok (t : Trigger) w r owner title start l body :
  started (meetings_dict w) (sender t) r owner title start →
  chairing h r owner (nick t) →
  open_ok h (opens w) = true → open_ok h (S (opens w)) = true →
  http_get h (log_url h (meeting_log_baseurl w) (sender t) title start ".txt") = Some body →
  meeting_vraus w !! sender t = Some l →
  ∃ w', vaiblouco h t w = (Ok tt, w') ∧
    meeting_vraus w' = delete (sender t) (meeting_vraus w) ∧
    meetings_dict w' = <[sender t := default_dict]> (meetings_dict w).
Proof.
  intros Hst Hch O1 O2 Hget Hl.
  destruct (vaiblouco_logged t w r owner title start Hst Hch O1 O2)
    as (w1 & Hmd & Hv & ->).
  unfold requests_get. rewrite Hget. prim. prim.
  unfold del_vraus. simpl. rewrite Hv, Hl.
  eexists. split; [reflexivity|]. simpl. by rewrite Hv, Hmd.
Qed.

(** C9: in a running meeting that holds exactly one side note, the
    show-side-notes command of a chair or the owner announces the note and
    empties the list; the same command right after it answers that there
    are no side notes; over the two calls the plain-text log gets the
    header line and exactly one line with the note. *)
Theorem show_ows_drains (t : Trigger) w r owner title start who text :
  started (meetings_dict w) (sender t) r owner title start →
  chairing h r owner (nick t) →
  items r !! "ows" = Some (VList [EPair who text]) →
  open_ok h (opens w) = true → open_ok h (S (opens w)) = true →
  ∃ w1 w2,
    show_ows h t w = (Ok tt, w1) ∧
    said w1 = said w ++ [("Lista de Ows:", None);
                         ("<" +:+ who +:+ "> " +:+ text, None)] ∧
    meetings_dict w1
    = <[sender t := mkMeeting (defaulting r) (<["ows" := VList []]> (items r))]>
        (meetings_dict w) ∧
    show_ows h t w1 = (Ok tt, w2) ∧
    said w2 = said w1 ++ [("Não tem Ows", None)] ∧
    meetings_dict w2 = meetings_dict w1 ∧
    appended w2
    = appended w ++
      [(logfile_path (meeting_log_path w) (sender t) title start ".txt",
        plain_line h (ticks w) ("<" +:+ bot_nick h +:+ "> " +:+ "Lista de Ows:"));
       (logfile_path (meeting_log_path w) (sender t) title start ".txt",
        plain_line h (S (ticks w))
          ("<" +:+ bot_nick h +:+ "> " +:+ "<" +:+ who +:+ "> " +:+ text))].
Proof.
  intros (Hc & Hr & Hh & Ht & Hs) Hch Hows O1 O2.
  eexists. eexists. split; [|split; [|split; [|split]]].
  - unfold show_ows.
    step is_meeting_running_bound. simpl.
    step is_chair_ok. simpl.
    step getitem_bound. simpl.
    prim. step log_plain_ok.
    unfold each_ow, for_each.
    rewrite !bind_assoc. prim. step log_plain_ok. prim.
    eapply setitem_bound; lookups.
  - simpl. by rewrite <- app_assoc.
  - reflexivity.
  - unfold show_ows.
    step is_meeting_running_bound. simpl.
    erewrite bind_eq
      by (eapply is_chair_ok with (owner := owner); lookups; lookups;
          destruct Hch as [E|(l & Hl & Hin)]; [by left | right; exists l; lookups]).
    simpl. step getitem_bound. reflexivity.
  - simpl. split; [reflexivity|]. split; [reflexivity|].
    by rewrite <- app_assoc.
Qed.

(** What [take_ow] does with a message of the documented form
    [.ow <#channel> <text>]: the named channel plays no part.  Sent in
    private, where the sender is the nick and has no meeting, it answers
    that there is no meeting and stores nothing; sent inside a channel
    with a running meeting, it stores the whole argument, channel token
    included, under that channel. *)
Lemma take_ow_private (t : Trigger) w :
  group3 t ≠ "" →
  meetings_dict w !! sender t = None →
  take_ow h t w
  = (Ok tt, add_said "Não tem Blouco aqui." None
              (set_meetings (<[sender t := plain_dict]>) w)).
Proof.
  intros H3 Hc. unfold take_ow. rewrite (is_empty_false _ H3).
  unfold is_meeting_running, except_KeyError, getitem.
  unfold mbind, M_bind, bind. by rewrite Hc.
Qed.

Lemma take_ow_in_channel (t : Trigger) w r owner title start l :
  group3 t ≠ "" →
  started (meetings_dict w) (sender t) r owner title start →
  items r !! "ows" = Some (VList l) →
  ∃ w', take_ow h t w = (Ok tt, w') ∧
    meetings_dict w'
    = <[sender t := mkMeeting (defaulting r)
                      (<["ows" := VList (l ++ [EPair (nick t) (group2 t)])]> (items r))]>
        (meetings_dict w) ∧
    said w' = said w ++
      [("Seu Ow foi gravado. Vai aparecer quando as Puxadoras me pedirem para mostrar os Ows.",
        None);
       ("Ow gravado", Some (VStr owner))].
Proof.
  intros H3 (Hc & Hr & Hh & Ht & Hs) Hows. unfold take_ow.
  rewrite (is_empty_false _ H3).
  step is_meeting_running_bound. simpl.
  step getitem_bound. prim. step setitem_bound. prim. step getitem_bound.
  eexists. split; [reflexivity|]. simpl. by rewrite <- app_assoc.
Qed.

(** C3, as the code has it: when the record of the channel is absent, has
    no chairs key, or is a plain dict without owner key, the chair-or-owner
    query never raises and answers whether the lower-cased identity is the
    owner the record holds; so it is false without an owner key, and true
    for the owner of a meeting whose chairs were never set. *)
Theorem is_chair_incomplete_record nick c w :
  incomplete (meetings_dict w) c →
  fst (is_chair h nick c w) = Ok (owner_is (meetings_dict w) c (nick_lower h nick)).
Proof.
  unfold incomplete, owner_is, is_chair, except_KeyError, getitem.
  unfold mbind, M_bind, bind.
  destruct (meetings_dict w !! c) as [r|] eqn:Hc; [|done].
  destruct (items r !! "head") as [v|] eqn:Hh.
  - destruct (eq_str (nick_lower h nick) v); [done|].
    intros [Hp|[? _]]; [|done]. simpl. rewrite Hc, Hp.
    destruct (defaulting r); reflexivity.
  - destruct (defaulting r) eqn:Hd; [|done].
    intros [Hp|[_ ?]]; [|done]. simpl.
    rewrite lookup_insert_eq. simpl. rewrite lookup_insert_ne by done.
    rewrite Hp. reflexivity.
Qed.

End Handlers.

(** ** The queries and the store *)

Lemma same_but_meetings_refl w : same_but_meetings w w.
Proof. unfold same_but_meetings. by destruct w. Qed.

Lemma same_but_meetings_trans w1 w2 w3 :
  same_but_meetings w1 w2 → same_but_meetings w2 w3 → same_but_meetings w1 w3.
Proof.
  destruct w1, w2, w3. unfold same_but_meetings, set_meetings. simpl.
  intros [= -> -> -> -> -> -> -> ->] [= -> -> -> -> -> -> -> ->]. reflexivity.
Qed.

Lemma getitem_same_but_meetings c k w : same_but_meetings w (snd (getitem c k w)).
Proof.
  unfold same_but_meetings, getitem.
  destruct (meetings_dict w !! c) as [r|]; [|by destruct w].
  destruct (items r !! k); [by destruct w|].
  destruct (defaulting r); by destruct w.
Qed.

Lemma getitem_grown c k w :
  grown c (meetings_dict w) (meetings_dict (snd (getitem c k w))).
Proof.
  unfold grown, getitem.
  destruct (meetings_dict w !! c) as [r|] eqn:Hc.
  - destruct (items r !! k) as [v|] eqn:Hk; [|destruct (defaulting r) eqn:Hd]; simpl.
    + split; [done|]. exists r. by repeat split; auto.
    + split; [intros c' Hne; by rewrite lookup_insert_ne|].
      eexists. rewrite lookup_insert_eq. split; [reflexivity|]. simpl.
      split; [done|]. split.
      * intros k' v' Hk'. destruct (decide (k = k')) as [->|Hne]; [congruence|].
        by rewrite lookup_insert_ne.
      * intros k' v'. destruct (decide (k = k')) as [->|Hne].
        -- rewrite lookup_insert_eq. intros [= <-]. by right.
        -- rewrite lookup_insert_ne by done. by left.
    + split; [done|]. exists r. by repeat split; auto.
  - simpl. split; [intros c' Hne; by rewrite lookup_insert_ne|].
    by rewrite lookup_insert_eq.
Qed.

Lemma grown_trans c md1 md2 md3 :
  grown c md1 md2 → grown c md2 md3 → grown c md1 md3.
Proof.
  intros [Ho1 H1] [Ho2 H2]. split.
  - intros c' Hne. by rewrite Ho2, Ho1.
  - destruct (md1 !! c) as [r|].
    + destruct H1 as (r' & E' & Hd' & Hk' & Hb'). rewrite E' in H2.
      destruct H2 as (r'' & E'' & Hd'' & Hk'' & Hb''). exists r''.
      split; [done|]. split; [congruence|]. split; [by auto|].
      intros k v Hv. destruct (Hb'' k v Hv) as [Hv'|[Hd ->]].
      * by apply Hb'.
      * right. split; [congruence|done].
    + rewrite H1 in H2. destruct H2 as (r'' & E'' & Hd'' & Hk'' & Hb'').
      (* a second read of a fresh plain dict adds nothing *)
      rewrite E''. f_equal. destruct r'' as [d it]. simpl in *. subst d.
      unfold plain_dict. f_equal. apply map_eq. intros k.
      rewrite lookup_empty. destruct (it !! k) as [v|] eqn:Hv; [|done].
      destruct (Hb'' k v Hv) as [Hv'|[? _]]; [by rewrite lookup_empty in Hv'|done].
Qed.

Lemma getitem_plain c k w r :
  meetings_dict w !! c = Some r → defaulting r = false → snd (getitem c k w) = w.
Proof.
  intros Hc Hd. unfold getitem. rewrite Hc, Hd. by destruct (items r !! k).
Qed.

Lemma is_meeting_running_world c w :
  snd (is_meeting_running c w) = snd (getitem c "running" w).
Proof.
  unfold is_meeting_running, except_KeyError.
  by destruct (getitem c "running" w) as [[v|[]] w'].
Qed.

Lemma is_chair_world (h : Host) nick c w :
  snd (is_chair h nick c w) = snd (getitem c "head" w) ∨
  snd (is_chair h nick c w)
  = snd (getitem c "puxam" (snd (getitem c "head" w))).
Proof.
  unfold is_chair, except_KeyError, mbind, M_bind, bind.
  destruct (getitem c "head" w) as [[v|e] w1]; simpl.
  - destruct (eq_str (nick_lower h nick) v); [by left|]. right.
    destruct (getitem c "puxam" w1) as [[p|e] w2]; simpl.
    + unfold py_in. destruct p; reflexivity.
    + destruct e; reflexivity.
  - left. destruct e; reflexivity.
Qed.

Lemma getitem_default c k w r :
  meetings_dict w !! c = Some r → defaulting r = true →
  ∃ v, getitem c k w
       = (Ok v, set_meetings (λ _, <[c := mkMeeting true (read_default k (items r))]>
                                     (meetings_dict w)) w) ∧
       read_default k (items r) !! k = Some v.
Proof.
  intros Hc Hd. unfold getitem, read_default. rewrite Hc, Hd.
  destruct (items r !! k) as [v|] eqn:Hk.
  - exists v. split; [|done]. f_equal.
    rewrite insert_id; [by destruct w|]. rewrite Hc. f_equal.
    destruct r as [d it]. simpl in *. by subst d.
  - exists VDict. split; [|by rewrite lookup_insert_eq]. reflexivity.
Qed.

Lemma getitem_absent c k w :
  meetings_dict w !! c = None →
  getitem c k w = (Raise KeyError, set_meetings (<[c := plain_dict]>) w).
Proof. intros Hc. unfold getitem. by rewrite Hc. Qed.

Lemma is_chair_store (h : Host) nick c w :
  meetings_dict (snd (is_chair h nick c w))
  = match getitem c "head" w with
    | (Ok hd, w1) =>
        if eq_str (nick_lower h nick) hd then meetings_dict w1
        else meetings_dict (snd (getitem c "puxam" w1))
    | (Raise _, w1) => meetings_dict w1
    end.
Proof.
  unfold is_chair, except_KeyError, mbind, M_bind, bind.
  destruct (getitem c "head" w) as [[hd|e] w1]; simpl.
  - destruct (eq_str (nick_lower h nick) hd); [reflexivity|].
    destruct (getitem c "puxam" w1) as [[p|e] w2]; simpl.
    + unfold py_in. by destruct p.
    + by destruct e.
  - by destruct e.
Qed.

(** C4, as the code has it: the meeting-running query and the
    chair-or-owner query do nothing but read the store through the
    [defaultdict]s.  They touch no other part of the process and no other
    channel, they keep every item a record holds and the kind of the record,
    and they leave a plain record exactly as it is; but a channel that was
    never initialized gets an empty plain dict, and in a record installed by
    a reset each key that is read and missing is bound to an empty dict:
    ["running"] by the meeting-running query, and by the chair-or-owner
    query ["head"] and, unless the invoker is the owner, ["puxam"]. *)
Theorem queries_only_add_blanks (h : Host) nick c w :
  (same_but_meetings w (snd (is_meeting_running c w)) ∧
   grown c (meetings_dict w) (meetings_dict (snd (is_meeting_running c w)))) ∧
  (same_but_meetings w (snd (is_chair h nick c w)) ∧
   grown c (meetings_dict w) (meetings_dict (snd (is_chair h nick c w)))) ∧
  (∀ r, meetings_dict w !! c = Some r → defaulting r = false →
        snd (is_meeting_running c w) = w ∧ snd (is_chair h nick c w) = w) ∧
  (meetings_dict w !! c = None →
   meetings_dict (snd (is_meeting_running c w)) = <[c := plain_dict]> (meetings_dict w) ∧
   meetings_dict (snd (is_chair h nick c w)) = <[c := plain_dict]> (meetings_dict w)) ∧
  (∀ r, meetings_dict w !! c = Some r → defaulting r = true →
        meetings_dict (snd (is_meeting_running c w))
        = <[c := mkMeeting true (read_default "running" (items r))]> (meetings_dict w) ∧
        meetings_dict (snd (is_chair h nick c w))
        = <[c := mkMeeting true
                   (if owner_is (meetings_dict w) c (nick_lower h nick) then items r
                    else read_default "puxam" (read_default "head" (items r)))]>
            (meetings_dict w)).
Proof.
  split; [|split; [|split; [|split]]].
  - rewrite is_meeting_running_world.
    split; [apply getitem_same_but_meetings | apply getitem_grown].
  - destruct (is_chair_world h nick c w) as [-> | ->].
    + split; [apply getitem_same_but_meetings | apply getitem_grown].
    + split.
      * eapply same_but_meetings_trans; apply getitem_same_but_meetings.
      * eapply grown_trans; apply getitem_grown.
  - intros r Hc Hd. split.
    + rewrite is_meeting_running_world. by eapply getitem_plain.
    + destruct (is_chair_world h nick c w) as [-> | ->].
      * by eapply getitem_plain.
      * rewrite (getitem_plain c "head" w r Hc Hd). by eapply getitem_plain.
  - intros Hc. split.
    + rewrite is_meeting_running_world, (getitem_absent c _ w Hc). reflexivity.
    + unfold is_chair, except_KeyError, mbind, M_bind, bind.
      rewrite (getitem_absent c _ w Hc). reflexivity.
  - intros r Hc Hd. split.
    + rewrite is_meeting_running_world.
      destruct (getitem_default c "running" w r Hc Hd) as (v & -> & _). reflexivity.
    + rewrite is_chair_store.
      destruct (getitem_default c "head" w r Hc Hd) as (hd & -> & Hhd).
      assert (Eo : eq_str (nick_lower h nick) hd
                   = owner_is (meetings_dict w) c (nick_lower h nick)).
      { unfold owner_is. rewrite Hc. unfold read_default in Hhd.
        destruct (items r !! "head") as [v|] eqn:Hh.
        - rewrite Hh in Hhd. by injection Hhd as ->.
        - rewrite lookup_insert_eq in Hhd. by injection Hhd as <-. }
      rewrite Eo.
      destruct (owner_is (meetings_dict w) c (nick_lower h nick)) eqn:Ho.
      * simpl. do 2 f_equal. unfold owner_is in Ho. rewrite Hc in Ho.
        unfold read_default. by destruct (items r !! "head").
      * match goal with
        | |- context [getitem c "puxam" ?W] =>
            destruct (getitem_default c "puxam" W
                        (mkMeeting true (read_default "head" (items r))))
              as (p & -> & _)
        end; [simpl; apply lookup_insert_eq | reflexivity |].
        simpl. apply insert_insert_eq.
Qed.

(** ** Closing and opening again *)

Section Lifecycle.

Variable h : Host.

(** C2, as the code has it: for a running meeting and an authorized
    invoker, the close replaces the record of the channel by an empty one
    once its two log-writing steps (the HTML closing and the last plain
    line) have gone through, whether or not the fetch of the published log
    that follows succeeds; when one of the two steps fails, the error
    leaves the handler and the store is as it was. *)
Theorem vaiblouco_resets_after_logs (t : Trigger) w r owner title start :
  started (meetings_dict w) (sender t) r owner title start →
  chairing h r owner (nick t) →
  if open_ok h (opens w) && open_ok h (S (opens w))
  then meetings_dict (snd (vaiblouco h t w))
       = <[sender t := default_dict]> (meetings_dict w)
  else fst (vaiblouco h t w) = Raise OSError ∧
       meetings_dict (snd (vaiblouco h t w)) = meetings_dict w.
Proof.
  intros Hst Hch.
  destruct (open_ok h (opens w)) eqn:O1; [destruct (open_ok h (S (opens w))) eqn:O2|];
    simpl.
  - destruct (vaiblouco_logged h t w r owner title start Hst Hch O1 O2)
      as (w1 & Hmd & _ & ->).
    unfold requests_get, mbind, M_bind, bind, del_vraus, say, modify.
    destruct (http_get h _); simpl; [|done].
    by destruct (meeting_vraus w1 !! sender t).
  - destruct Hst as (Hc & Hr & Hh & Ht & Hs). unfold vaiblouco.
    step is_meeting_running_bound. simpl.
    step is_chair_ok. simpl.
    prim. step getitem_bound. prim. prim.
    step log_html_end_ok.
    prim. step figure_logfile_name_ok. prim. step figure_logfile_name_ok.
    erewrite bind_raise by (eapply log_plain_fail; lookups; lookups).
    done.
  - destruct Hst as (Hc & Hr & Hh & Ht & Hs). unfold vaiblouco.
    step is_meeting_running_bound. simpl.
    step is_chair_ok. simpl.
    prim. step getitem_bound. prim. prim.
    erewrite bind_raise by (eapply log_html_end_fail; lookups; lookups).
    done.
Qed.

Lemma log_html_start_ok c w r hd title start :
  meetings_dict w !! c = Some r →
  items r !! "title" = Some (VStr title) →
  items r !! "start" = Some (VNum start) →
  items r !! "head" = Some hd →
  open_ok h (opens w) = true →
  ∃ s1 s2,
    log_html_start h c w
    = (Ok tt, add_appended (logfile_path (meeting_log_path w) c title start ".html") s2
                (add_appended (logfile_path (meeting_log_path w) c title start ".html") s1
                   (bump_opens w))).
Proof.
  intros Hc Ht Hs Hh Ho. unfold log_html_start.
  prim. step figure_logfile_name_ok.
  erewrite bind_eq by (unfold open_append; rewrite Ho; reflexivity).
  step getitem_bound. prim. step getitem_bound. prim. step getitem_bound.
  eexists. eexists. reflexivity.
Qed.

Lemma log_html_start_fail c w r title start :
  meetings_dict w !! c = Some r →
  items r !! "title" = Some (VStr title) →
  items r !! "start" = Some (VNum start) →
  open_ok h (opens w) = false →
  log_html_start h c w = (Raise OSError, bump_opens w).
Proof.
  intros Hc Ht Hs Ho. unfold log_html_start.
  prim. step figure_logfile_name_ok.
  unfold mbind, M_bind, bind, open_append. rewrite Ho; reflexivity.
Qed.

Lemma is_meeting_running_record c w :
  ∃ r, meetings_dict (snd (is_meeting_running c w)) !! c = Some r.
Proof.
  rewrite is_meeting_running_world.
  destruct (getitem_grown c "running" w) as [_ Hg].
  destruct (meetings_dict w !! c); [|by eexists].
  destruct Hg as (r' & E & _). by exists r'.
Qed.

(** Every run of [vemblouco] that starts a meeting and returns has bound
    an empty list of action items to the channel, in a record that says it
    is running. *)
Lemma vemblouco_fresh (t : Trigger) w v w0 :
  is_privmsg t = false →
  is_meeting_running (sender t) w = (Ok v, w0) → truthy v = false →
  match vemblouco h t w with
  | (Ok _, w') =>
      meeting_vraus w' !! sender t = Some [] ∧
      ∃ r, meetings_dict w' !! sender t = Some r ∧
           items r !! "running" = Some (VBool true)
  | (Raise _, _) => True
  end.
Proof.
  intros Hp Hrun Hv.
  destruct (is_meeting_running_record (sender t) w) as [r0 Hr0].
  rewrite Hrun in Hr0. simpl in Hr0.
  unfold vemblouco. rewrite Hp.
  erewrite bind_eq by exact Hrun. rewrite Hv.
  prim. step setitem_bound.
  destruct (Str.is_empty (group2 t));
    (step setitem_bound; step setitem_bound; step setitem_bound; step setitem_bound;
     prim; prim;
     destruct (Str.endswith (config_log_path h) "/");
     prim; prim; prim;
     destruct (Str.endswith (config_log_baseurl h) "/");
     prim; prim; prim).
  all: match goal with
       | |- context [bool_decide ?P] => destruct (bool_decide P)
       end.
  all: try prim.
  all: try (unfold except_Exception at 1, makedirs at 1;
            match goal with
            | |- context [makedirs_ok h ?p] => destruct (makedirs_ok h p)
            end;
            [prim | erewrite bind_raise by reflexivity; exact I]).
  all: match goal with
       | |- context [(log_plain h ?i ?c ≫= _) ?W] =>
           destruct (open_ok h (opens W)) eqn:O1;
           [ step log_plain_ok
           | erewrite bind_raise by (eapply log_plain_fail; lookups; lookups);
             exact I ]
       end.
  all: match goal with
       | |- context [(log_html_start h ?c ≫= _) ?W] =>
           destruct (open_ok h (opens W)) eqn:O2;
           [ edestruct (log_html_start_ok c W) as (s1 & s2 & E);
             [lookups; lookups ..|];
             erewrite bind_eq by exact E; proj
           | erewrite bind_raise by (eapply log_html_start_fail; lookups; lookups);
             exact I ]
       end.
  all: prim; prim; unfold say, modify; proj.
  all: split; [apply lookup_insert_eq|].
  all: eexists; split; [apply lookup_insert_eq|]; lookups.
Qed.

Lemma is_meeting_running_after_reset c w md :
  meetings_dict w = <[c := default_dict]> md →
  ∃ w0, is_meeting_running c w = (Ok VDict, w0).
Proof.
  intros E. unfold is_meeting_running, except_KeyError, getitem.
  rewrite E, lookup_insert_eq. simpl. rewrite lookup_empty. by eexists.
Qed.

(** C8, as the code has it: in a running meeting every successful
    record-action-item command puts exactly one entry at the end of the list
    of the channel; the list command answers with one line per entry, in
    order and with the recorded text, and changes neither the list nor the
    store; the close ends the meeting and then fetches the published log:
    when the fetch answers, the close removes the list, and when it fails,
    the close raises and the list stays in memory; either way, after the
    meeting is opened again in the channel the list command has nothing to
    say. *)
Theorem vraus_lifecycle (t_vrau t_list t_close t_open : Trigger)
    w r owner title start l w_open :
  started (meetings_dict w) (sender t_vrau) r owner title start →
  sender t_list = sender t_vrau →
  sender t_close = sender t_vrau →
  sender t_open = sender t_vrau →
  chairing h r owner (nick t_vrau) →
  chairing h r owner (nick t_close) →
  group2 t_vrau ≠ "" →
  meeting_vraus w !! sender t_vrau = Some l →
  open_ok h (opens w) = true → open_ok h (S (opens w)) = true →
  is_privmsg t_open = false →
  vemblouco h t_open (snd (vaiblouco h t_close w)) = (Ok tt, w_open) →
  (∃ w', meetingvrau h t_vrau w = (Ok tt, w') ∧
     meeting_vraus w' = <[sender t_vrau := l ++ [group2 t_vrau]]> (meeting_vraus w)) ∧
  (∃ w', listvraus h t_list w = (Ok tt, w') ∧
     said w' = said w ++ map (λ vrau, (bold h "vrau:" +:+ " " +:+ vrau, None)) l ∧
     meeting_vraus w' = meeting_vraus w ∧
     meetings_dict w' = meetings_dict w) ∧
  (∃ w', meetings_dict w' = <[sender t_vrau := default_dict]> (meetings_dict w) ∧
     match http_get h (log_url h (meeting_log_baseurl w) (sender t_vrau) title start ".txt")
     with
     | Some _ =>
         vaiblouco h t_close w = (Ok tt, w') ∧
         meeting_vraus w' = delete (sender t_vrau) (meeting_vraus w)
     | None =>
         vaiblouco h t_close w = (Raise RequestError, w') ∧
         meeting_vraus w' = meeting_vraus w
     end) ∧
  (∃ w', listvraus h t_list w_open = (Ok tt, w') ∧ said w' = said w_open).
Proof.
  intros Hst El Ec Eo Hch Hch' Hne Hl O1 O2 Hp Hopen.
  assert (Hclose : ∃ w', meetings_dict w' = <[sender t_vrau := default_dict]> (meetings_dict w) ∧
     snd (vaiblouco h t_close w) = w' ∧
     match http_get h (log_url h (meeting_log_baseurl w) (sender t_vrau) title start ".txt")
     with
     | Some _ =>
         vaiblouco h t_close w = (Ok tt, w') ∧
         meeting_vraus w' = delete (sender t_vrau) (meeting_vraus w)
     | None =>
         vaiblouco h t_close w = (Raise RequestError, w') ∧
         meeting_vraus w' = meeting_vraus w
     end).
  { rewrite <- Ec in Hst, Hl |- *.
    destruct (vaiblouco_logged h t_close w r owner title start Hst Hch' O1 O2)
      as (w1 & Hmd & Hv & ->).
    unfold requests_get.
    destruct (http_get h _) as [body|].
    - prim. prim. unfold del_vraus. proj.
      exists (set_vraus (delete (sender t_close))
                (add_said ("Segue o Blouco! " +:+ md5_hex h body) None w1)).
      rewrite Hv, Hl. proj. rewrite Hv. by repeat split.
    - erewrite bind_raise by reflexivity.
      exists w1. by repeat split. }
  split; [|split; [|split]].
  - destruct (meetingvrau_ok h t_vrau w r owner title start l Hst Hch Hne Hl O1 O2)
      as (w' & E & Hv & _).
    by exists w'.
  - destruct Hst as (Hc & Hr & _).
    rewrite <- El in Hc, Hl.
    by apply (listvraus_ok h t_list w r (VBool true) l Hc Hr eq_refl Hl).
  - destruct Hclose as (w' & Hmd & _ & H). by exists w'.
  - destruct Hclose as (w1 & Hmd & E & _).
    rewrite E in Hopen. rewrite <- Eo in Hmd.
    destruct (is_meeting_running_after_reset _ _ _ Hmd) as (w0 & Hrun).
    pose proof (vemblouco_fresh t_open w1 VDict w0 Hp Hrun eq_refl) as Hf.
    rewrite Hopen in Hf. destruct Hf as (Hv & r' & Hc' & Hr').
    rewrite Eo, <- El in Hv, Hc'.
    destruct (listvraus_ok h t_list w_open r' (VBool true) [] Hc' Hr' eq_refl Hv)
      as (w' & E' & Hs & _).
    exists w'. split; [done|]. by rewrite Hs, app_nil_r.
Qed.

End Lifecycle.

(** ** The side-note command and its documentation *)

(** C1 does not hold of [take_ow].  Its docstring and the announcement of
    [vemblouco] give the form [.ow <#channel> <text>] in a private message,
    but the handler never looks at the named channel.  Sent in private while
    a meeting runs in the channel named, the command answers that there is no
    meeting and leaves the record of that channel as it is; sent inside the
    channel, it files the whole argument, channel token included. *)
Theorem take_ow_ignores_named_channel (h : Host) (t t' : Trigger)
    w target comment r owner title start l :
  target ≠ "" →
  started (meetings_dict w) target r owner title start →
  items r !! "ows" = Some (VList l) →
  group3 t = target → group2 t = target +:+ " " +:+ comment →
  sender t = nick t → meetings_dict w !! nick t = None →
  group3 t' = target → group2 t' = target +:+ " " +:+ comment →
  sender t' = target →
  (take_ow h t w
   = (Ok tt, add_said "Não tem Blouco aqui." None
               (set_meetings (<[nick t := plain_dict]>) w)) ∧
   meetings_dict (snd (take_ow h t w)) !! target = Some r) ∧
  (∃ w', take_ow h t' w = (Ok tt, w') ∧
     meetings_dict w' !! target
     = Some (mkMeeting (defaulting r)
               (<["ows" := VList (l ++ [EPair (nick t') (target +:+ " " +:+ comment)])]>
                  (items r)))).
Proof.
  intros Hne Hst Hows H3 H2 Hs Hnone H3' H2' Hs'. split.
  - assert (E : take_ow h t w
                = (Ok tt, add_said "Não tem Blouco aqui." None
                            (set_meetings (<[nick t := plain_dict]>) w))).
    { rewrite <- Hs. apply take_ow_private; [by rewrite H3 | by rewrite Hs]. }
    split; [exact E|]. rewrite E. simpl.
    destruct Hst as (Hc & _).
    rewrite lookup_insert_ne; [done|]. intros Heq. rewrite Heq in Hnone. congruence.
  - rewrite <- Hs' in Hst.
    destruct (take_ow_in_channel h t' w r owner title start l) as (w' & E & Hmd & _);
      [by rewrite H3' | done | done |].
    exists w'. split; [done|]. by rewrite Hmd, <- Hs', lookup_insert_eq, H2', Hs'.
Qed.

(** ** The theorems at work on the example deployment *)

Lemma roll_call_started w :
  meetings_dict w = meetings_dict Demo.opened →
  started (meetings_dict w) "#blouco" Demo.roll_call "alice" "Roll Call!" 1704164640.
Proof. intros ->. unfold started. split_and!; vm_compute; reflexivity. Qed.

Lemma vemblouco_already_running_witness :
  vemblouco Demo.host (Demo.in_channel "#blouco" "Zed" "Another one") Demo.opened
  = (Ok tt, add_said "Já tem um Blouco ativo!" None Demo.opened).
Proof.
  refine (proj1 (vemblouco_already_running Demo.host
                   (Demo.in_channel "#blouco" "Zed" "Another one") Demo.opened
                   Demo.roll_call (VBool true) _ _ _ _));
    vm_compute; reflexivity.
Defined.

Lemma puxam_owner_only_witness :
  puxam Demo.host (Demo.in_channel "#blouco" "Zed" "Zed") Demo.opened
  = (Ok tt, add_said "Somente a Porta-estandarte pode consagrar Puxadoras" None
              Demo.opened) ∧
  ∃ w', puxam Demo.host (Demo.in_channel "#blouco" "Alice" "Alice Bob") Demo.opened
        = (Ok tt, w') ∧
        items (Demo.record_of w' "#blouco") !! "puxam"
        = Some (VList [EStr "alice"; EStr "bob"]).
Proof.
  destruct (puxam_owner_only Demo.host
              (Demo.in_channel "#blouco" "Zed" "Zed")
              (Demo.in_channel "#blouco" "Alice" "Alice Bob")
              Demo.opened Demo.roll_call "alice" "Roll Call!" 1704164640)
    as (E1 & w' & E2 & Hmd & _);
    [ apply roll_call_started; reflexivity | discriminate | discriminate
    | reflexivity | reflexivity | reflexivity | reflexivity | reflexivity | ].
  split; [exact E1|]. exists w'. split; [exact E2|].
  unfold Demo.record_of. rewrite Hmd. simpl. rewrite lookup_insert_eq. simpl.
  apply lookup_insert_eq.
Defined.

Lemma meetinglink_prefixes_http_witness :
  ∃ w', meetinglink Demo.host (Demo.in_channel "#blouco" "alice" "httpfoo") Demo.opened
        = (Ok tt, w') ∧
        said w' = said Demo.opened ++ [(Demo.bold "LINK:" +:+ " httpfoo", None)].
Proof.
  destruct (meetinglink_prefixes_http Demo.host
              (Demo.in_channel "#blouco" "alice" "httpfoo")
              Demo.opened Demo.roll_call "alice" "Roll Call!" 1704164640)
    as (url & w' & Hhttp & _ & E & _ & Hsaid);
    [ apply roll_call_started; reflexivity | by left | discriminate
    | reflexivity | reflexivity | ].
  exists w'. split; [exact E|].
  rewrite Hsaid, (Hhttp (ex_intro _ "foo" eq_refl)). reflexivity.
Defined.

Lemma show_ows_drains_witness :
  ∃ w1 w2,
    show_ows Demo.host (Demo.in_channel "#blouco" "alice" "") Demo.with_ow = (Ok tt, w1) ∧
    show_ows Demo.host (Demo.in_channel "#blouco" "alice" "") w1 = (Ok tt, w2) ∧
    said w2 = said Demo.with_ow ++
              [("Lista de Ows:", None); ("<zed> louder please", None);
               ("Não tem Ows", None)].
Proof.
  destruct (show_ows_drains Demo.host (Demo.in_channel "#blouco" "alice" "")
              Demo.with_ow (Demo.record_of Demo.with_ow "#blouco")
              "alice" "Roll Call!" 1704164640 "zed" "louder please")
    as (w1 & w2 & E1 & S1 & _ & E2 & S2 & _);
    [ unfold started; split_and!; vm_compute; reflexivity | by left
    | vm_compute; reflexivity | reflexivity | reflexivity | ].
  exists w1, w2. split; [exact E1|]. split; [exact E2|].
  rewrite S2, S1, <- app_assoc. reflexivity.
Defined.

Lemma is_chair_incomplete_record_witness :
  incomplete (meetings_dict Demo.opened) "#blouco" ∧
  fst (is_chair Demo.host "Zed" "#blouco" Demo.opened) = Ok false ∧
  fst (is_chair Demo.host "Zed" "#nowhere" Demo.opened) = Ok false.
Proof.
  assert (H1 : incomplete (meetings_dict Demo.opened) "#blouco")
    by (vm_compute; left; reflexivity).
  assert (H2 : incomplete (meetings_dict Demo.opened) "#nowhere")
    by (vm_compute; exact I).
  split; [exact H1|]. split.
  - rewrite (is_chair_incomplete_record Demo.host "Zed" "#blouco" Demo.opened H1).
    vm_compute. reflexivity.
  - rewrite (is_chair_incomplete_record Demo.host "Zed" "#nowhere" Demo.opened H2).
    vm_compute. reflexivity.
Defined.

Lemma vaiblouco_resets_after_logs_witness :
  meetings_dict (snd (vaiblouco Demo.host (Demo.in_channel "#blouco" "alice" "")
                        Demo.opened))
  = <["#blouco" := default_dict]> (meetings_dict Demo.opened).
Proof.
  exact (vaiblouco_resets_after_logs Demo.host (Demo.in_channel "#blouco" "alice" "")
           Demo.opened Demo.roll_call "alice" "Roll Call!" 1704164640
           (roll_call_started Demo.opened eq_refl) (or_introl eq_refl)).
Defined.

Lemma vraus_lifecycle_witness :
  (∃ w', listvraus Demo.host (Demo.in_channel "#blouco" "zed" "") Demo.with_vraus
         = (Ok tt, w') ∧
         said w' = said Demo.with_vraus ++
                   [(Demo.bold "vrau:" +:+ " Carol prints the map", None);
                    (Demo.bold "vrau:" +:+ " Bob brings the drums", None)]) ∧
  (∃ w', listvraus Demo.host (Demo.in_channel "#blouco" "zed" "") Demo.reopened
         = (Ok tt, w') ∧
         said w' = said Demo.reopened).
Proof.
  destruct (vraus_lifecycle Demo.host
              (Demo.in_channel "#blouco" "alice" "Dan sweeps the street")
              (Demo.in_channel "#blouco" "zed" "")
              (Demo.in_channel "#blouco" "alice" "")
              (Demo.in_channel "#blouco" "Alice" "")
              Demo.with_vraus Demo.roll_call "alice" "Roll Call!" 1704164640
              ["Carol prints the map"; "Bob brings the drums"] Demo.reopened)
    as (_ & (w1 & E1 & S1 & _) & _ & H4);
    [ apply roll_call_started; vm_compute; reflexivity
    | reflexivity | reflexivity | reflexivity | by left | by left | discriminate
    | vm_compute; reflexivity | reflexivity | reflexivity | reflexivity
    | vm_compute; reflexivity | ].
  split; [|exact H4]. exists w1. split; [exact E1|]. rewrite S1. reflexivity.
Defined.

Lemma take_ow_ignores_named_channel_witness :
  take_ow Demo.host (Demo.in_private "bob" "#blouco louder please") Demo.opened
  = (Ok tt, add_said "Não tem Blouco aqui." None
              (set_meetings (<["bob" := plain_dict]>) Demo.opened)) ∧
  items (Demo.record_of
           (snd (take_ow Demo.host (Demo.in_private "bob" "#blouco louder please")
                   Demo.opened)) "#blouco") !! "ows" = Some (VList []) ∧
  ∃ w', take_ow Demo.host (Demo.in_channel "#blouco" "bob" "#blouco louder please")
          Demo.opened = (Ok tt, w') ∧
        items (Demo.record_of w' "#blouco") !! "ows"
        = Some (VList [EPair "bob" "#blouco louder please"]).
Proof.
  destruct (take_ow_ignores_named_channel Demo.host
              (Demo.in_private "bob" "#blouco louder please")
              (Demo.in_channel "#blouco" "bob" "#blouco louder please")
              Demo.opened "#blouco" "louder please" Demo.roll_call
              "alice" "Roll Call!" 1704164640 [])
    as ((E & Hr) & w' & E' & Hr');
    [ discriminate | apply roll_call_started; reflexivity | vm_compute; reflexivity
    | reflexivity | reflexivity | reflexivity | vm_compute; reflexivity
    | reflexivity | reflexivity | reflexivity | ].
  split; [exact E|]. split.
  - unfold Demo.record_of. rewrite Hr. vm_compute. reflexivity.
  - exists w'. split; [exact E'|].
    unfold Demo.record_of. rewrite Hr'. simpl. apply lookup_insert_eq.
Defined.

(** ** Where the claims, as they are worded, fail *)

(** C2: on a disk that refuses the log files, the close of a running
    meeting by its owner raises, and the meeting is still there and still
    running. *)
Lemma vaiblouco_log_failure_keeps_meeting :
  started (meetings_dict Demo.opened) "#blouco" Demo.roll_call
    "alice" "Roll Call!" 1704164640 ∧
  fst (vaiblouco Demo.broken_disk (Demo.in_channel "#blouco" "alice" "") Demo.opened)
  = Raise OSError ∧
  meetings_dict
    (snd (vaiblouco Demo.broken_disk (Demo.in_channel "#blouco" "alice" "") Demo.opened))
  !! "#blouco" = Some Demo.roll_call ∧
  Demo.roll_call ≠ default_dict ∧
  fst (is_meeting_running "#blouco"
         (snd (vaiblouco Demo.broken_disk (Demo.in_channel "#blouco" "alice" "")
                 Demo.opened)))
  = Ok (VBool true).
Proof.
  split; [apply roll_call_started; reflexivity|].
  split; [vm_compute; reflexivity|].
  split; [vm_compute; reflexivity|].
  split; [|vm_compute; reflexivity].
  intros E. apply (f_equal (λ r, items r !! "running")) in E.
  vm_compute in E. discriminate.
Qed.

(** C3: the record of a meeting that was just opened has an owner and no
    chairs key, and the query is true for the owner. *)
Lemma is_chair_owner_before_chairs :
  meetings_dict Demo.opened !! "#blouco" = Some Demo.roll_call ∧
  items Demo.roll_call !! "puxam" = None ∧
  is_chair Demo.host "Alice" "#blouco" Demo.opened = (Ok true, Demo.opened).
Proof. split_and!; vm_compute; reflexivity. Qed.

(** C4: the meeting-running query adds a record for a channel that was
    never initialized, and it binds ["running"] in the record that a close
    has installed; the chair-or-owner query binds ["head"] and ["puxam"]
    there. *)
Lemma queries_touch_store :
  (meetings_dict Demo.boot !! "#blouco" = None ∧
   meetings_dict (snd (is_meeting_running "#blouco" Demo.boot)) !! "#blouco"
   = Some plain_dict) ∧
  (meetings_dict Demo.closed !! "#blouco" = Some default_dict ∧
   meetings_dict (snd (is_meeting_running "#blouco" Demo.closed)) !! "#blouco"
   = Some (mkMeeting true {[ "running" := VDict ]}) ∧
   meetings_dict (snd (is_chair Demo.host "alice" "#blouco" Demo.closed)) !! "#blouco"
   = Some (mkMeeting true (<["puxam" := VDict]> {[ "head" := VDict ]}))).
Proof. split_and!; vm_compute; reflexivity. Qed.

(** C8, as it is worded, fails when the published log cannot be fetched:
    the close raises after it has ended the meeting, and the action items of
    the channel are still in memory. *)
Lemma vaiblouco_fetch_failure_keeps_vraus :
  started (meetings_dict Demo.with_vraus) "#blouco" Demo.roll_call
    "alice" "Roll Call!" 1704164640 ∧
  fst (vaiblouco Stage.offline (Demo.in_channel "#blouco" "alice" "") Demo.with_vraus)
  = Raise RequestError ∧
  meetings_dict
    (snd (vaiblouco Stage.offline (Demo.in_channel "#blouco" "alice" "") Demo.with_vraus))
  !! "#blouco" = Some default_dict ∧
  meeting_vraus
    (snd (vaiblouco Stage.offline (Demo.in_channel "#blouco" "alice" "") Demo.with_vraus))
  !! "#blouco" = Some ["Carol prints the map"; "Bob brings the drums"].
Proof.
  split; [apply roll_call_started; vm_compute; reflexivity|].
  split_and!; vm_compute; reflexivity.
Qed.

(** * Further properties of the module *)

(** ** The slug and the list of chairs, as strings *)

Lemma logfile_name_slug title start :
  logfile_name title start = Time.fmt_file (Time.gmtime start) +:+ "_" +:+ slug title.
Proof. reflexivity. Qed.

Lemma chars_lstrip c s a : a ∈ chars (Str.lstrip c s) → a ∈ chars s.
Proof.
  induction s as [|b s IH]; simpl; [done|].
  destruct (Ascii.eqb b c); [|done].
  intros H. apply elem_of_cons. right. by apply IH.
Qed.

Lemma chars_rstrip c s a : a ∈ chars (Str.rstrip c s) → a ∈ chars s.
Proof.
  induction s as [|b s IH]; simpl; [done|].
  destruct (Str.rstrip c s) as [|b' r] eqn:E.
  - destruct (Ascii.eqb b c); simpl; [by intros ?%elem_of_nil|].
    intros [->|?%elem_of_nil]%elem_of_cons; [|done]. apply elem_of_cons. by left.
  - intros [->|H]%elem_of_cons; apply elem_of_cons; [by left|right; by apply IH].
Qed.

Lemma chars_strip c s a : a ∈ chars (Str.strip c s) → a ∈ chars s.
Proof. unfold Str.strip. intros H%chars_rstrip. by apply chars_lstrip in H. Qed.

Lemma chars_map_string f s a : a ∈ chars (map_string f s) → ∃ b, b ∈ chars s ∧ a = f b.
Proof.
  induction s as [|b s IH]; simpl; [by intros ?%elem_of_nil|].
  intros [->|H]%elem_of_cons.
  - exists b. split; [apply elem_of_cons; by left|done].
  - destruct (IH H) as (b' & Hb & ->). exists b'. split; [apply elem_of_cons; by right|done].
Qed.

Lemma existsb_eqb_elem a l : existsb (Ascii.eqb a) l = true ↔ a ∈ l.
Proof.
  rewrite existsb_exists. split.
  - intros (x & Hin & E). apply Ascii.eqb_eq in E. subst. by apply list_elem_of_In.
  - intros H. exists a. split; [by apply list_elem_of_In|apply Ascii.eqb_refl].
Qed.

Lemma chars_sluggify s a : a ∈ chars (sluggify s) → a ∈ replaced → a = "-"%char.
Proof.
  unfold sluggify. rewrite fold_replace. fold replaced.
  intros H. destruct (chars_map_string _ _ _ H) as (b & _ & ->). unfold hyphen_if.
  destruct (existsb (Ascii.eqb b) replaced) eqn:E; [done|].
  intros H'. apply existsb_eqb_elem in H'. congruence.
Qed.

(** X1: the slug of a title holds no character of [string.punctuation] or
    [string.whitespace] other than the hyphen; in particular no slash and no
    blank. *)
Theorem slug_charset title a :
  a ∈ chars (slug title) → a ∈ replaced → a = "-"%char.
Proof. unfold slug. intros H. apply chars_strip in H. exact (chars_sluggify _ _ H). Qed.

Lemma lstrip_head c s : Str.startswith (Str.lstrip c s) (String c "") = false.
Proof.
  induction s as [|b s IH]; simpl; [done|].
  destruct (Ascii.eqb b c) eqn:E; [done|].
  unfold Str.startswith. simpl.
  destruct (Ascii.ascii_dec c b) as [->|]; [by rewrite Ascii.eqb_refl in E|done].
Qed.

Lemma rstrip_head c s :
  Str.startswith s (String c "") = false →
  Str.startswith (Str.rstrip c s) (String c "") = false.
Proof.
  destruct s as [|b s]; simpl; [done|]. unfold Str.startswith. simpl.
  destruct (Ascii.ascii_dec c b) as [->|NE]; [by destruct s|]. intros _.
  destruct (Str.rstrip c s); [|simpl; by destruct (Ascii.ascii_dec c b)].
  destruct (Ascii.eqb b c); simpl; [done|]. by destruct (Ascii.ascii_dec c b).
Qed.

Lemma endswith_cons b s p :
  p ≠ "" → Str.endswith (String b s) p = String.eqb (String b s) p || Str.endswith s p.
Proof. reflexivity. Qed.

Lemma rstrip_last c s : Str.endswith (Str.rstrip c s) (String c "") = false.
Proof.
  induction s as [|b s IH]; simpl; [done|].
  destruct (Str.rstrip c s) as [|b' r] eqn:E.
  - destruct (Ascii.eqb b c) eqn:Eb; simpl; [done|].
    rewrite Eb. done.
  - change (Str.endswith (String b (String b' r)) (String c ""))
      with (String.eqb (String b (String b' r)) (String c "")
            || Str.endswith (String b' r) (String c "")).
    rewrite IH. simpl. destruct (Ascii.eqb b c); done.
Qed.

(** X2: the slug neither begins nor ends with a hyphen. *)
Theorem slug_trimmed title :
  Str.startswith (slug title) "-" = false ∧ Str.endswith (slug title) "-" = false.
Proof.
  unfold slug, Str.strip. split.
  - apply rstrip_head, lstrip_head.
  - apply rstrip_last.
Qed.

Lemma lstrip_all c s : (∀ a, a ∈ chars s → a = c) → Str.lstrip c s = "".
Proof.
  induction s as [|b s IH]; simpl; [done|]. intros H.
  rewrite (H b) by (apply elem_of_cons; by left). rewrite Ascii.eqb_refl.
  apply IH. intros a Ha. apply H. apply elem_of_cons. by right.
Qed.

(** X3: a title made of punctuation and whitespace only has the empty
    slug, so the file name base ends with the underscore. *)
Theorem slug_of_punctuation title :
  (∀ a, a ∈ chars title → a ∈ replaced) →
  slug title = "" ∧
  ∀ start, logfile_name title start = Time.fmt_file (Time.gmtime start) +:+ "_".
Proof.
  intros H. assert (E : slug title = ""); [|split; [exact E|]].
  2: { intros start. by rewrite logfile_name_slug, E. }
  unfold slug.
  destruct (String.eqb_spec UNTITLED_MEETING title) as [<-|_].
  - exfalso. assert (Hin : "A"%char ∈ chars UNTITLED_MEETING) by (apply elem_of_cons; by left).
    apply H in Hin. apply existsb_eqb_elem in Hin. vm_compute in Hin. discriminate.
  - unfold Str.strip. rewrite lstrip_all; [done|].
    intros a Ha. unfold sluggify in Ha. rewrite fold_replace in Ha.
    destruct (chars_map_string _ _ _ Ha) as (b & Hb & ->).
    unfold hyphen_if. apply H in Hb. apply existsb_eqb_elem in Hb.
    unfold replaced in Hb. by rewrite Hb.
Qed.

Lemma split_cons c s : ∃ x l, Str.split c s = x :: l.
Proof.
  destruct s as [|a s]; simpl; [by eexists _, _|].
  destruct (Ascii.eqb a c); [by eexists _, _|].
  destruct (Str.split c s); by eexists _, _.
Qed.

Lemma join_cons sep x y l : join sep (x :: y :: l) = x +:+ sep +:+ join sep (y :: l).
Proof. reflexivity. Qed.

Lemma replace_join c sep s : Str.replace c sep s = join sep (Str.split c s).
Proof.
  induction s as [|a s IH]; simpl; [done|].
  destruct (split_cons c s) as (x & l & E). rewrite E in *.
  destruct (Ascii.eqb a c).
  - rewrite IH. reflexivity.
  - rewrite IH. destruct l; reflexivity.
Qed.

Lemma replace_same c s : Str.replace c (String c "") s = s.
Proof.
  induction s as [|a s IH]; simpl; [done|].
  destruct (Ascii.eqb_spec a c) as [->|]; simpl; by rewrite IH.
Qed.

(** X4: splitting on a character and joining with it gives the string
    back; replacing the character by a separator is the same as joining the
    pieces with the separator, which is how [puxam] renders the chairs it
    stores; and the split never gives the empty list. *)
Theorem split_join c sep s :
  join (String c "") (Str.split c s) = s ∧
  Str.replace c sep s = join sep (Str.split c s) ∧
  Str.split c s ≠ [].
Proof.
  split; [|split].
  - rewrite <- replace_join. apply replace_same.
  - apply replace_join.
  - destruct (split_cons c s) as (x & l & ->). done.
Qed.

(** ** Refusals *)

Section Refusals.
Variable h : Host.

(** X5: when no meeting is running in the channel, every command that
    needs one answers that there is none and does nothing else; [.ows] says
    nothing at all, and [.ow] checks its argument first. *)
Theorem no_meeting_refused (t : Trigger) w v w0 :
  is_meeting_running (sender t) w = (Ok v, w0) → truthy v = false →
  meetingmissao h t w = (Ok tt, add_said "Não tem Blouco aqui" None w0) ∧
  vaiblouco h t w = (Ok tt, add_said "Não tem Blouco aqui" None w0) ∧
  puxam h t w = (Ok tt, add_said "Não tem Blouco aqui" None w0) ∧
  meetingvrau h t w = (Ok tt, add_said "Não tem Blouco aqui" None w0) ∧
  listvraus h t w = (Ok tt, add_said "Não tem Blouco aqui" None w0) ∧
  meetingblz h t w = (Ok tt, add_said "Não tem Blouco aqui" None w0) ∧
  meetinglink h t w = (Ok tt, add_said "Não tem Blouco aqui" None w0) ∧
  meetingseliga h t w = (Ok tt, add_said "Não tem Blouco aqui" None w0) ∧
  show_ows h t w = (Ok tt, w0) ∧
  take_ow h t w
  = (if Str.is_empty (group3 t)
     then (Ok tt, add_said ("Uso: " +:+ help_prefix h +:+ "ow <comentário>") None w)
     else (Ok tt, add_said "Não tem Blouco aqui." None w0)).
Proof.
  intros Hrun Hv.
  split_and!;
    try (unfold meetingmissao, vaiblouco, puxam, meetingvrau, listvraus, meetingblz,
           meetinglink, meetingseliga, show_ows;
         erewrite bind_eq by exact Hrun; rewrite Hv; reflexivity).
  unfold take_ow. destruct (Str.is_empty (group3 t)); [reflexivity|].
  erewrite bind_eq by exact Hrun. by rewrite Hv.
Qed.

(** X6: in a running meeting a command that needs an argument and gets
    none answers with its hint, whoever sends it: the argument is looked at
    before the authorization. *)
Theorem missing_argument_hint (t : Trigger) w r v :
  meetings_dict w !! sender t = Some r →
  items r !! "running" = Some v → truthy v = true →
  group2 t = "" →
  meetingmissao h t w = (Ok tt, add_said "Qual a missão?" None w) ∧
  puxam h t w
  = (Ok tt, add_said ("Quem vai puxar? Tente `" +:+ help_prefix h
                      +:+ "puxam Fulana Beltrana_18 C1cl4n4`") None w) ∧
  meetingvrau h t w
  = (Ok tt, add_said ("Tente `" +:+ help_prefix h
                      +:+ "vrau Fulanin vai fazer tal coisa`") None w) ∧
  meetingblz h t w
  = (Ok tt, add_said ("Tente `" +:+ help_prefix h
                      +:+ "blz vai ser demais isso aí manda ver`") None w) ∧
  meetinglink h t w
  = (Ok tt, add_said ("Tente `" +:+ help_prefix h
                      +:+ "link https://algum-website.exemplo/`") None w) ∧
  meetingseliga h t w
  = (Ok tt, add_said ("Tente `" +:+ help_prefix h
                      +:+ "seliga alguma informação relevante`") None w).
Proof.
  intros Hc Hr Hv Harg.
  split_and!;
    unfold meetingmissao, puxam, meetingvrau, meetingblz, meetinglink, meetingseliga;
    erewrite bind_eq by (eapply is_meeting_running_bound; eauto);
    rewrite Hv, Harg; reflexivity.
Qed.

Lemma is_chair_grown nick c w :
  grown c (meetings_dict w) (meetings_dict (snd (is_chair h nick c w))).
Proof.
  destruct (is_chair_world h nick c w) as [-> | ->].
  - apply getitem_grown.
  - eapply grown_trans; apply getitem_grown.
Qed.

Lemma is_chair_same_but_meetings nick c w :
  same_but_meetings w (snd (is_chair h nick c w)).
Proof.
  destruct (is_chair_world h nick c w) as [-> | ->].
  - apply getitem_same_but_meetings.
  - eapply same_but_meetings_trans; apply getitem_same_but_meetings.
Qed.

(** X7: in a running meeting a privileged command from somebody who is
    neither owner nor chair only answers that owner and chairs alone may do
    this: nothing is logged, and the store has at most got the blanks of the
    query.  The close and the show command, which take no argument, answer so
    whatever follows the command; the commands that need an argument answer
    with their hint when it is missing. *)
Theorem unauthorized_refused (t : Trigger) w r v w0 :
  meetings_dict w !! sender t = Some r →
  items r !! "running" = Some v → truthy v = true →
  is_chair h (nick t) (sender t) w = (Ok false, w0) →
  same_but_meetings w w0 ∧
  grown (sender t) (meetings_dict w) (meetings_dict w0) ∧
  vaiblouco h t w
  = (Ok tt, add_said "Somente Porta-estandarte e Puxadoras podem fazer isso" None w0) ∧
  show_ows h t w
  = (Ok tt, add_said "Somente Porta-estandarte e Puxadoras podem fazer isso" None w0) ∧
  meetingmissao h t w
  = (if Str.is_empty (group2 t)
     then (Ok tt, add_said "Qual a missão?" None w)
     else (Ok tt, add_said "Somente Porta-estandarte e Puxadoras podem fazer isso"
                    None w0)) ∧
  meetingvrau h t w
  = (if Str.is_empty (group2 t)
     then (Ok tt, add_said ("Tente `" +:+ help_prefix h
                            +:+ "vrau Fulanin vai fazer tal coisa`") None w)
     else (Ok tt, add_said "Somente a Porta-estandarte e as Puxadoras podem fazer isso"
                    None w0)) ∧
  meetingblz h t w
  = (if Str.is_empty (group2 t)
     then (Ok tt, add_said ("Tente `" +:+ help_prefix h
                            +:+ "blz vai ser demais isso aí manda ver`") None w)
     else (Ok tt, add_said "Somente a Porta-estandarte e as Puxadoras podem fazer isso"
                    None w0)) ∧
  meetinglink h t w
  = (if Str.is_empty (group2 t)
     then (Ok tt, add_said ("Tente `" +:+ help_prefix h
                            +:+ "link https://algum-website.exemplo/`") None w)
     else (Ok tt, add_said "Somente a Porta-estandarte e as Puxadoras podem fazer isso"
                    None w0)) ∧
  meetingseliga h t w
  = (if Str.is_empty (group2 t)
     then (Ok tt, add_said ("Tente `" +:+ help_prefix h
                            +:+ "seliga alguma informação relevante`") None w)
     else (Ok tt, add_said "Somente a Porta-estandarte e as Puxadoras podem fazer isso"
                    None w0)).
Proof.
  intros Hc Hr Hv Hch.
  split; [|split].
  - pose proof (is_chair_same_but_meetings (nick t) (sender t) w) as H.
    by rewrite Hch in H.
  - pose proof (is_chair_grown (nick t) (sender t) w) as H.
    by rewrite Hch in H.
  - split_and!;
      unfold meetingmissao, vaiblouco, show_ows, meetingvrau, meetingblz, meetinglink,
        meetingseliga;
      erewrite bind_eq by (eapply is_meeting_running_bound; eauto);
      rewrite Hv; simpl;
      try (destruct (Str.is_empty (group2 t)); [reflexivity|]);
      erewrite bind_eq by exact Hch; reflexivity.
Qed.
End Refusals.

(** ** Opening a meeting *)

Section Opening.
Variable h : Host.

Lemma log_html_start_exact c w r owner title start :
  meetings_dict w !! c = Some r →
  items r !! "title" = Some (VStr title) →
  items r !! "start" = Some (VNum start) →
  items r !! "head" = Some (VStr owner) →
  open_ok h (opens w) = true →
  log_html_start h c w
  = (Ok tt, add_appended (logfile_path (meeting_log_path w) c title start ".html")
              (html_start_2 owner)
              (add_appended (logfile_path (meeting_log_path w) c title start ".html")
                 (html_start_1 c title start) (bump_opens w))).
Proof.
  intros Hc Ht Hs Hh Ho. unfold log_html_start.
  prim. step figure_logfile_name_ok.
  erewrite bind_eq by (unfold open_append; rewrite Ho; reflexivity).
  step getitem_bound. prim. step getitem_bound. prim. step getitem_bound.
  reflexivity.
Qed.

Lemma vemblouco_ok (t : Trigger) w v w0 r0 :
  is_privmsg t = false →
  is_meeting_running (sender t) w = (Ok v, w0) → truthy v = false →
  meetings_dict w0 !! sender t = Some r0 →
  with_sep (config_log_path h) +:+ sender t ∈ dirs w0 ∨
  makedirs_ok h (with_sep (config_log_path h) +:+ sender t) = true →
  open_ok h (opens w0) = true → open_ok h (S (opens w0)) = true →
  ∃ w',
    vemblouco h t w = (Ok tt, w') ∧
    meetings_dict w' !! sender t
    = Some (opened_record h t (clock h (ticks w0)) r0) ∧
    (∀ c, c ≠ sender t → meetings_dict w' !! c = meetings_dict w0 !! c) ∧
    meeting_vraus w' = <[sender t := []]> (meeting_vraus w0) ∧
    meeting_log_path w' = with_sep (config_log_path h) ∧
    meeting_log_baseurl w' = with_sep (config_log_baseurl h) ∧
    dirs w'
    = (if bool_decide (with_sep (config_log_path h) +:+ sender t ∈ dirs w0)
       then dirs w0
       else {[with_sep (config_log_path h) +:+ sender t]} ∪ dirs w0) ∧
    appended w'
    = appended w0 ++
      [(logfile_path (with_sep (config_log_path h)) (sender t)
          (title_for (group2 t)) (clock h (ticks w0)) ".txt",
        plain_line h (S (ticks w0))
          ("Blouco trazido pela Porta-estandarte " +:+ nick_lower h (nick t)));
       (logfile_path (with_sep (config_log_path h)) (sender t)
          (title_for (group2 t)) (clock h (ticks w0)) ".html",
        html_start_1 (sender t) (title_for (group2 t)) (clock h (ticks w0)));
       (logfile_path (with_sep (config_log_path h)) (sender t)
          (title_for (group2 t)) (clock h (ticks w0)) ".html",
        html_start_2 (nick_lower h (nick t)))] ∧
    said w' = said w0 ++ [(banner h, None); (ow_hint h (sender t), None)] ∧
    opens w' = S (S (opens w0)) ∧ ticks w' = S (S (ticks w0)).
Proof.
  intros Hp Hrun Hv Hr0 Hdir O1 O2.
  unfold vemblouco. rewrite Hp.
  erewrite bind_eq by exact Hrun. rewrite Hv.
  prim. step setitem_bound.
  unfold opened_record, title_for, with_sep in *.
  destruct (Str.is_empty (group2 t));
    (step setitem_bound; step setitem_bound; step setitem_bound; step setitem_bound;
     prim; prim;
     destruct (Str.endswith (config_log_path h) "/");
     prim; prim; prim;
     destruct (Str.endswith (config_log_baseurl h) "/");
     prim; prim; prim).
  all: match goal with
       | |- context [bool_decide ?P] => destruct (bool_decide_reflect P) as [Hin|Hin]
       end.
  all: try prim.
  all: try (destruct Hdir as [Hdir|Hdir]; [done|];
            erewrite bind_eq
              by (unfold except_Exception, makedirs; rewrite Hdir; reflexivity);
            proj).
  all: step log_plain_ok.
  all: step log_html_start_exact.
  all: prim; prim.
  all: eexists; split; [reflexivity|]; proj.
  all: split; [by rewrite lookup_insert_eq|].
  all: split; [intros c Hne; by rewrite !lookup_insert_ne|].
  all: rewrite <- ?app_assoc; split_and!; try reflexivity.
Qed.

Lemma endswith_app_sep s : Str.endswith (s +:+ "/") "/" = true.
Proof.
  induction s as [|a s IH]; [reflexivity|].
  change (Str.endswith (String a s +:+ "/") "/")
    with (String.eqb (String a (s +:+ "/")) "/" || Str.endswith (s +:+ "/") "/").
  rewrite IH. apply orb_true_r.
Qed.

Lemma endswith_with_sep s : Str.endswith (with_sep s) "/" = true.
Proof.
  unfold with_sep. destruct (Str.endswith s "/") eqn:E; [done|]. apply endswith_app_sep.
Qed.

Lemma is_meeting_running_finds c w v w0 :
  is_meeting_running c w = (Ok v, w0) → ∃ r0, meetings_dict w0 !! c = Some r0.
Proof.
  intros E. destruct (is_meeting_running_record c w) as [r0 H].
  rewrite E in H. by exists r0.
Qed.

(** X8: an open that goes through leaves a running meeting with the
    lower-cased invoker as owner, the argument (or the sentinel) as title, the
    clock reading as start, no side notes and no action items; the owner
    passes the chair-or-owner query at once; the bot says its two
    announcements. *)
Theorem vemblouco_starts_meeting (t : Trigger) w v w0 :
  is_privmsg t = false →
  is_meeting_running (sender t) w = (Ok v, w0) → truthy v = false →
  with_sep (config_log_path h) +:+ sender t ∈ dirs w0 ∨
  makedirs_ok h (with_sep (config_log_path h) +:+ sender t) = true →
  open_ok h (opens w0) = true → open_ok h (S (opens w0)) = true →
  ∃ w' r',
    vemblouco h t w = (Ok tt, w') ∧
    started (meetings_dict w') (sender t) r'
      (nick_lower h (nick t)) (title_for (group2 t)) (clock h (ticks w0)) ∧
    items r' !! "ows" = Some (VList []) ∧
    meeting_vraus w' !! sender t = Some [] ∧
    is_meeting_running (sender t) w' = (Ok (VBool true), w') ∧
    is_chair h (nick t) (sender t) w' = (Ok true, w') ∧
    said w' = said w0 ++ [(banner h, None); (ow_hint h (sender t), None)].
Proof.
  intros Hp Hrun Hv Hdir O1 O2.
  destruct (is_meeting_running_finds _ _ _ _ Hrun) as [r0 Hr0].
  destruct (vemblouco_ok t w v w0 r0 Hp Hrun Hv Hr0 Hdir O1 O2)
    as (w' & E & Hc & _ & Hvr & _ & _ & _ & _ & Hsaid & _).
  exists w', (opened_record h t (clock h (ticks w0)) r0).
  assert (Hst : started (meetings_dict w') (sender t)
                  (opened_record h t (clock h (ticks w0)) r0)
                  (nick_lower h (nick t)) (title_for (group2 t)) (clock h (ticks w0))).
  { unfold started. split; [exact Hc|]. split_and!; lookups. }
  destruct Hst as (Hc' & Hr & Hh & Ht & Hs).
  split; [exact E|]. split; [by unfold started|].
  split; [lookups|].
  split; [by rewrite Hvr, lookup_insert_eq|].
  split; [by eapply is_meeting_running_bound|].
  split; [|exact Hsaid].
  eapply is_chair_ok; [exact Hc'|exact Hh|by left].
Qed.

(** X9: an open that goes through leaves the log path and the base URL
    as the configured values with a slash at the end, added only when it is
    missing, and the directory of the channel exists afterwards. *)
Theorem vemblouco_normalizes_paths (t : Trigger) w v w0 :
  is_privmsg t = false →
  is_meeting_running (sender t) w = (Ok v, w0) → truthy v = false →
  with_sep (config_log_path h) +:+ sender t ∈ dirs w0 ∨
  makedirs_ok h (with_sep (config_log_path h) +:+ sender t) = true →
  open_ok h (opens w0) = true → open_ok h (S (opens w0)) = true →
  ∃ w',
    vemblouco h t w = (Ok tt, w') ∧
    meeting_log_path w' = with_sep (config_log_path h) ∧
    meeting_log_baseurl w' = with_sep (config_log_baseurl h) ∧
    Str.endswith (meeting_log_path w') "/" = true ∧
    Str.endswith (meeting_log_baseurl w') "/" = true ∧
    with_sep (meeting_log_path w') = meeting_log_path w' ∧
    with_sep (config_log_path h) +:+ sender t ∈ dirs w'.
Proof.
  intros Hp Hrun Hv Hdir O1 O2.
  destruct (is_meeting_running_finds _ _ _ _ Hrun) as [r0 Hr0].
  destruct (vemblouco_ok t w v w0 r0 Hp Hrun Hv Hr0 Hdir O1 O2)
    as (w' & E & _ & _ & _ & Hpath & Hurl & Hdirs & _).
  exists w'. split; [exact E|]. rewrite Hpath, Hurl.
  split; [done|]. split; [done|].
  split; [apply endswith_with_sep|]. split; [apply endswith_with_sep|].
  split.
  - unfold with_sep at 1. by rewrite endswith_with_sep.
  - rewrite Hdirs. case_bool_decide; [done|].
    apply elem_of_union. left. by apply elem_of_singleton.
Qed.

(** X10: after an open without title the log files are named by the
    start time and the word "untitled", not by the sentinel the record
    holds as its title. *)
Theorem untitled_logfile_name (t : Trigger) w v w0 :
  is_privmsg t = false →
  is_meeting_running (sender t) w = (Ok v, w0) → truthy v = false →
  with_sep (config_log_path h) +:+ sender t ∈ dirs w0 ∨
  makedirs_ok h (with_sep (config_log_path h) +:+ sender t) = true →
  open_ok h (opens w0) = true → open_ok h (S (opens w0)) = true →
  group2 t = "" →
  ∃ w',
    vemblouco h t w = (Ok tt, w') ∧
    figure_logfile_name (sender t) w'
    = (Ok (Time.fmt_file (Time.gmtime (clock h (ticks w0))) +:+ "_untitled"), w').
Proof.
  intros Hp Hrun Hv Hdir O1 O2 Harg.
  destruct (is_meeting_running_finds _ _ _ _ Hrun) as [r0 Hr0].
  destruct (vemblouco_ok t w v w0 r0 Hp Hrun Hv Hr0 Hdir O1 O2)
    as (w' & E & Hc & _).
  exists w'. split; [exact E|].
  erewrite figure_logfile_name_ok by (first [exact Hc | lookups]).
  rewrite Harg. reflexivity.
Qed.

(** X11: when the log directory of the channel is missing and cannot be
    made, the open announces the failure, puts an empty record in place of
    the half-made one, raises the error again, and has opened and written no
    file; no meeting is running afterwards. *)
Theorem vemblouco_makedirs_failure (t : Trigger) w v w0 :
  is_privmsg t = false →
  is_meeting_running (sender t) w = (Ok v, w0) → truthy v = false →
  with_sep (config_log_path h) +:+ sender t ∉ dirs w0 →
  makedirs_ok h (with_sep (config_log_path h) +:+ sender t) = false →
  ∃ w',
    vemblouco h t w = (Raise OSError, w') ∧
    meetings_dict w' !! sender t = Some default_dict ∧
    (∀ c, c ≠ sender t → meetings_dict w' !! c = meetings_dict w0 !! c) ∧
    said w' = said w0 ++
      [("Blouco não veio: Não consegui criar o diretório de log para este canal", None)] ∧
    appended w' = appended w0 ∧ opens w' = opens w0 ∧
    meeting_vraus w' = meeting_vraus w0 ∧ dirs w' = dirs w0 ∧
    (∃ w'', is_meeting_running (sender t) w' = (Ok VDict, w'')).
Proof.
  intros Hp Hrun Hv Hdir Hmk.
  destruct (is_meeting_running_finds _ _ _ _ Hrun) as [r0 Hr0].
  unfold vemblouco. rewrite Hp.
  erewrite bind_eq by exact Hrun. rewrite Hv.
  prim. step setitem_bound.
  unfold with_sep in *.
  destruct (Str.is_empty (group2 t));
    (step setitem_bound; step setitem_bound; step setitem_bound; step setitem_bound;
     prim; prim;
     destruct (Str.endswith (config_log_path h) "/");
     prim; prim; prim;
     destruct (Str.endswith (config_log_baseurl h) "/");
     prim; prim; prim).
  all: rewrite bool_decide_eq_false_2 by exact Hdir.
  all: erewrite bind_raise
         by (unfold except_Exception, makedirs; rewrite Hmk; reflexivity).
  all: eexists; split; [reflexivity|]; proj.
  all: split; [by rewrite lookup_insert_eq|].
  all: split; [intros c Hne; by rewrite !lookup_insert_ne|].
  all: split_and!; try reflexivity.
  all: eapply is_meeting_running_after_reset; proj; reflexivity.
Qed.
End Opening.

(** ** Closing a meeting *)

Section Closing.
Variable h : Host.

(** The close up to the fetch, with everything it has said and written. *)
Lemma vaiblouco_trace (t : Trigger) w r owner title start :
  started (meetings_dict w) (sender t) r owner title start →
  chairing h r owner (nick t) →
  open_ok h (opens w) = true → open_ok h (S (opens w)) = true →
  ∃ w1,
    vaiblouco h t w
    = (page_source ← requests_get h
                       (log_url h (meeting_log_baseurl w) (sender t) title start ".txt");
       say ("Segue o Blouco! " +:+ md5_hex h page_source);;
       del_vraus (sender t)) w1 ∧
    meetings_dict w1 = <[sender t := default_dict]> (meetings_dict w) ∧
    meeting_vraus w1 = meeting_vraus w ∧
    said w1
    = said w ++
      [(closing_banner h (ticks w) start, None);
       ("Registro principal: "
        +:+ log_url h (meeting_log_baseurl w) (sender t) title start ".html", None);
       ("Registro completo: "
        +:+ log_url h (meeting_log_baseurl w) (sender t) title start ".txt", None)] ∧
    appended w1
    = appended w ++
      [(logfile_path (meeting_log_path w) (sender t) title start ".html",
        html_end_1 h (S (ticks w)));
       (logfile_path (meeting_log_path w) (sender t) title start ".html",
        html_end_2 h (meeting_log_baseurl w) (sender t) title start);
       (logfile_path (meeting_log_path w) (sender t) title start ".html", html_end_3);
       (logfile_path (meeting_log_path w) (sender t) title start ".txt",
        plain_line h (S (S (ticks w))) (closing_line h (ticks w) start (nick t)))].
Proof.
  intros (Hc & Hr & Hh & Ht & Hs) Hch O1 O2. unfold vaiblouco.
  step is_meeting_running_bound. simpl.
  step is_chair_ok. simpl.
  prim. step getitem_bound. prim. prim.
  step log_html_end_ok.
  prim. step figure_logfile_name_ok. prim. step figure_logfile_name_ok.
  step log_plain_ok. prim. prim. prim.
  eexists. split; [reflexivity|]. proj.
  split; [reflexivity|]. split; [reflexivity|].
  rewrite <- !app_assoc. split; reflexivity.
Qed.



(** X14: once the two log writes of a close have gone through, the
    meeting-running query answers with an empty dict, which is false,
    whatever becomes of the fetch. *)
Theorem vaiblouco_stops_meeting (t : Trigger) w r owner title start :
  started (meetings_dict w) (sender t) r owner title start →
  chairing h r owner (nick t) →
  open_ok h (opens w) = true → open_ok h (S (opens w)) = true →
  ∃ w'', is_meeting_running (sender t) (snd (vaiblouco h t w)) = (Ok VDict, w'') ∧
         truthy VDict = false.
Proof.
  intros Hst Hch O1 O2.
  destruct (vaiblouco_trace t w r owner title start Hst Hch O1 O2)
    as (w1 & -> & Hmd & _).
  assert (Hmd' : meetings_dict
                   (snd ((page_source ← requests_get h
                            (log_url h (meeting_log_baseurl w) (sender t) title start ".txt");
                          say ("Segue o Blouco! " +:+ md5_hex h page_source);;
                          del_vraus (sender t)) w1))
                 = <[sender t := default_dict]> (meetings_dict w)).
  { unfold requests_get, mbind, M_bind, bind, del_vraus, say, modify.
    destruct (http_get h _); simpl; [|done].
    by destruct (meeting_vraus w1 !! sender t). }
  destruct (is_meeting_running_after_reset _ _ _ Hmd') as (w'' & E).
  by exists w''.
Qed.
End Closing.

(** ** Recording *)

Section Recording.
Variable h : Host.

(** X15: the topic command of a chair or the owner stores the topic
    under ["current_missão"], closes the list of the HTML log, writes the
    topic as a heading and opens a new list, writes one plain line that names
    the invoker, and answers with the topic. *)
Theorem meetingmissao_sets_topic (t : Trigger) w r owner title start :
  started (meetings_dict w) (sender t) r owner title start →
  chairing h r owner (nick t) →
  group2 t ≠ "" →
  open_ok h (opens w) = true → open_ok h (S (opens w)) = true →
  ∃ w',
    meetingmissao h t w = (Ok tt, w') ∧
    meetings_dict w'
    = <[sender t := mkMeeting (defaulting r)
                      (<["current_missão" := VStr (group2 t)]> (items r))]>
        (meetings_dict w) ∧
    appended w'
    = appended w ++
      [(logfile_path (meeting_log_path w) (sender t) title start ".html",
        "</ul><h3>" +:+ group2 t +:+ "</h3><ul>");
       (logfile_path (meeting_log_path w) (sender t) title start ".txt",
        plain_line h (ticks w)
          ("Missão atual: " +:+ group2 t +:+ " (trazida por " +:+ nick t +:+ ")"))] ∧
    said w' = said w ++ [(bold h "Missão atual:" +:+ " " +:+ group2 t, None)] ∧
    meeting_vraus w' = meeting_vraus w.
Proof.
  intros (Hc & Hr & Hh & Ht & Hs) Hch Hne O1 O2. unfold meetingmissao.
  step is_meeting_running_bound. simpl. rewrite (is_empty_false _ Hne).
  step is_chair_ok. simpl.
  step setitem_bound. prim. step figure_logfile_name_ok.
  erewrite bind_eq by (unfold open_append; proj; rewrite O1; reflexivity). proj.
  prim. step log_plain_ok.
  eexists. split; [reflexivity|]. proj. rewrite <- app_assoc. done.
Qed.

(** X16: an agreement and an informational note are written to both
    logs (the note without a label in the HTML log) and answered, and nothing
    of them is kept in memory: store and action items are as before. *)
Theorem blz_and_seliga_only_log (t : Trigger) w r owner title start :
  started (meetings_dict w) (sender t) r owner title start →
  chairing h r owner (nick t) →
  group2 t ≠ "" →
  open_ok h (opens w) = true → open_ok h (S (opens w)) = true →
  (∃ w',
     meetingblz h t w = (Ok tt, w') ∧
     meetings_dict w' = meetings_dict w ∧ meeting_vraus w' = meeting_vraus w ∧
     appended w'
     = appended w ++
       [(logfile_path (meeting_log_path w) (sender t) title start ".txt",
         plain_line h (ticks w) ("blz: " +:+ group2 t));
        (logfile_path (meeting_log_path w) (sender t) title start ".html",
         html_item ("<span style='font-weight: bold'>blz: </span>" +:+ group2 t))] ∧
     said w' = said w ++ [(bold h "blz:" +:+ " " +:+ group2 t, None)]) ∧
  (∃ w',
     meetingseliga h t w = (Ok tt, w') ∧
     meetings_dict w' = meetings_dict w ∧ meeting_vraus w' = meeting_vraus w ∧
     appended w'
     = appended w ++
       [(logfile_path (meeting_log_path w) (sender t) title start ".txt",
         plain_line h (ticks w) ("seliga: " +:+ group2 t));
        (logfile_path (meeting_log_path w) (sender t) title start ".html",
         html_item (group2 t))] ∧
     said w' = said w ++ [(bold h "seliga:" +:+ " " +:+ group2 t, None)]).
Proof.
  intros (Hc & Hr & Hh & Ht & Hs) Hch Hne O1 O2. split.
  - unfold meetingblz.
    step is_meeting_running_bound. simpl. rewrite (is_empty_false _ Hne).
    step is_chair_ok. simpl.
    step log_plain_ok. step log_html_listitem_ok.
    eexists. split; [reflexivity|]. proj. rewrite <- app_assoc. done.
  - unfold meetingseliga.
    step is_meeting_running_bound. simpl. rewrite (is_empty_false _ Hne).
    step is_chair_ok. simpl.
    step log_plain_ok. step log_html_listitem_ok.
    eexists. split; [reflexivity|]. proj. rewrite <- app_assoc. done.
Qed.

Lemma log_html_listitem_fail item c w r title start :
  meetings_dict w !! c = Some r →
  items r !! "title" = Some (VStr title) →
  items r !! "start" = Some (VNum start) →
  open_ok h (opens w) = false →
  log_html_listitem h item c w = (Raise OSError, bump_opens w).
Proof.
  intros Hc Ht Hs Ho. unfold log_html_listitem.
  prim. step figure_logfile_name_ok.
  unfold mbind, M_bind, bind, open_append. rewrite Ho; reflexivity.
Qed.

(** X17: an action item goes into memory only after both log writes:
    when a log file cannot be opened the command raises, answers nothing and
    stores nothing, though the plain log may already have the line. *)
Theorem meetingvrau_log_failure (t : Trigger) w r owner title start :
  started (meetings_dict w) (sender t) r owner title start →
  chairing h r owner (nick t) →
  group2 t ≠ "" →
  open_ok h (opens w) && open_ok h (S (opens w)) = false →
  ∃ w',
    meetingvrau h t w = (Raise OSError, w') ∧
    meeting_vraus w' = meeting_vraus w ∧
    meetings_dict w' = meetings_dict w ∧
    said w' = said w ∧
    appended w'
    = (if open_ok h (opens w)
       then appended w ++
            [(logfile_path (meeting_log_path w) (sender t) title start ".txt",
              plain_line h (ticks w) ("vrau: " +:+ group2 t))]
       else appended w).
Proof.
  intros (Hc & Hr & Hh & Ht & Hs) Hch Hne Hfail. unfold meetingvrau.
  step is_meeting_running_bound. simpl. rewrite (is_empty_false _ Hne).
  step is_chair_ok. simpl.
  destruct (open_ok h (opens w)) eqn:O1; simpl in Hfail.
  - step log_plain_ok.
    erewrite bind_raise by (eapply log_html_listitem_fail; lookups; lookups).
    eexists. split; [reflexivity|]. done.
  - erewrite bind_raise by (eapply log_plain_fail; lookups; lookups).
    eexists. split; [reflexivity|]. done.
Qed.

(** X18: chairs and topic are stored before the log is written: when the
    log file cannot be opened, [puxam] (with an ASCII argument) and the topic
    command raise and answer nothing, and the new chairs or the new topic are
    in the record all the same. *)
Theorem state_set_before_logging (t t' : Trigger) w r owner title start :
  started (meetings_dict w) (sender t) r owner title start →
  sender t' = sender t →
  group2 t ≠ "" → isascii (group2 t) = true → group2 t' ≠ "" →
  nick_lower h (nick t) = owner →
  chairing h r owner (nick t') →
  open_ok h (opens w) = false →
  (∃ w', puxam h t w = (Raise OSError, w') ∧
     meetings_dict w' !! sender t
     = Some (mkMeeting (defaulting r)
               (<["puxam" := VList (map EStr (Str.split " " (Str.lower (group2 t))))]>
                  (items r))) ∧
     said w' = said w ∧ appended w' = appended w) ∧
  (∃ w', meetingmissao h t' w = (Raise OSError, w') ∧
     meetings_dict w' !! sender t
     = Some (mkMeeting (defaulting r)
               (<["current_missão" := VStr (group2 t')]> (items r))) ∧
     said w' = said w ∧ appended w' = appended w).
Proof.
  intros (Hc & Hr & Hh & Ht & Hs) Hs' Hne _ Hne' Hown Hch O1. split.
  - unfold puxam.
    step is_meeting_running_bound. simpl. rewrite (is_empty_false _ Hne).
    step getitem_bound. unfold eq_str. rewrite Hown, String.eqb_refl.
    step setitem_bound.
    erewrite bind_raise by (eapply log_plain_fail; lookups; lookups).
    eexists. split; [reflexivity|]. proj. by rewrite lookup_insert_eq.
  - unfold meetingmissao. rewrite Hs'.
    step is_meeting_running_bound. simpl. rewrite (is_empty_false _ Hne').
    step is_chair_ok. simpl.
    step setitem_bound. prim. step figure_logfile_name_ok.
    erewrite bind_raise by (unfold open_append; proj; rewrite O1; reflexivity).
    eexists. split; [reflexivity|]. proj. by rewrite lookup_insert_eq.
Qed.

End Recording.

Section Chairs.
Variable h : Host.

Lemma elem_of_map_EStr x l : EStr x ∈ map EStr l ↔ x ∈ l.
Proof.
  split.
  - intros H. apply list_elem_of_fmap in H as (y & [= ->] & Hy). exact Hy.
  - intros H. apply list_elem_of_fmap. by exists x.
Qed.

Lemma is_chair_decided c w r owner l nick :
  meetings_dict w !! c = Some r →
  items r !! "head" = Some (VStr owner) →
  items r !! "puxam" = Some (VList (map EStr l)) →
  is_chair h nick c w
  = (Ok (bool_decide (nick_lower h nick = owner ∨ nick_lower h nick ∈ l)), w).
Proof.
  intros Hc Hh Hp. unfold is_chair, except_KeyError.
  step getitem_bound. unfold eq_str.
  destruct (String.eqb_spec (nick_lower h nick) owner) as [E|NE].
  - by rewrite bool_decide_eq_true_2 by (by left).
  - step getitem_bound. unfold py_in, ret. do 2 f_equal.
    apply bool_decide_ext. rewrite elem_of_map_EStr.
    split; [by right | by intros [?|?]].
Qed.

(** X19: for the owner, [puxam] with a non-empty ASCII argument stores
    the lower-cased argument split at single blanks, logs the same names
    joined with ", ", and from then on the chair-or-owner query is true
    exactly for the owner and the names stored: an earlier list of chairs is
    gone. *)
Theorem puxam_authorizes_listed (t : Trigger) w r owner title start :
  started (meetings_dict w) (sender t) r owner title start →
  group2 t ≠ "" → isascii (group2 t) = true →
  nick_lower h (nick t) = owner →
  open_ok h (opens w) = true → open_ok h (S (opens w)) = true →
  ∃ w',
    puxam h t w = (Ok tt, w') ∧
    meetings_dict w'
    = <[sender t := mkMeeting (defaulting r)
                      (<["puxam" := VList (map EStr (Str.split " " (Str.lower (group2 t))))]>
                         (items r))]>
        (meetings_dict w) ∧
    appended w'
    = appended w ++
      [(logfile_path (meeting_log_path w) (sender t) title start ".txt",
        plain_line h (ticks w)
          ("Puxadoras: " +:+ join ", " (Str.split " " (Str.lower (group2 t)))));
       (logfile_path (meeting_log_path w) (sender t) title start ".html",
        html_item ("<span style='font-weight: bold'>Puxadoras:</span> "
                   +:+ join ", " (Str.split " " (Str.lower (group2 t)))))] ∧
    (∀ nick',
       is_chair h nick' (sender t) w'
       = (Ok (bool_decide (nick_lower h nick' = owner ∨
                           nick_lower h nick' ∈ Str.split " " (Str.lower (group2 t)))),
          w')).
Proof.
  intros (Hc & Hr & Hh & Ht & Hs) Hne _ Hown O1 O2. unfold puxam.
  step is_meeting_running_bound. simpl. rewrite (is_empty_false _ Hne).
  step getitem_bound. unfold eq_str. rewrite Hown, String.eqb_refl.
  step setitem_bound. rewrite replace_join.
  step log_plain_ok. step log_html_listitem_ok.
  eexists. split; [reflexivity|]. proj.
  split; [reflexivity|]. split; [by rewrite <- app_assoc|].
  intros nick'. eapply is_chair_decided; lookups; lookups.
Qed.
End Chairs.

(** ** Listing the side notes *)

Section Ows.
Variable h : Host.

Lemma each_ow_run c r title start l : ∀ w,
  meetings_dict w !! c = Some r →
  items r !! "title" = Some (VStr title) →
  items r !! "start" = Some (VNum start) →
  (∀ i, (i < length l)%nat → open_ok h (opens w + i)%nat = true) →
  for_each (map ow_elem l)
    (λ ow, match ow with
           | EPair a b =>
               say ("<" +:+ a +:+ "> " +:+ b);;
               log_plain h ("<" +:+ bot_nick h +:+ "> " +:+ ("<" +:+ a +:+ "> " +:+ b)) c
           | EStr _ => raise TypeError
           end) w
  = (Ok tt,
     mkWorld (meetings_dict w) (meeting_vraus w) (meeting_log_path w)
       (meeting_log_baseurl w) (dirs w)
       (appended w ++
        ows_logged h (logfile_path (meeting_log_path w) c title start ".txt") (ticks w) l)
       (said w ++ ows_said l)
       (opens w + length l)%nat (ticks w + length l)%nat).
Proof.
  induction l as [|[a b] l IH]; intros w Hc Ht Hs Ho.
  - simpl. unfold ret. rewrite !app_nil_r, !Nat.add_0_r. by destruct w.
  - simpl. rewrite bind_assoc. prim.
    erewrite bind_eq; cycle 1.
    { eapply log_plain_ok; lookups; lookups.
      specialize (Ho 0%nat). rewrite Nat.add_0_r in Ho. apply Ho. simpl. lia. }
    proj. rewrite IH; proj; try done.
    + rewrite <- !app_assoc. unfold ows_logged, ows_said. simpl.
      rewrite Nat.add_0_r.
      f_equal. f_equal; try lia.
      do 2 f_equal. apply imap_ext. intros i p _. simpl. do 2 f_equal. lia.
    + intros i Hi. replace (S (opens w) + i)%nat with (opens w + S i)%nat by lia.
      apply Ho. simpl. lia.
Qed.

(** X20: with any number of stored side notes, the show command of a
    chair or the owner says the header and then every note in the order of
    submission, writes the same lines to the plain log at successive clock
    readings, and empties the list. *)
Theorem show_ows_reports_all (t : Trigger) w r owner title start l :
  started (meetings_dict w) (sender t) r owner title start →
  chairing h r owner (nick t) →
  items r !! "ows" = Some (VList (map ow_elem l)) →
  l ≠ [] →
  (∀ i, (i ≤ length l)%nat → open_ok h (opens w + i)%nat = true) →
  ∃ w',
    show_ows h t w = (Ok tt, w') ∧
    said w' = said w ++ ("Lista de Ows:", None) :: ows_said l ∧
    appended w'
    = appended w ++
      (logfile_path (meeting_log_path w) (sender t) title start ".txt",
       plain_line h (ticks w) ("<" +:+ bot_nick h +:+ "> " +:+ "Lista de Ows:"))
      :: ows_logged h (logfile_path (meeting_log_path w) (sender t) title start ".txt")
           (S (ticks w)) l ∧
    meetings_dict w'
    = <[sender t := mkMeeting (defaulting r) (<["ows" := VList []]> (items r))]>
        (meetings_dict w) ∧
    meeting_vraus w' = meeting_vraus w.
Proof.
  intros (Hc & Hr & Hh & Ht & Hs) Hch Hows Hne Ho. unfold show_ows.
  step is_meeting_running_bound. simpl.
  step is_chair_ok. simpl.
  step getitem_bound.
  replace (truthy (VList (map ow_elem l))) with true by (by destruct l).
  prim.
  erewrite bind_eq; cycle 1.
  { eapply log_plain_ok; lookups; lookups.
    specialize (Ho 0%nat). rewrite Nat.add_0_r in Ho. apply Ho. lia. }
  proj. unfold each_ow.
  erewrite bind_eq; cycle 1.
  { eapply each_ow_run with (title := title) (start := start); proj; eauto.
    intros i Hi. replace (S (opens w) + i)%nat with (opens w + S i)%nat by lia.
    apply Ho. lia. }
  proj.
  erewrite setitem_bound by (proj; exact Hc).
  eexists. split; [reflexivity|]. proj.
  rewrite <- !app_assoc. done.
Qed.
End Ows.

(** ** What a handler leaves alone *)

Section Frame.

Variable h : Host.
Variable R : World → World → Prop.
Variable c : string.

Hypothesis R_refl : ∀ w, R w w.
Hypothesis R_trans : ∀ w1 w2 w3, R w1 w2 → R w2 w3 → R w1 w3.
Hypothesis R_meetings : ∀ w f,
  (∀ md c', c' ≠ c → f md !! c' = md !! c') → R w (set_meetings f w).
Hypothesis R_vraus : ∀ w f,
  (∀ mv c', c' ≠ c → f mv !! c' = mv !! c') → R w (set_vraus f w).
Hypothesis R_said : ∀ w x to, R w (add_said x to w).
Hypothesis R_appended : ∀ w p x, R w (add_appended p x w).
Hypothesis R_opens : ∀ w, R w (bump_opens w).
Hypothesis R_ticks : ∀ w, R w (bump_ticks w).
Hypothesis R_path : ∀ w p, R w (set_log_path p w).
Hypothesis R_url : ∀ w u, R w (set_log_baseurl u w).
Hypothesis R_dirs : ∀ w f, R w (set_dirs f w).

Lemma keeps_ret {A} (a : A) : keeps R (ret a).
Proof. intros w. apply R_refl. Qed.

Lemma keeps_raise {A} e : keeps R (raise (A := A) e).
Proof. intros w. apply R_refl. Qed.

Lemma keeps_bind {A B} (m : M A) (k : A → M B) :
  keeps R m → (∀ a, keeps R (k a)) → keeps R (m ≫= k).
Proof.
  intros Hm Hk w. unfold mbind, M_bind, bind.
  specialize (Hm w). destruct (m w) as [[a|e] w1]; simpl in *; [|done].
  eapply R_trans; [exact Hm|apply Hk].
Qed.

Lemma keeps_except_KeyError {A} (m k : M A) :
  keeps R m → keeps R k → keeps R (except_KeyError m k).
Proof.
  intros Hm Hk w. unfold except_KeyError.
  specialize (Hm w). destruct (m w) as [[a|[]] w1]; simpl in *; try done.
  eapply R_trans; [exact Hm|apply Hk].
Qed.

Lemma keeps_except_Exception {A} (m : M A) (k : exn → M A) :
  keeps R m → (∀ e, keeps R (k e)) → keeps R (except_Exception m k).
Proof.
  intros Hm Hk w. unfold except_Exception.
  specialize (Hm w). destruct (m w) as [[a|e] w1]; simpl in *; [done|].
  eapply R_trans; [exact Hm|apply Hk].
Qed.

Lemma keeps_for_each {A} (l : list A) (body : A → M unit) :
  (∀ x, keeps R (body x)) → keeps R (for_each l body).
Proof.
  intros Hb. induction l as [|x l IH]; simpl; [apply keeps_ret|].
  apply keeps_bind; [apply Hb|intros _; exact IH].
Qed.

Lemma keeps_modify f : (∀ w, R w (f w)) → keeps R (modify f).
Proof. intros Hf w. apply Hf. Qed.

Lemma keeps_gets {A} (f : World → A) : keeps R (gets f).
Proof. intros w. apply R_refl. Qed.

Lemma keeps_getitem k : keeps R (getitem c k).
Proof.
  intros w. unfold getitem.
  destruct (meetings_dict w !! c) as [r|]; simpl.
  - destruct (items r !! k); [apply R_refl|].
    destruct (defaulting r); simpl; [|apply R_refl].
    apply R_meetings. intros md c' Hne. by rewrite lookup_insert_ne.
  - apply R_meetings. intros md c' Hne. by rewrite lookup_insert_ne.
Qed.

Lemma keeps_setitem k v : keeps R (setitem c k v).
Proof.
  apply keeps_modify. intros w. apply R_meetings. intros md c' Hne.
  destruct (md !! c); by rewrite lookup_insert_ne.
Qed.

Lemma keeps_reset : keeps R (reset c).
Proof.
  apply keeps_modify. intros w. apply R_meetings. intros md c' Hne.
  by rewrite lookup_insert_ne.
Qed.

Lemma keeps_say x : keeps R (say x).
Proof. apply keeps_modify. intros w. apply R_said. Qed.

Lemma keeps_say_to x v : keeps R (say_to x v).
Proof. apply keeps_modify. intros w. apply R_said. Qed.

Lemma keeps_write p x : keeps R (write p x).
Proof. apply keeps_modify. intros w. apply R_appended. Qed.

Lemma keeps_now : keeps R (now h).
Proof. intros w. apply R_ticks. Qed.

Lemma keeps_open_append p : keeps R (open_append h p).
Proof. intros w. apply R_opens. Qed.

Lemma keeps_as_seconds v : keeps R (as_seconds v).
Proof. destruct v; first [apply keeps_ret | apply keeps_raise]. Qed.

Lemma keeps_py_in x v : keeps R (py_in x v).
Proof. destruct v; first [apply keeps_ret | apply keeps_raise]. Qed.

Lemma keeps_append_to v x : keeps R (append_to v x).
Proof. destruct v; first [apply keeps_ret | apply keeps_raise]. Qed.

Lemma keeps_requests_get u : keeps R (requests_get h u).
Proof. unfold requests_get. destruct (http_get h u); [apply keeps_ret|apply keeps_raise]. Qed.

Lemma keeps_get_vraus : keeps R (get_vraus c).
Proof. intros w. unfold get_vraus. destruct (meeting_vraus w !! c); apply R_refl. Qed.

Lemma keeps_del_vraus : keeps R (del_vraus c).
Proof.
  intros w. unfold del_vraus. destruct (meeting_vraus w !! c); simpl; [|apply R_refl].
  apply R_vraus. intros mv c' Hne. by rewrite lookup_delete_ne.
Qed.

Lemma keeps_set_vraus l : keeps R (modify (set_vraus (<[c := l]>))).
Proof.
  apply keeps_modify. intros w. apply R_vraus. intros mv c' Hne.
  by rewrite lookup_insert_ne.
Qed.

Lemma keeps_makedirs p : keeps R (makedirs h p).
Proof.
  intros w. unfold makedirs. destruct (makedirs_ok h p); simpl; [apply R_dirs|apply R_refl].
Qed.

Lemma keeps_set_log_path p : keeps R (modify (set_log_path p)).
Proof. apply keeps_modify. intros w. apply R_path. Qed.

Lemma keeps_set_log_baseurl u : keeps R (modify (set_log_baseurl u)).
Proof. apply keeps_modify. intros w. apply R_url. Qed.

Create HintDb keeps.

#[local] Hint Resolve keeps_ret keeps_raise keeps_gets keeps_getitem keeps_setitem
  keeps_reset keeps_say keeps_say_to keeps_write keeps_now keeps_open_append
  keeps_as_seconds keeps_py_in keeps_append_to keeps_requests_get keeps_get_vraus
  keeps_del_vraus keeps_set_vraus keeps_makedirs keeps_set_log_path
  keeps_set_log_baseurl : keeps.

Ltac keeps_tac :=
  repeat first
    [ apply keeps_bind; [|intros ?]
    | apply keeps_except_KeyError
    | apply keeps_except_Exception; [|intros ?]
    | apply keeps_for_each; intros ?
    | match goal with
      | |- keeps _ (if ?b then _ else _) => destruct b
      | |- keeps _ (match ?v with _ => _ end) => destruct v
      end
    | solve [eauto with keeps] ].

Lemma keeps_figure_logfile_name : keeps R (figure_logfile_name c).
Proof. unfold figure_logfile_name. keeps_tac. Qed.
#[local] Hint Resolve keeps_figure_logfile_name : keeps.

Lemma keeps_log_plain item : keeps R (log_plain h item c).
Proof. unfold log_plain. keeps_tac. Qed.

Lemma keeps_log_html_start : keeps R (log_html_start h c).
Proof. unfold log_html_start. keeps_tac. Qed.

Lemma keeps_log_html_listitem item : keeps R (log_html_listitem h item c).
Proof. unfold log_html_listitem. keeps_tac. Qed.

Lemma keeps_log_html_end : keeps R (log_html_end h c).
Proof. unfold log_html_end. keeps_tac. Qed.

Lemma keeps_is_meeting_running : keeps R (is_meeting_running c).
Proof. unfold is_meeting_running. keeps_tac. Qed.

Lemma keeps_is_chair nick : keeps R (is_chair h nick c).
Proof. unfold is_chair. keeps_tac. Qed.

#[local] Hint Resolve keeps_log_plain keeps_log_html_start keeps_log_html_listitem
  keeps_log_html_end keeps_is_meeting_running keeps_is_chair : keeps.

Variable t : Trigger.
Hypothesis Hc : sender t = c.

Lemma keeps_vemblouco : keeps R (vemblouco h t).
Proof. unfold vemblouco. rewrite Hc. keeps_tac. Qed.

Lemma keeps_meetingmissao : keeps R (meetingmissao h t).
Proof. unfold meetingmissao. rewrite Hc. keeps_tac. Qed.

Lemma keeps_vaiblouco : keeps R (vaiblouco h t).
Proof. unfold vaiblouco. rewrite Hc. keeps_tac. Qed.

Lemma keeps_puxam : keeps R (puxam h t).
Proof. unfold puxam. rewrite Hc. keeps_tac. Qed.

Lemma keeps_meetingvrau : keeps R (meetingvrau h t).
Proof. unfold meetingvrau. rewrite Hc. keeps_tac. Qed.

Lemma keeps_listvraus : keeps R (listvraus h t).
Proof. unfold listvraus. rewrite Hc. keeps_tac. Qed.

Lemma keeps_meetingblz : keeps R (meetingblz h t).
Proof. unfold meetingblz. rewrite Hc. keeps_tac. Qed.

Lemma keeps_meetinglink : keeps R (meetinglink h t).
Proof. unfold meetinglink. rewrite Hc. keeps_tac. Qed.

Lemma keeps_meetingseliga : keeps R (meetingseliga h t).
Proof. unfold meetingseliga. rewrite Hc. keeps_tac. Qed.

Lemma keeps_take_ow : keeps R (take_ow h t).
Proof. unfold take_ow. rewrite Hc. keeps_tac. Qed.

Lemma keeps_show_ows : keeps R (show_ows h t).
Proof. unfold show_ows, each_ow. rewrite Hc. keeps_tac. Qed.

End Frame.

Lemma others_kept_refl c w : others_kept c w w.
Proof. by intros c' Hne. Qed.

Lemma others_kept_trans c w1 w2 w3 :
  others_kept c w1 w2 → others_kept c w2 w3 → others_kept c w1 w3.
Proof.
  intros H1 H2 c' Hne. destruct (H1 c' Hne) as [E1 E2].
  destruct (H2 c' Hne) as [E3 E4]. split; congruence.
Qed.

Lemma others_kept_meetings c w f :
  (∀ md c', c' ≠ c → f md !! c' = md !! c') → others_kept c w (set_meetings f w).
Proof. intros Hf c' Hne. simpl. by rewrite Hf. Qed.

Lemma others_kept_vraus c w f :
  (∀ mv c', c' ≠ c → f mv !! c' = mv !! c') → others_kept c w (set_vraus f w).
Proof. intros Hf c' Hne. simpl. by rewrite Hf. Qed.

Lemma config_kept_refl w : config_kept w w.
Proof. by unfold config_kept. Qed.

Lemma config_kept_trans w1 w2 w3 :
  config_kept w1 w2 → config_kept w2 w3 → config_kept w1 w3.
Proof. unfold config_kept. intros (-> & -> & ->) (-> & -> & ->). done. Qed.

Ltac others_kept_tac :=
  first [ apply others_kept_refl | apply others_kept_trans
        | apply others_kept_meetings | apply others_kept_vraus
        | by intros; intros ? ? ].

(** X21: whatever a handler does, and whether it returns or raises, the
    records and the action items of every other channel are as before. *)
Theorem handlers_keep_other_channels (h : Host) (t : Trigger) :
  keeps (others_kept (sender t)) (vemblouco h t) ∧
  keeps (others_kept (sender t)) (meetingmissao h t) ∧
  keeps (others_kept (sender t)) (vaiblouco h t) ∧
  keeps (others_kept (sender t)) (puxam h t) ∧
  keeps (others_kept (sender t)) (meetingvrau h t) ∧
  keeps (others_kept (sender t)) (listvraus h t) ∧
  keeps (others_kept (sender t)) (meetingblz h t) ∧
  keeps (others_kept (sender t)) (meetinglink h t) ∧
  keeps (others_kept (sender t)) (meetingseliga h t) ∧
  keeps (others_kept (sender t)) (take_ow h t) ∧
  keeps (others_kept (sender t)) (show_ows h t).
Proof.
  split_and!;
    [ eapply keeps_vemblouco | eapply keeps_meetingmissao | eapply keeps_vaiblouco
    | eapply keeps_puxam | eapply keeps_meetingvrau | eapply keeps_listvraus
    | eapply keeps_meetingblz | eapply keeps_meetinglink | eapply keeps_meetingseliga
    | eapply keeps_take_ow | eapply keeps_show_ows ];
    try reflexivity; others_kept_tac.
Qed.

(** X22: no handler but [vemblouco] changes the log path, the base URL
    or the directories. *)
Theorem only_vemblouco_configures (h : Host) (t : Trigger) :
  keeps config_kept (meetingmissao h t) ∧
  keeps config_kept (vaiblouco h t) ∧
  keeps config_kept (puxam h t) ∧
  keeps config_kept (meetingvrau h t) ∧
  keeps config_kept (listvraus h t) ∧
  keeps config_kept (meetingblz h t) ∧
  keeps config_kept (meetinglink h t) ∧
  keeps config_kept (meetingseliga h t) ∧
  keeps config_kept (take_ow h t) ∧
  keeps config_kept (show_ows h t).
Proof.
  split_and!;
    [ eapply keeps_meetingmissao | eapply keeps_vaiblouco
    | eapply keeps_puxam | eapply keeps_meetingvrau | eapply keeps_listvraus
    | eapply keeps_meetingblz | eapply keeps_meetinglink | eapply keeps_meetingseliga
    | eapply keeps_take_ow | eapply keeps_show_ows ];
    try reflexivity;
    first [ apply config_kept_refl | apply config_kept_trans
          | by intros; unfold config_kept ].
Qed.

(** ** The clock of the plain log, and the queries once more *)

Lemma d2_two_digits n : 0 ≤ n ≤ 99 → Time.d2 n = two_digits n.
Proof.
  intros Hn. assert (H : ∃ k : nat, n = Z.of_nat k ∧ (k < 100)%nat)
    by (exists (Z.to_nat n); lia).
  destruct H as (k & -> & Hk).
  do 100 (destruct k as [|k]; [vm_compute; reflexivity|]). lia.
Qed.

(** X23: a line of the plain log is an opening bracket, the time of day
    of the clock reading as HH:MM:SS in two-digit fields, a closing bracket
    and a blank, the item, and CR LF. *)
Theorem plain_line_shape (h : Host) n item :
  ∃ hh mm ss,
    0 ≤ hh ≤ 23 ∧ 0 ≤ mm ≤ 59 ∧ 0 ≤ ss ≤ 59 ∧
    clock h n mod 86400 = 3600 * hh + 60 * mm + ss ∧
    plain_line h n item
    = "[" +:+ two_digits hh +:+ ":" +:+ two_digits mm +:+ ":" +:+ two_digits ss
      +:+ "] " +:+ item +:+ CRLF.
Proof.
  destruct (gmtime_clock_sound (clock h n)) as (Hh & Hm & Hs & E).
  exists (Time.tm_hour (Time.gmtime (clock h n))),
         (Time.tm_min (Time.gmtime (clock h n))),
         (Time.tm_sec (Time.gmtime (clock h n))).
  split; [done|]. split; [done|]. split; [done|]. split.
  - revert E. generalize (Time.tm_hour (Time.gmtime (clock h n))),
      (Time.tm_min (Time.gmtime (clock h n))), (Time.tm_sec (Time.gmtime (clock h n))).
    intros. Z.div_mod_to_equations. lia.
  - unfold plain_line, Time.fmt_clock.
    rewrite !d2_two_digits by lia. reflexivity.
Qed.

Section Queries.
Variable h : Host.

Lemma getitem_again c k w :
  getitem c k (snd (getitem c k w)) = getitem c k w.
Proof.
  unfold getitem.
  destruct (meetings_dict w !! c) as [r|] eqn:Hc; simpl.
  - destruct (items r !! k) as [v|] eqn:Hk; simpl.
    + by rewrite Hc, Hk.
    + destruct (defaulting r) eqn:Hd; simpl.
      * rewrite lookup_insert_eq. simpl. by rewrite lookup_insert_eq.
      * by rewrite Hc, Hk, Hd.
  - rewrite lookup_insert_eq. simpl. by rewrite lookup_empty.
Qed.

(** A read of another key does not disturb a read that has settled. *)
Lemma getitem_settled c k k' w res :
  getitem c k w = (res, w) →
  getitem c k (snd (getitem c k' w)) = (res, snd (getitem c k' w)).
Proof.
  unfold getitem.
  destruct (meetings_dict w !! c) as [r|] eqn:Hc; simpl.
  - destruct (items r !! k) as [v|] eqn:Hk; simpl.
    + intros [= <-].
      destruct (items r !! k') as [v'|] eqn:Hk'; simpl; [by rewrite Hc, Hk|].
      destruct (defaulting r) eqn:Hd; simpl; [|by rewrite Hc, Hk].
      rewrite lookup_insert_eq. simpl.
      destruct (decide (k' = k)) as [->|Hne]; [congruence|].
      by rewrite lookup_insert_ne, Hk.
    + destruct (defaulting r) eqn:Hd; simpl.
      * intros [= _ Hw]. exfalso.
        apply (f_equal (λ w, meetings_dict w !! c)) in Hw. simpl in Hw.
        rewrite lookup_insert_eq, Hc in Hw. injection Hw as Hw.
        apply (f_equal (λ r, items r !! k)) in Hw. simpl in Hw.
        rewrite lookup_insert_eq, Hk in Hw. done.
      * intros [= <-].
        destruct (items r !! k'); simpl; by rewrite Hc, Hk, Hd.
  - intros [= _ Hw]. exfalso.
    apply (f_equal (λ w, meetings_dict w !! c)) in Hw. simpl in Hw.
    by rewrite lookup_insert_eq, Hc in Hw.
Qed.

(** X24: the meeting-running query never raises, and either query asked
    again gives the same answer and changes nothing more. *)
Theorem queries_settle nick c w :
  is_meeting_running c (snd (is_meeting_running c w)) = is_meeting_running c w ∧
  is_chair h nick c (snd (is_chair h nick c w)) = is_chair h nick c w ∧
  (∃ v, fst (is_meeting_running c w) = Ok v).
Proof.
  split; [|split].
  - pose proof (getitem_again c "running" w) as E.
    unfold is_meeting_running, except_KeyError.
    destruct (getitem c "running" w) as [[v|[]] w1]; simpl in *; by rewrite E.
  - pose proof (getitem_again c "head" w) as E1.
    unfold is_chair, except_KeyError, mbind, M_bind, bind.
    destruct (getitem c "head" w) as [[hd|e] w1] eqn:G1; simpl in *.
    + destruct (eq_str (nick_lower h nick) hd) eqn:Eq; simpl.
      * by rewrite E1, Eq.
      * pose proof (getitem_again c "puxam" w1) as E2.
        pose proof (getitem_settled c "head" "puxam" w1 _ E1) as E3.
        destruct (getitem c "puxam" w1) as [[p|e] w2] eqn:G2; simpl in *.
        -- assert (Hp : snd (py_in (nick_lower h nick) p w2) = w2)
             by (destruct p; reflexivity).
           destruct (py_in (nick_lower h nick) p w2) as [[b|e] w3] eqn:Gp;
             simpl in Hp; subst w3.
           ++ simpl. by rewrite E3, Eq, E2, Gp.
           ++ assert (snd (match e with
                           | KeyError => ret false w2
                           | _ => (Raise e, w2) end) = w2) as Hw
                by (destruct e; reflexivity).
              destruct e; simpl; rewrite E3, Eq, E2, Gp; reflexivity.
        -- destruct e; simpl; by rewrite E3, Eq, E2.
    + destruct e; simpl; by rewrite E1.
  - unfold is_meeting_running, except_KeyError, getitem.
    destruct (meetings_dict w !! c) as [r|]; simpl; [|by eexists].
    destruct (items r !! "running"); simpl; [by eexists|].
    destruct (defaulting r); simpl; by eexists.
Qed.

(** X25: for a channel without record the logger raises [KeyError], and
    for the empty record a close leaves it raises [AttributeError], in both
    cases before a file is opened or written. *)
Theorem logging_needs_meeting c item w w' :
  meetings_dict w !! c = None →
  meetings_dict w' !! c = Some default_dict →
  (figure_logfile_name c w = (Raise KeyError, set_meetings (<[c := plain_dict]>) w) ∧
   log_plain h item c w = (Raise KeyError, set_meetings (<[c := plain_dict]>) w) ∧
   log_html_listitem h item c w
   = (Raise KeyError, set_meetings (<[c := plain_dict]>) w) ∧
   log_html_start h c w = (Raise KeyError, set_meetings (<[c := plain_dict]>) w) ∧
   log_html_end h c w = (Raise KeyError, set_meetings (<[c := plain_dict]>) w)) ∧
  (figure_logfile_name c w'
   = (Raise AttributeError,
      set_meetings (<[c := mkMeeting true {[ "title" := VDict ]}]>) w') ∧
   log_plain h item c w'
   = (Raise AttributeError,
      set_meetings (<[c := mkMeeting true {[ "title" := VDict ]}]>) w')).
Proof.
  intros Hc Hc'.
  assert (F : figure_logfile_name c w
              = (Raise KeyError, set_meetings (<[c := plain_dict]>) w)).
  { unfold figure_logfile_name, mbind, M_bind, bind, getitem. by rewrite Hc. }
  assert (F' : figure_logfile_name c w'
               = (Raise AttributeError,
                  set_meetings (<[c := mkMeeting true {[ "title" := VDict ]}]>) w')).
  { unfold figure_logfile_name, mbind, M_bind, bind, getitem. rewrite Hc'. simpl.
    rewrite lookup_empty. simpl. rewrite lookup_insert_eq. simpl.
    rewrite lookup_insert_eq. simpl. unfold raise.
    by rewrite insert_empty. }
  split.
  - split; [exact F|].
    split_and!; unfold log_plain, log_html_listitem, log_html_start, log_html_end;
      prim; by erewrite bind_raise by exact F.
  - split; [exact F'|]. unfold log_plain. prim. by erewrite bind_raise by exact F'.
Qed.
End Queries.

(** * The log file name, against the calendar *)

Lemma is_leap_spec y :
  is_leap y = true ↔ y mod 4 = 0 ∧ (y mod 100 ≠ 0 ∨ y mod 400 = 0).
Proof.
  unfold is_leap. rewrite andb_true_iff, orb_true_iff, negb_true_iff.
  rewrite !Z.eqb_eq, Z.eqb_neq. tauto.
Qed.

Lemma month_table y :
  let l := if is_leap y then 1 else 0 in
  (days_in_month y 1 = 31 ∧ days_before_month y 1 = 0) ∧
  (days_in_month y 2 = 28 + l ∧ days_before_month y 2 = 31) ∧
  (days_in_month y 3 = 31 ∧ days_before_month y 3 = 59 + l) ∧
  (days_in_month y 4 = 30 ∧ days_before_month y 4 = 90 + l) ∧
  (days_in_month y 5 = 31 ∧ days_before_month y 5 = 120 + l) ∧
  (days_in_month y 6 = 30 ∧ days_before_month y 6 = 151 + l) ∧
  (days_in_month y 7 = 31 ∧ days_before_month y 7 = 181 + l) ∧
  (days_in_month y 8 = 31 ∧ days_before_month y 8 = 212 + l) ∧
  (days_in_month y 9 = 30 ∧ days_before_month y 9 = 243 + l) ∧
  (days_in_month y 10 = 31 ∧ days_before_month y 10 = 273 + l) ∧
  (days_in_month y 11 = 30 ∧ days_before_month y 11 = 304 + l) ∧
  (days_in_month y 12 = 31 ∧ days_before_month y 12 = 334 + l).
Proof.
  unfold days_before_month, days_in_month.
  destruct (is_leap y); vm_compute; repeat split; reflexivity.
Qed.

(** [civil_from_days] gives the date of the table: a month from 1 to 12, a
    day the month has, and the right number of days since 1970-01-01. *)
Lemma civil_from_days_calendar z :
  let '(y, m, d) := Time.civil_from_days z in
  1 ≤ m ≤ 12 ∧ 1 ≤ d ≤ days_in_month y m ∧
  days_before_year y + days_before_month y m + (d - 1) = z.
Proof.
  unfold Time.civil_from_days.
  set (z' := z + 719468).
  set (era := z' / 146097).
  set (doe := z' - era * 146097).
  assert (Hz : z = era * 146097 + doe - 719468) by (subst doe z'; lia).
  assert (Hdoe : 0 ≤ doe ≤ 146096) by (subst doe era; Z.div_mod_to_equations; lia).
  clearbody doe era. clear z'. subst z.
  set (yoe := (doe - doe / 1460 + doe / 36524 - doe / 146096) / 365).
  assert (Hyoe : 0 ≤ yoe ≤ 399) by (subst yoe; Z.div_mod_to_equations; lia).
  set (doy := doe - (365 * yoe + yoe / 4 - yoe / 100)).
  assert (Hdoy : 0 ≤ doy ≤ 365) by (subst doy yoe; Z.div_mod_to_equations; lia).
  assert (Hfeb : doy = 365 → (yoe + 1) mod 4 = 0 ∧ ((yoe + 1) mod 100 ≠ 0 ∨ yoe = 399))
    by (subst doy yoe; Z.div_mod_to_equations; lia).
  assert (Edoe : doe = yoe * 365 + yoe / 4 - yoe / 100 + doy) by (subst doy; lia).
  clearbody doy yoe. subst doe.
  set (mp := (5 * doy + 2) / 153).
  assert (Hmp : 153 * mp ≤ 5 * doy + 2 < 153 * (mp + 1))
    by (subst mp; Z.div_mod_to_equations; lia).
  clearbody mp.
  set (dd := (153 * mp + 2) / 5).
  assert (Hdd : 5 * dd ≤ 153 * mp + 2 < 5 * dd + 5)
    by (subst dd; Z.div_mod_to_equations; lia).
  clearbody dd.
  set (m := if mp <? 10 then mp + 3 else mp - 9).
  assert (Hm : (mp < 10 ∧ m = mp + 3) ∨ (10 ≤ mp ∧ m = mp - 9))
    by (subst m; destruct (Z.ltb_spec mp 10); lia).
  clearbody m.
  set (y := if m <=? 2 then yoe + era * 400 + 1 else yoe + era * 400).
  assert (Hy : (m ≤ 2 ∧ y = yoe + era * 400 + 1) ∨ (2 < m ∧ y = yoe + era * 400))
    by (subst y; destruct (Z.leb_spec m 2); lia).
  clearbody y.
  pose proof (month_table y) as T. cbv zeta in T.
  assert (L : ((if is_leap y then 1 else 0) = 1 ∧ y mod 4 = 0 ∧ (y mod 100 ≠ 0 ∨ y mod 400 = 0))
            ∨ ((if is_leap y then 1 else 0) = 0 ∧ ¬ (y mod 4 = 0 ∧ (y mod 100 ≠ 0 ∨ y mod 400 = 0)))).
  { destruct (is_leap y) eqn:E; [left | right]; (split; [done|]).
    - by apply is_leap_spec.
    - rewrite <- is_leap_spec, E. discriminate. }
  revert T L. generalize (if is_leap y then 1 else 0). intros l T L.
  unfold days_before_year.
  destruct T as ((I1 & B1) & (I2 & B2) & (I3 & B3) & (I4 & B4) & (I5 & B5) & (I6 & B6)
                 & (I7 & B7) & (I8 & B8) & (I9 & B9) & (I10 & B10) & (I11 & B11)
                 & (I12 & B12)).
  assert (Hc : m = 1 ∨ m = 2 ∨ m = 3 ∨ m = 4 ∨ m = 5 ∨ m = 6 ∨ m = 7 ∨ m = 8
               ∨ m = 9 ∨ m = 10 ∨ m = 11 ∨ m = 12) by lia.
  split; [lia|].
  destruct Hc as [->|[->|[->|[->|[->|[->|[->|[->|[->|[->|[->| ->]]]]]]]]]]];
    rewrite ?I1, ?I2, ?I3, ?I4, ?I5, ?I6, ?I7, ?I8, ?I9, ?I10, ?I11, ?I12,
      ?B1, ?B2, ?B3, ?B4, ?B5, ?B6, ?B7, ?B8, ?B9, ?B10, ?B11, ?B12;
    clear I1 I2 I3 I4 I5 I6 I7 I8 I9 I10 I11 I12 B1 B2 B3 B4 B5 B6 B7 B8 B9 B10 B11 B12;
    (Z.div_mod_to_equations; lia).
Qed.

(** The date and the time of an instant are unique. *)
Lemma days_before_year_mono y y' : y ≤ y' → days_before_year y ≤ days_before_year y'.
Proof.
  intros H. unfold days_before_year.
  assert (G : ∀ n, (n / 100) = (n / 4) / 25 ∧ n / 400 = (n / 4) / 100).
  { intros n. rewrite !Z.div_div by lia. done. }
  destruct (G (y - 1)) as [-> ->]. destruct (G (y' - 1)) as [-> ->].
  assert (H4 : (y - 1) / 4 ≤ (y' - 1) / 4) by (apply Z.div_le_mono; lia).
  revert H4. generalize ((y - 1) / 4) ((y' - 1) / 4). intros e e' He.
  Z.div_mod_to_equations; lia.
Qed.

Lemma year_span y m d :
  1 ≤ m ≤ 12 → 1 ≤ d ≤ days_in_month y m →
  days_before_year y ≤ days_before_year y + days_before_month y m + (d - 1)
  < days_before_year (y + 1).
Proof.
  intros Hm Hd.
  pose proof (month_table y) as T. cbv zeta in T.
  assert (L : ((if is_leap y then 1 else 0) = 1 ∧ y mod 4 = 0 ∧ (y mod 100 ≠ 0 ∨ y mod 400 = 0))
            ∨ ((if is_leap y then 1 else 0) = 0 ∧ ¬ (y mod 4 = 0 ∧ (y mod 100 ≠ 0 ∨ y mod 400 = 0)))).
  { destruct (is_leap y) eqn:E; [left | right]; (split; [done|]).
    - by apply is_leap_spec.
    - rewrite <- is_leap_spec, E. discriminate. }
  revert T L. generalize (if is_leap y then 1 else 0). intros l T L.
  unfold days_before_year. replace (y + 1 - 1) with y by lia.
  destruct T as ((I1 & B1) & (I2 & B2) & (I3 & B3) & (I4 & B4) & (I5 & B5) & (I6 & B6)
                 & (I7 & B7) & (I8 & B8) & (I9 & B9) & (I10 & B10) & (I11 & B11)
                 & (I12 & B12)).
  assert (Hc : m = 1 ∨ m = 2 ∨ m = 3 ∨ m = 4 ∨ m = 5 ∨ m = 6 ∨ m = 7 ∨ m = 8
               ∨ m = 9 ∨ m = 10 ∨ m = 11 ∨ m = 12) by lia.
  destruct Hc as [->|[->|[->|[->|[->|[->|[->|[->|[->|[->|[->| ->]]]]]]]]]]];
    rewrite ?I1, ?I2, ?I3, ?I4, ?I5, ?I6, ?I7, ?I8, ?I9, ?I10, ?I11, ?I12,
      ?B1, ?B2, ?B3, ?B4, ?B5, ?B6, ?B7, ?B8, ?B9, ?B10, ?B11, ?B12 in *;
    clear I1 I2 I3 I4 I5 I6 I7 I8 I9 I10 I11 I12 B1 B2 B3 B4 B5 B6 B7 B8 B9 B10 B11 B12;
    (Z.div_mod_to_equations; lia).
Qed.

Lemma utc_date_unique t y m d y' m' d' :
  utc_date t y m d → utc_date t y' m' d' → y = y' ∧ m = m' ∧ d = d'.
Proof.
  intros (Hm & Hd & E) (Hm' & Hd' & E').
  pose proof (year_span y m d Hm Hd) as S1.
  pose proof (year_span y' m' d' Hm' Hd') as S2.
  assert (y = y') as <-.
  { destruct (Z.lt_trichotomy y y') as [Hlt|[He|Hgt]]; [|done|].
    - pose proof (days_before_year_mono (y + 1) y'). lia.
    - pose proof (days_before_year_mono (y' + 1) y). lia. }
  split; [done|].
  pose proof (month_table y) as T. cbv zeta in T.
  assert (Hl : 0 ≤ (if is_leap y then 1 else 0) ≤ 1) by (destruct (is_leap y); lia).
  revert T Hl. generalize (if is_leap y then 1 else 0). intros l T Hl.
  destruct T as ((I1 & B1) & (I2 & B2) & (I3 & B3) & (I4 & B4) & (I5 & B5) & (I6 & B6)
                 & (I7 & B7) & (I8 & B8) & (I9 & B9) & (I10 & B10) & (I11 & B11)
                 & (I12 & B12)).
  assert (Hc : m = 1 ∨ m = 2 ∨ m = 3 ∨ m = 4 ∨ m = 5 ∨ m = 6 ∨ m = 7 ∨ m = 8
               ∨ m = 9 ∨ m = 10 ∨ m = 11 ∨ m = 12) by lia.
  assert (Hc' : m' = 1 ∨ m' = 2 ∨ m' = 3 ∨ m' = 4 ∨ m' = 5 ∨ m' = 6 ∨ m' = 7 ∨ m' = 8
               ∨ m' = 9 ∨ m' = 10 ∨ m' = 11 ∨ m' = 12) by lia.
  (destruct Hc as [->|[->|[->|[->|[->|[->|[->|[->|[->|[->|[->| ->]]]]]]]]]]];
    destruct Hc' as [->|[->|[->|[->|[->|[->|[->|[->|[->|[->|[->| ->]]]]]]]]]]];
    rewrite ?I1, ?I2, ?I3, ?I4, ?I5, ?I6, ?I7, ?I8, ?I9, ?I10, ?I11, ?I12,
      ?B1, ?B2, ?B3, ?B4, ?B5, ?B6, ?B7, ?B8, ?B9, ?B10, ?B11, ?B12 in *;
    lia).
Qed.

Lemma utc_gmtime t :
  utc_date t (Time.tm_year (Time.gmtime t)) (Time.tm_mon (Time.gmtime t))
             (Time.tm_mday (Time.gmtime t)) ∧
  utc_clock t (Time.tm_hour (Time.gmtime t)) (Time.tm_min (Time.gmtime t)).
Proof.
  pose proof (civil_from_days_calendar (t / 86400)) as H.
  unfold Time.gmtime, utc_date, utc_clock.
  destruct (Time.civil_from_days (t / 86400)) as [[y m] d]. simpl.
  split; [exact H|]. Z.div_mod_to_equations. lia.
Qed.

Lemma days_in_month_le y m : days_in_month y m ≤ 31.
Proof.
  unfold days_in_month.
  destruct (m =? 2); [by destruct (is_leap y)|].
  by destruct ((m =? 4) || (m =? 6) || (m =? 9) || (m =? 11)).
Qed.

Lemma endswith_app s p : Str.endswith (s +:+ p) p = true.
Proof.
  induction s as [|a s IH]; simpl.
  - destruct p; simpl; [done|]. by rewrite Ascii.eqb_refl, String.eqb_refl.
  - rewrite IH. apply orb_true_r.
Qed.

Lemma append_cons a x y : String a x +:+ y = String a (x +:+ y).
Proof. reflexivity. Qed.

Lemma append_nil y : "" +:+ y = y.
Proof. reflexivity. Qed.

Lemma lstrip_hyphens s : ∃ n, s = hyphens n +:+ Str.lstrip "-" s.
Proof.
  induction s as [|a s (n & IH)]; [by exists 0%nat|]. simpl.
  destruct (Ascii.eqb_spec a "-") as [->|NE].
  - exists (S n). simpl. rewrite append_cons. by f_equal.
  - by exists 0%nat.
Qed.

Lemma rstrip_hyphens s : ∃ k, s = Str.rstrip "-" s +:+ hyphens k.
Proof.
  induction s as [|a s (k & IH)]; [by exists 0%nat|]. simpl.
  destruct (Str.rstrip "-" s) as [|b r].
  - rewrite append_nil in IH. destruct (Ascii.eqb_spec a "-") as [->|NE].
    + exists (S k). rewrite append_nil. simpl. by f_equal.
    + exists k. rewrite append_cons, append_nil. by f_equal.
  - exists k. rewrite append_cons. by f_equal.
Qed.

Lemma strip_trimmed s : trimmed s (Str.strip "-" s).
Proof.
  unfold trimmed, Str.strip. split; [|split].
  - destruct (lstrip_hyphens s) as (n & En).
    destruct (rstrip_hyphens (Str.lstrip "-" s)) as (k & Ek).
    exists n, k. by rewrite <- Ek.
  - intros r' E.
    pose proof (rstrip_head "-" (Str.lstrip "-" s) (lstrip_head "-" s)) as H.
    rewrite E in H. unfold Str.startswith in H. simpl in H.
    by destruct r'.
  - intros r' E.
    pose proof (rstrip_last "-" (Str.lstrip "-" s)) as H.
    rewrite E in H. by rewrite endswith_app in H.
Qed.

Lemma slug_slug_of title : slug_of title (slug title).
Proof.
  unfold slug_of, slug.
  destruct (decide (title = UNTITLED_MEETING)) as [->|NE].
  - vm_compute. reflexivity.
  - destruct (String.eqb_spec UNTITLED_MEETING title) as [E|_]; [by destruct NE|].
    rewrite sluggify_hyphenate. apply strip_trimmed.
Qed.


Lemma utc_clock_unique t hh mi hh' mi' :
  utc_clock t hh mi → utc_clock t hh' mi' → hh = hh' ∧ mi = mi'.
Proof. unfold utc_clock. lia. Qed.

Lemma lstrip_hyphens_app n s : Str.lstrip "-" (hyphens n +:+ s) = Str.lstrip "-" s.
Proof.
  induction n as [|n IH]; [done|].
  change (hyphens (S n) +:+ s) with (String "-" (hyphens n +:+ s)). simpl. exact IH.
Qed.

Lemma rstrip_only_hyphens k : Str.rstrip "-" (hyphens k) = "".
Proof.
  induction k as [|k IH]; [done|].
  change (hyphens (S k)) with (String "-" (hyphens k)). simpl. by rewrite IH.
Qed.

Lemma rstrip_app_hyphens r k : Str.rstrip "-" (r +:+ hyphens k) = Str.rstrip "-" r.
Proof.
  induction r as [|a r IH].
  - rewrite append_nil. apply rstrip_only_hyphens.
  - rewrite append_cons. simpl. by rewrite IH.
Qed.

Lemma rstrip_id r : (∀ r', r ≠ r' +:+ "-") → Str.rstrip "-" r = r.
Proof.
  induction r as [|a r IH]; [done|]. intros H. simpl.
  rewrite IH by (intros r' ->; by apply (H (String a r'))).
  destruct r as [|b r]; [|done].
  destruct (Ascii.eqb_spec a "-") as [->|NE]; [|done].
  by destruct (H "").
Qed.

(** The specification of the trimming has one solution only. *)
Lemma trimmed_strip s r : trimmed s r → r = Str.strip "-" s.
Proof.
  intros ((n & k & ->) & Hhead & Hlast). unfold Str.strip.
  rewrite lstrip_hyphens_app.
  destruct r as [|a r].
  - rewrite append_nil.
    assert (Str.lstrip "-" (hyphens k) = "") as ->; [|done].
    clear. induction k as [|k IH]; [done|]. simpl. exact IH.
  - rewrite append_cons. simpl.
    destruct (Ascii.eqb_spec a "-") as [->|NE]; [by destruct (Hhead r)|].
    rewrite <- append_cons, rstrip_app_hyphens. symmetry. by apply rstrip_id.
Qed.

Lemma slug_of_unique title r r' : slug_of title r → slug_of title r' → r = r'.
Proof.
  unfold slug_of. destruct (decide (title = UNTITLED_MEETING)); [congruence|].
  intros H H'. by rewrite (trimmed_strip _ _ H), (trimmed_strip _ _ H').
Qed.

(** C5: for every meeting the name [figure_logfile_name] returns is the
    start time as YYYY-MM-DD-HH:MM in UTC, an underscore and the slug.  The
    date is the day of the Gregorian calendar on which the start falls,
    counted from 1970-01-01 with the month lengths and the leap years of the
    table, and the time is the hour and the minute of that day; the slug is
    "untitled" for the untitled sentinel, and otherwise what is left of the
    title, each punctuation or whitespace character turned into a hyphen,
    when the hyphens at both ends are taken away.  Such a date, time and slug
    exist, and whichever meet this description, the name built from them is
    the one returned; "Roll Call!" started at 2024-01-02T03:04:00Z gives
    "2024-01-02-03:04_Roll-Call". *)
Theorem figure_logfile_name_spec c w r title start :
  meetings_dict w !! c = Some r →
  items r !! "title" = Some (VStr title) →
  items r !! "start" = Some (VNum start) →
  (∃ y mo d hh mi name,
     utc_date start y mo d ∧ utc_clock start hh mi ∧ slug_of title name) ∧
  (∀ y mo d hh mi name,
     utc_date start y mo d → utc_clock start hh mi → slug_of title name →
     figure_logfile_name c w = (Ok (date_words y mo d hh mi +:+ "_" +:+ name), w)) ∧
  (utc_date 1704164640 2024 1 2 ∧ utc_clock 1704164640 3 4 ∧
   slug_of "Roll Call!" "Roll-Call" ∧
   date_words 2024 1 2 3 4 +:+ "_" +:+ "Roll-Call" = "2024-01-02-03:04_Roll-Call").
Proof.
  intros Hc Ht Hs.
  pose proof (figure_logfile_name_ok c w r title start Hc Ht Hs) as E.
  rewrite logfile_name_slug in E.
  destruct (utc_gmtime start) as (Hd & Hk).
  split; [|split].
  - exists (Time.tm_year (Time.gmtime start)), (Time.tm_mon (Time.gmtime start)),
      (Time.tm_mday (Time.gmtime start)), (Time.tm_hour (Time.gmtime start)),
      (Time.tm_min (Time.gmtime start)), (slug title).
    split; [exact Hd|]. split; [exact Hk | apply slug_slug_of].
  - intros y mo d hh mi name Hd' Hk' Hn.
    destruct (utc_date_unique _ _ _ _ _ _ _ Hd' Hd) as (-> & -> & ->).
    destruct (utc_clock_unique _ _ _ _ _ Hk' Hk) as (-> & ->).
    rewrite (slug_of_unique _ _ _ Hn (slug_slug_of title)).
    rewrite E. do 3 f_equal.
    destruct Hd as (Hm & Hday & _). destruct Hk as (Hh & Hmi & _).
    pose proof (days_in_month_le (Time.tm_year (Time.gmtime start))
                  (Time.tm_mon (Time.gmtime start))).
    unfold Time.fmt_file, date_words. by rewrite !d2_two_digits by lia.
  - split; [|split; [|split]].
    + unfold utc_date. vm_compute. repeat split; discriminate.
    + unfold utc_clock. vm_compute. repeat split; discriminate.
    + unfold slug_of. rewrite decide_False by discriminate.
      unfold trimmed. split; [exists 0%nat, 1%nat; reflexivity|].
      split; intros r' H; [discriminate|].
      do 9 (destruct r' as [|? r']; [discriminate|]; injection H as _ H).
      destruct r'; discriminate.
    + vm_compute. reflexivity.
Qed.

Lemma figure_logfile_name_spec_witness :
  figure_logfile_name "#blouco" Demo.opened
  = (Ok "2024-01-02-03:04_Roll-Call", Demo.opened).
Proof.
  destruct (figure_logfile_name_spec "#blouco" Demo.opened Demo.roll_call
              "Roll Call!" 1704164640) as (_ & E & Hd & Hk & Hn & Hw);
    [vm_compute; reflexivity ..|].
  rewrite <- Hw. exact (E 2024 1 2 3 4 "Roll-Call" Hd Hk Hn).
Defined.

(** ** The further properties on the sample deployment *)

Lemma slug_charset_witness :
  "-"%char ∈ chars (slug "a/b c") ∧ "-"%char ∈ replaced ∧ "-"%char = "-"%char ∧
  "/"%char ∉ chars (slug "a/b c").
Proof.
  assert (H1 : "-"%char ∈ chars (slug "a/b c")) by (vm_compute; repeat constructor).
  assert (H2 : "-"%char ∈ replaced) by (vm_compute; repeat constructor).
  assert (H3 : "/"%char ∈ replaced) by (vm_compute; repeat constructor).
  split; [exact H1|]. split; [exact H2|].
  split; [exact (slug_charset "a/b c" "-" H1 H2)|].
  intros H. discriminate (slug_charset "a/b c" "/" H H3).
Defined.

Lemma slug_of_punctuation_witness :
  slug "?! ..." = "" ∧ logfile_name "?! ..." 1704164640 = "2024-01-02-03:04_".
Proof.
  destruct (slug_of_punctuation "?! ...") as (E & L).
  - apply Forall_forall. vm_compute. repeat constructor.
  - split; [exact E|]. rewrite L. vm_compute. reflexivity.
Defined.

Lemma no_meeting_refused_witness :
  meetingvrau Demo.host (Demo.in_channel "#blouco" "alice" "Dan sweeps") Demo.closed
  = (Ok tt, add_said "Não tem Blouco aqui" None
              (snd (is_meeting_running "#blouco" Demo.closed))) ∧
  show_ows Demo.host (Demo.in_channel "#blouco" "alice" "Dan sweeps") Demo.closed
  = (Ok tt, snd (is_meeting_running "#blouco" Demo.closed)).
Proof.
  destruct (no_meeting_refused Demo.host (Demo.in_channel "#blouco" "alice" "Dan sweeps")
              Demo.closed VDict (snd (is_meeting_running "#blouco" Demo.closed)))
    as (_ & _ & _ & E1 & _ & _ & _ & _ & E2 & _);
    [ vm_compute; reflexivity | reflexivity | ].
  split; [exact E1 | exact E2].
Defined.

Lemma missing_argument_hint_witness :
  meetingvrau Demo.host (Demo.in_channel "#blouco" "zed" "") Demo.opened
  = (Ok tt, add_said "Tente `.vrau Fulanin vai fazer tal coisa`" None Demo.opened).
Proof.
  destruct (missing_argument_hint Demo.host (Demo.in_channel "#blouco" "zed" "")
              Demo.opened Demo.roll_call (VBool true))
    as (_ & _ & E & _);
    [ vm_compute; reflexivity | vm_compute; reflexivity | reflexivity | reflexivity | ].
  exact E.
Defined.

Lemma unauthorized_refused_witness :
  vaiblouco Demo.host (Demo.in_channel "#blouco" "zed" "") Demo.opened
  = (Ok tt, add_said "Somente Porta-estandarte e Puxadoras podem fazer isso" None
              (snd (is_chair Demo.host "zed" "#blouco" Demo.opened))) ∧
  meetingvrau Demo.host (Demo.in_channel "#blouco" "zed" "Dan sweeps") Demo.opened
  = (Ok tt, add_said "Somente a Porta-estandarte e as Puxadoras podem fazer isso" None
              (snd (is_chair Demo.host "zed" "#blouco" Demo.opened))).
Proof.
  destruct (unauthorized_refused Demo.host (Demo.in_channel "#blouco" "zed" "")
              Demo.opened Demo.roll_call (VBool true)
              (snd (is_chair Demo.host "zed" "#blouco" Demo.opened)))
    as (_ & _ & E1 & _);
    [ vm_compute; reflexivity | vm_compute; reflexivity | reflexivity
    | vm_compute; reflexivity | ].
  destruct (unauthorized_refused Demo.host (Demo.in_channel "#blouco" "zed" "Dan sweeps")
              Demo.opened Demo.roll_call (VBool true)
              (snd (is_chair Demo.host "zed" "#blouco" Demo.opened)))
    as (_ & _ & _ & _ & _ & E2 & _);
    [ vm_compute; reflexivity | vm_compute; reflexivity | reflexivity
    | vm_compute; reflexivity | ].
  split; [exact E1 | exact E2].
Defined.

Lemma vemblouco_starts_meeting_witness :
  ∃ w' r',
    vemblouco Demo.host (Demo.in_channel "#blouco" "Alice" "Roll Call!") Demo.boot
    = (Ok tt, w') ∧
    started (meetings_dict w') "#blouco" r' "alice" "Roll Call!" 1704164640 ∧
    is_chair Demo.host "Alice" "#blouco" w' = (Ok true, w').
Proof.
  destruct (vemblouco_starts_meeting Demo.host
              (Demo.in_channel "#blouco" "Alice" "Roll Call!") Demo.boot
              (VBool false) (snd (is_meeting_running "#blouco" Demo.boot)))
    as (w' & r' & E & Hst & _ & _ & _ & Hch & _);
    [ reflexivity | vm_compute; reflexivity | reflexivity | right; reflexivity
    | reflexivity | reflexivity | ].
  exists w', r'. split; [exact E|]. split; [exact Hst | exact Hch].
Defined.

Lemma vemblouco_normalizes_paths_witness :
  ∃ w',
    vemblouco Demo.host (Demo.in_channel "#blouco" "Alice" "Roll Call!") Demo.boot
    = (Ok tt, w') ∧
    meeting_log_path w' = "/srv/meetings/" ∧
    meeting_log_baseurl w' = "http://example.org/meetings/" ∧
    "/srv/meetings/#blouco" ∈ dirs w'.
Proof.
  destruct (vemblouco_normalizes_paths Demo.host
              (Demo.in_channel "#blouco" "Alice" "Roll Call!") Demo.boot
              (VBool false) (snd (is_meeting_running "#blouco" Demo.boot)))
    as (w' & E & Hp & Hu & _ & _ & _ & Hd);
    [ reflexivity | vm_compute; reflexivity | reflexivity | right; reflexivity
    | reflexivity | reflexivity | ].
  exists w'. split; [exact E|]. split; [exact Hp|]. split; [exact Hu | exact Hd].
Defined.

Lemma untitled_logfile_name_witness :
  ∃ w',
    vemblouco Demo.host Stage.untitled Demo.opened = (Ok tt, w') ∧
    figure_logfile_name "#samba" w' = (Ok "2024-01-02-03:06_untitled", w').
Proof.
  destruct (untitled_logfile_name Demo.host Stage.untitled Demo.opened
              (VBool false) (snd (is_meeting_running "#samba" Demo.opened)))
    as (w' & E & F);
    [ reflexivity | vm_compute; reflexivity | reflexivity | right; reflexivity
    | reflexivity | reflexivity | reflexivity | ].
  exists w'. split; [exact E | exact F].
Defined.

Lemma vemblouco_makedirs_failure_witness :
  ∃ w',
    vemblouco Stage.no_mkdir (Demo.in_channel "#blouco" "Alice" "Roll Call!") Demo.boot
    = (Raise OSError, w') ∧
    meetings_dict w' !! "#blouco" = Some default_dict ∧
    appended w' = [] ∧ opens w' = 0%nat.
Proof.
  destruct (vemblouco_makedirs_failure Stage.no_mkdir
              (Demo.in_channel "#blouco" "Alice" "Roll Call!") Demo.boot
              (VBool false) (snd (is_meeting_running "#blouco" Demo.boot)))
    as (w' & E & Hr & _ & _ & Ha & Ho & _);
    [ reflexivity | vm_compute; reflexivity | reflexivity
    | vm_compute; discriminate | reflexivity | ].
  exists w'. split; [exact E|]. split; [exact Hr|]. split; [exact Ha | exact Ho].
Defined.



Lemma vaiblouco_stops_meeting_witness :
  ∃ w'',
    is_meeting_running "#blouco"
      (snd (vaiblouco Stage.offline (Demo.in_channel "#blouco" "alice" "") Demo.opened))
    = (Ok VDict, w'').
Proof.
  destruct (vaiblouco_stops_meeting Stage.offline (Demo.in_channel "#blouco" "alice" "")
              Demo.opened Demo.roll_call "alice" "Roll Call!" 1704164640)
    as (w'' & E & _);
    [ apply roll_call_started; reflexivity | by left | reflexivity | reflexivity | ].
  exists w''. exact E.
Defined.

Lemma meetingmissao_sets_topic_witness :
  ∃ w',
    meetingmissao Demo.host (Demo.in_channel "#blouco" "Alice" "Route") Demo.opened
    = (Ok tt, w') ∧
    items (Demo.record_of w' "#blouco") !! "current_missão" = Some (VStr "Route") ∧
    said w' = said Demo.opened ++ [(Demo.bold "Missão atual:" +:+ " Route", None)].
Proof.
  destruct (meetingmissao_sets_topic Demo.host
              (Demo.in_channel "#blouco" "Alice" "Route")
              Demo.opened Demo.roll_call "alice" "Roll Call!" 1704164640)
    as (w' & E & Hm & _ & Hs & _);
    [ apply roll_call_started; reflexivity | by left | discriminate
    | reflexivity | reflexivity | ].
  exists w'. split; [exact E|]. split; [|exact Hs].
  unfold Demo.record_of. rewrite Hm. simpl. rewrite lookup_insert_eq. simpl.
  apply lookup_insert_eq.
Defined.

Lemma blz_and_seliga_only_log_witness :
  ∃ w',
    meetingseliga Demo.host (Demo.in_channel "#blouco" "alice" "rain at noon") Demo.with_vraus
    = (Ok tt, w') ∧
    meetings_dict w' = meetings_dict Demo.with_vraus ∧
    meeting_vraus w' = meeting_vraus Demo.with_vraus.
Proof.
  destruct (blz_and_seliga_only_log Demo.host
              (Demo.in_channel "#blouco" "alice" "rain at noon")
              Demo.with_vraus Demo.roll_call "alice" "Roll Call!" 1704164640)
    as (_ & w' & E & Hm & Hv & _);
    [ apply roll_call_started; vm_compute; reflexivity | by left | discriminate
    | reflexivity | reflexivity | ].
  exists w'. split; [exact E|]. split; [exact Hm | exact Hv].
Defined.

Lemma meetingvrau_log_failure_witness :
  ∃ w',
    meetingvrau Stage.full_disk (Demo.in_channel "#blouco" "alice" "Dan sweeps") Demo.opened
    = (Raise OSError, w') ∧
    meeting_vraus w' = meeting_vraus Demo.opened ∧
    appended w'
    = appended Demo.opened ++
      [("/srv/meetings/#blouco/2024-01-02-03:04_Roll-Call.txt",
        "[03:06:00] vrau: Dan sweeps" +:+ CRLF)].
Proof.
  destruct (meetingvrau_log_failure Stage.full_disk
              (Demo.in_channel "#blouco" "alice" "Dan sweeps")
              Demo.opened Demo.roll_call "alice" "Roll Call!" 1704164640)
    as (w' & E & Hv & _ & _ & Ha);
    [ apply roll_call_started; reflexivity | by left | discriminate | reflexivity | ].
  exists w'. split; [exact E|]. split; [exact Hv|]. rewrite Ha. vm_compute. reflexivity.
Defined.

Lemma state_set_before_logging_witness :
  (∃ w', puxam Demo.broken_disk (Demo.in_channel "#blouco" "Alice" "Bob Carol") Demo.opened
         = (Raise OSError, w') ∧
         items (Demo.record_of w' "#blouco") !! "puxam"
         = Some (VList [EStr "bob"; EStr "carol"])) ∧
  (∃ w', meetingmissao Demo.broken_disk (Demo.in_channel "#blouco" "alice" "Route")
           Demo.opened
         = (Raise OSError, w') ∧
         items (Demo.record_of w' "#blouco") !! "current_missão" = Some (VStr "Route")).
Proof.
  destruct (state_set_before_logging Demo.broken_disk
              (Demo.in_channel "#blouco" "Alice" "Bob Carol")
              (Demo.in_channel "#blouco" "alice" "Route")
              Demo.opened Demo.roll_call "alice" "Roll Call!" 1704164640)
    as ((w1 & E1 & H1 & _) & (w2 & E2 & H2 & _));
    [ apply roll_call_started; reflexivity | reflexivity | discriminate | reflexivity
    | discriminate | reflexivity | by left | reflexivity | ].
  split.
  - exists w1. split; [exact E1|]. unfold Demo.record_of.
    change (Demo.in_channel "#blouco" "Alice" "Bob Carol").(sender) with "#blouco" in H1.
    rewrite H1. simpl. apply lookup_insert_eq.
  - exists w2. split; [exact E2|]. unfold Demo.record_of.
    change (Demo.in_channel "#blouco" "Alice" "Bob Carol").(sender) with "#blouco" in H2.
    rewrite H2. simpl. apply lookup_insert_eq.
Defined.

Lemma puxam_authorizes_listed_witness :
  ∃ w',
    puxam Demo.host (Demo.in_channel "#blouco" "Alice" "Dan") Stage.with_chairs
    = (Ok tt, w') ∧
    is_chair Demo.host "Dan" "#blouco" w' = (Ok true, w') ∧
    is_chair Demo.host "Bob" "#blouco" w' = (Ok false, w').
Proof.
  destruct (puxam_authorizes_listed Demo.host (Demo.in_channel "#blouco" "Alice" "Dan")
              Stage.with_chairs (Demo.record_of Stage.with_chairs "#blouco")
              "alice" "Roll Call!" 1704164640)
    as (w' & E & _ & _ & Hch);
    [ unfold started; split_and!; vm_compute; reflexivity | discriminate | reflexivity
    | reflexivity | reflexivity | reflexivity | ].
  exists w'. split; [exact E|]. split.
  - etrans; [exact (Hch "Dan") | vm_compute; reflexivity].
  - etrans; [exact (Hch "Bob") | vm_compute; reflexivity].
Defined.

Lemma show_ows_reports_all_witness :
  ∃ w',
    show_ows Demo.host (Demo.in_channel "#blouco" "alice" "") Stage.with_ows = (Ok tt, w') ∧
    said w'
    = said Stage.with_ows ++
      [("Lista de Ows:", None); ("<zed> louder please", None);
       ("<yan> slower please", None)] ∧
    items (Demo.record_of w' "#blouco") !! "ows" = Some (VList []).
Proof.
  destruct (show_ows_reports_all Demo.host (Demo.in_channel "#blouco" "alice" "")
              Stage.with_ows (Demo.record_of Stage.with_ows "#blouco")
              "alice" "Roll Call!" 1704164640
              [("zed", "louder please"); ("yan", "slower please")])
    as (w' & E & Hs & _ & Hm & _);
    [ unfold started; split_and!; vm_compute; reflexivity | by left
    | vm_compute; reflexivity | discriminate | reflexivity | ].
  exists w'. split; [exact E|]. split; [exact Hs|].
  unfold Demo.record_of. rewrite Hm. simpl. rewrite lookup_insert_eq. simpl.
  apply lookup_insert_eq.
Defined.

Lemma logging_needs_meeting_witness :
  log_plain Demo.host "vrau: Dan sweeps" "#blouco" Demo.boot
  = (Raise KeyError, set_meetings (<["#blouco" := plain_dict]>) Demo.boot) ∧
  log_plain Demo.host "vrau: Dan sweeps" "#blouco" Demo.closed
  = (Raise AttributeError,
     set_meetings (<["#blouco" := mkMeeting true {[ "title" := VDict ]}]>) Demo.closed).
Proof.
  destruct (logging_needs_meeting Demo.host "#blouco" "vrau: Dan sweeps"
              Demo.boot Demo.closed) as ((_ & E1 & _) & (_ & E2));
    [ vm_compute; reflexivity | vm_compute; reflexivity | ].
  split; [exact E1 | exact E2].
Defined.
